(** * Speech-to-text service: a shallow embedding of the backend

  The backend is four Python modules:
  - [config.py]: constants;
  - [audio_utils.py]: [convert_to_wav], [validate_audio];
  - [model_service.py]: class [ModelService] and [get_model_service];
  - [app.py]: the FastAPI handlers.

  Python statements become computations in a state-and-exception monad
  over a [world] (file system, logger output, module globals).  What the
  code obtains from librosa, soundfile, NeMo and torch is read from a
  [platform] record, one field per library entry point. *)

From Stdlib Require Import Ascii String QArith.
From stdpp Require Import gmap strings list fin_maps pretty.

Open Scope string_scope.

(** ** Python string operations used by the code *)

Module PyStr.

(** [s.rpartition(c)], without the separator: the text before and after
    the last occurrence of [c], or [None] when [c] does not occur. *)
Fixpoint rpartition (c : ascii) (s : string) : option (string * string) :=
  match s with
  | "" => None
  | String a s' =>
      match rpartition c s' with
      | Some (l, r) => Some (String a l, r)
      | None => if Ascii.eqb a c then Some ("", s') else None
      end
  end.

(** [s.rsplit(c, 1)[0]] *)
Definition rsplit1_head (c : ascii) (s : string) : string :=
  match rpartition c s with
  | Some (l, _) => l
  | None => s
  end.

Definition lower_ascii (a : ascii) : ascii :=
  let n := nat_of_ascii a in
  if (65 <=? n)%nat && (n <=? 90)%nat then ascii_of_nat (n + 32) else a.

(** [s.lower()] for a string of ASCII characters. *)
Fixpoint ascii_lower (s : string) : string :=
  match s with
  | "" => ""
  | String a s' => String (lower_ascii a) (ascii_lower s')
  end.

Definition upper_ascii (a : ascii) : ascii :=
  let n := nat_of_ascii a in
  if (97 <=? n)%nat && (n <=? 122)%nat then ascii_of_nat (n - 32) else a.

(** [s.upper()] for a string of ASCII characters. *)
Fixpoint ascii_upper (s : string) : string :=
  match s with
  | "" => ""
  | String a s' => String (upper_ascii a) (ascii_upper s')
  end.

(** [s.isascii()]; a Python string is held as its UTF-8 bytes, so every
    character outside ASCII shows as bytes above 127. *)
Fixpoint is_ascii (s : string) : bool :=
  match s with
  | "" => true
  | String a s' => (nat_of_ascii a <? 128)%nat && is_ascii s'
  end.

(** [s.split(c)] *)
Fixpoint split (c : ascii) (s : string) : list string :=
  match s with
  | "" => [""]
  | String a s' =>
      if Ascii.eqb a c then "" :: split c s'
      else match split c s' with
           | x :: xs => String a x :: xs
           | [] => [String a ""]
           end
  end.

(** [s[1:]] *)
Definition tail (s : string) : string :=
  match s with
  | "" => ""
  | String _ s' => s'
  end.

Fixpoint all_chars (c : ascii) (s : string) : bool :=
  match s with
  | "" => true
  | String a s' => Ascii.eqb a c && all_chars c s'
  end.

(** [sep.join(l)] *)
Fixpoint join (sep : string) (l : list string) : string :=
  match l with
  | [] => ""
  | [x] => x
  | x :: l' => x ++ sep ++ join sep l'
  end.

(** [s[:n]] *)
Definition take (n : nat) (s : string) : string := String.substring 0 n s.

Definition startswith (p s : string) : bool := String.prefix p s.

Definition endswith_char (c : ascii) (s : string) : bool :=
  match String.get (String.length s - 1) s with
  | Some a => Ascii.eqb a c
  | None => false
  end.

(** [s[len(p):]] when [s] starts with [p]. *)
Fixpoint strip_prefix (p s : string) : option string :=
  match p, s with
  | "", _ => Some s
  | String a p', String b s' => if Ascii.eqb a b then strip_prefix p' s' else None
  | String _ _, "" => None
  end.

Fixpoint contains_char (c : ascii) (s : string) : bool :=
  match s with
  | "" => false
  | String a s' => Ascii.eqb a c || contains_char c s'
  end.

End PyStr.

(** ** [os.path] and [pathlib], POSIX flavour *)

Module PyPath.

(** [os.path.join(a, b)] *)
Definition join (a b : string) : string :=
  if PyStr.startswith "/" b then b
  else if (String.length a =? 0)%nat || PyStr.endswith_char "/" a then a ++ b
  else a ++ "/" ++ b.

(** The components pathlib keeps when it parses [p]: empty components and
    ["."] components are dropped. *)
Definition kept (x : string) : bool :=
  negb (String.eqb x "") && negb (String.eqb x ".").

Definition parts (p : string) : list string :=
  List.filter kept (PyStr.split "/" p).

(** [PurePath(p).name]: the last component kept, [''] when there is none. *)
Definition name (p : string) : string := List.last (parts p) "".

(** [PurePath(p).suffix]:
    [i = name.rfind('.'); name[i:] if 0 < i < len(name) - 1 else ''] *)
Definition suffix (p : string) : string :=
  match PyStr.rpartition "." (name p) with
  | Some (l, r) =>
      if (0 <? String.length l)%nat && (0 <? String.length r)%nat
      then "." ++ r else ""
  | None => ""
  end.

(** [os.path.splitext(p)[1]]: from the last dot of the last component,
    unless only dots precede it there. *)
Definition splitext_ext (p : string) : string :=
  let base := match PyStr.rpartition "/" p with Some (_, r) => r | None => p end in
  match PyStr.rpartition "." base with
  | Some (l, r) => if PyStr.all_chars "." l then "" else "." ++ r
  | None => ""
  end.

End PyPath.

(** ** Values *)

(** A decoded waveform as numpy holds it: [ndim == 1] for a flat waveform,
    otherwise one row per channel ([shape[0]] channels).  Samples are
    floats in Python; they are rationals here and never inspected. *)
Inductive ndarray :=
| Arr1 (y : list Q)
| Arr2 (rows : list (list Q)).

Definition ndim (a : ndarray) : nat :=
  match a with Arr1 _ => 1 | Arr2 _ => 2 end.

(** [a.shape[0]] *)
Definition shape0 (a : ndarray) : nat :=
  match a with Arr1 y => length y | Arr2 rows => length rows end.

(** [a.shape[-1]] *)
Definition shape_last (a : ndarray) : nat :=
  match a with
  | Arr1 y => length y
  | Arr2 rows => match rows with [] => 0 | r :: _ => length r end
  end.

(** What a regular file holds: bytes received from a client, or a
    waveform file written by [soundfile.write] with its sample rate. *)
Inductive content :=
| Raw (bytes : list Byte.byte)
| Wav (y : ndarray) (samplerate : positive).

Inductive node :=
| RegularFile (c : content)
| Directory.

(** The loaded NeMo model and what [model.transcribe] returns for one
    file: a plain string, or a hypothesis object with [.text] and possibly
    [.language]. *)
Record ASRModel := { pretrained_name : string; on_cuda : bool }.

Inductive asr_output :=
| PlainText (s : string)
| HypothesisObj (text : string) (language : option string).

(** Exceptions, by the classes the code tells apart. [LibraryError] stands
    for any other [Exception] subclass raised inside a library. *)
Inductive exn :=
| ValueError (msg : string)
| RuntimeError (msg : string)
| OSError (msg : string)
| IndexError (msg : string)
| LibraryError (msg : string)
| HTTPException (status_code : nat) (detail : string).

(** [str(e)] *)
Definition str (e : exn) : string :=
  match e with
  | ValueError m | RuntimeError m | OSError m | IndexError m | LibraryError m => m
  | HTTPException c d => pretty c ++ ": " ++ d
  end.

Inductive result (A : Type) :=
| Return (a : A)
| Raise (e : exn).
Arguments Return {A} a.
Arguments Raise {A} e.

(** An instance of class [ModelService]; [oid] is the object's identity. *)
Record ModelService := {
  oid : nat;
  model : option ASRModel;
  model_name : string
}.

(** ** The libraries and the host, as the code sees them *)

Record platform := {
  (** [os.path.dirname(os.path.abspath(__file__))] of [config.py] *)
  BASE_DIR : string;
  (** the decoder behind [librosa.load(path, sr=None, mono=False)]:
      waveform and native sample rate, or [None] for undecodable bytes *)
  decode_audio : list Byte.byte -> option (ndarray * positive);
  (** [librosa.to_mono] on a multi-channel waveform *)
  mixdown : list (list Q) -> list Q;
  (** [librosa.resample] of one channel, from [orig_sr] to [target_sr] *)
  resample : positive -> positive -> list Q -> list Q;
  (** float formatting [f"{x:.nf}"] *)
  format_float : nat -> Q -> string;
  (** [str.lower] and [str.upper] on strings with characters outside
      ASCII *)
  unicode_lower : string -> string;
  unicode_upper : string -> string;
  (** whether libsndfile creates a file of the named container with this
      many channels at this rate *)
  libsndfile_accepts : string -> nat -> positive -> bool;
  (** [nemo_asr.models.ASRModel.from_pretrained(name)] *)
  from_pretrained : string -> result ASRModel;
  (** [torch.cuda.is_available()], [torch.cuda.get_device_name(0)] *)
  cuda_is_available : bool;
  cuda_get_device_name : string;
  (** [model.transcribe(paths)], from the contents found at the paths *)
  model_transcribe : ASRModel -> list (option node) -> result (list asr_output)
}.

(** ** [str.lower] and [str.upper] *)

Module Str.

Definition lower (P : platform) (s : string) : string :=
  if PyStr.is_ascii s then PyStr.ascii_lower s else unicode_lower P s.

Definition upper (P : platform) (s : string) : string :=
  if PyStr.is_ascii s then PyStr.ascii_upper s else unicode_upper P s.

End Str.

(** ** The state of the process and of its host *)

Record world := {
  (** the file system, by full path *)
  fs : gmap string node;
  (** paths on which [os.remove] is refused by the host (a file held open
      by another process, a directory without write permission) *)
  undeletable : gset string;
  (** paths which cannot be created or opened for writing *)
  unwritable : gset string;
  (** records emitted through [logging], oldest first: level and message *)
  log : list (string * string);
  (** number of [ModelService] objects allocated so far *)
  allocated : nat;
  (** the [ModelService] objects whose constructor has returned *)
  instances : list ModelService;
  (** [model_service._model_service_instance] *)
  _model_service_instance : option ModelService;
  (** [app.model_service] *)
  model_service : option ModelService
}.

Definition set_fs (f : gmap string node -> gmap string node) (w : world) : world :=
  {| fs := f (fs w); undeletable := undeletable w; unwritable := unwritable w;
     log := log w; allocated := allocated w; instances := instances w;
     _model_service_instance := _model_service_instance w;
     model_service := model_service w |}.

Definition add_log (level msg : string) (w : world) : world :=
  {| fs := fs w; undeletable := undeletable w; unwritable := unwritable w;
     log := log w ++ [(level, msg)]; allocated := allocated w;
     instances := instances w;
     _model_service_instance := _model_service_instance w;
     model_service := model_service w |}.

Definition set_allocated (n : nat) (w : world) : world :=
  {| fs := fs w; undeletable := undeletable w; unwritable := unwritable w;
     log := log w; allocated := n; instances := instances w;
     _model_service_instance := _model_service_instance w;
     model_service := model_service w |}.

Definition add_instance (ms : ModelService) (w : world) : world :=
  {| fs := fs w; undeletable := undeletable w; unwritable := unwritable w;
     log := log w; allocated := allocated w; instances := instances w ++ [ms];
     _model_service_instance := _model_service_instance w;
     model_service := model_service w |}.

Definition set__model_service_instance (o : option ModelService) (w : world) : world :=
  {| fs := fs w; undeletable := undeletable w; unwritable := unwritable w;
     log := log w; allocated := allocated w; instances := instances w;
     _model_service_instance := o;
     model_service := model_service w |}.

Definition set_model_service (o : option ModelService) (w : world) : world :=
  {| fs := fs w; undeletable := undeletable w; unwritable := unwritable w;
     log := log w; allocated := allocated w; instances := instances w;
     _model_service_instance := _model_service_instance w;
     model_service := o |}.

(** ** Statements as computations *)

Definition M (A : Type) : Type := world -> world * result A.

Definition ret {A} (a : A) : M A := fun w => (w, Return a).

Definition bind {A B} (c : M A) (k : A -> M B) : M B :=
  fun w =>
    match c w with
    | (w', Return a) => k a w'
    | (w', Raise e) => (w', Raise e)
    end.

Definition raise {A} (e : exn) : M A := fun w => (w, Raise e).

(** [try: c  except ...: h]; [h e = None] when no clause matches [e]. *)
Definition try_except {A} (c : M A) (h : exn -> option (M A)) : M A :=
  fun w =>
    match c w with
    | (w', Return a) => (w', Return a)
    | (w', Raise e) =>
        match h e with
        | Some k => k w'
        | None => (w', Raise e)
        end
    end.

(** [try: c  finally: f]: [f] always runs; an exception escaping [f]
    replaces the outcome of [c]. *)
Definition try_finally {A} (c : M A) (f : M unit) : M A :=
  fun w =>
    match c w with
    | (w', r) =>
        match f w' with
        | (w'', Return _) => (w'', r)
        | (w'', Raise e) => (w'', Raise e)
        end
    end.

Notation "'do' x <- c ; k" := (bind c (fun x => k))
  (at level 10, x name, c at level 100, k at level 200,
   format "'[v' 'do'  x  <-  c ; '/' k ']'").
Notation "'exec' c ; k" := (bind c (fun _ => k))
  (at level 10, c at level 100, k at level 200,
   format "'[v' 'exec'  c ; '/' k ']'").

(** [for x in l: body] *)
Fixpoint for_each {A} (l : list A) (body : A -> M unit) : M unit :=
  match l with
  | [] => ret tt
  | x :: l' => exec body x; for_each l' body
  end.

(** [if b: c] *)
Definition when (b : bool) (c : M unit) : M unit :=
  if b then c else ret tt.

Definition logger_info (msg : string) : M unit := fun w => (add_log "INFO" msg w, Return tt).
Definition logger_warning (msg : string) : M unit := fun w => (add_log "WARNING" msg w, Return tt).
Definition logger_error (msg : string) : M unit := fun w => (add_log "ERROR" msg w, Return tt).

(** ** [os] *)

Module os.

(** [os.path.exists(p)] *)
Definition path_exists (p : string) : M bool :=
  fun w => (w, Return (bool_decide (is_Some (fs w !! p)))).

(** [os.path.isfile(p)] *)
Definition path_isfile (p : string) : M bool :=
  fun w => (w, Return match fs w !! p with Some (RegularFile _) => true | _ => false end).

(** [os.remove(p)] *)
Definition remove (p : string) : M unit :=
  fun w =>
    match fs w !! p with
    | None => (w, Raise (OSError ("[Errno 2] No such file or directory: " ++ p)))
    | Some Directory => (w, Raise (OSError ("[Errno 21] Is a directory: " ++ p)))
    | Some (RegularFile _) =>
        if decide (p ∈ undeletable w)
        then (w, Raise (OSError ("[Errno 13] Permission denied: " ++ p)))
        else (set_fs (delete p) w, Return tt)
    end.

(** The entry name of [p] when [p] lies directly in directory [d]. *)
Definition entry_name (d p : string) : option string :=
  match PyStr.strip_prefix (PyPath.join d "") p with
  | Some n =>
      if (String.length n =? 0)%nat || PyStr.contains_char "/" n then None else Some n
  | None => None
  end.

(** [os.listdir(d)]; the order is the host's. *)
Definition listdir (d : string) : M (list string) :=
  fun w =>
    match fs w !! d with
    | Some Directory =>
        (w, Return (omap (fun kv => entry_name d (fst kv)) (map_to_list (fs w))))
    | Some (RegularFile _) => (w, Raise (OSError ("[Errno 20] Not a directory: " ++ d)))
    | None => (w, Raise (OSError ("[Errno 2] No such file or directory: " ++ d)))
    end.

(** [with open(p, "wb") as f: f.write(data)] *)
Definition write_bytes (p : string) (data : list Byte.byte) : M unit :=
  fun w =>
    if decide (p ∈ unwritable w)
    then (w, Raise (OSError ("[Errno 13] Permission denied: " ++ p)))
    else match fs w !! p with
         | Some Directory => (w, Raise (OSError ("[Errno 21] Is a directory: " ++ p)))
         | _ => (set_fs (<[p := RegularFile (Raw data)]>) w, Return tt)
         end.

End os.

(** ** [config.py] *)

Module config.

Definition MODEL_NAME : string := "nvidia/parakeet-tdt-0.6b-v3".
Definition SAMPLE_RATE : positive := 16000.
Definition MAX_AUDIO_DURATION : Z := 24 * 60.
Definition ALLOWED_FORMATS : list string :=
  [".wav"; ".webm"; ".mp3"; ".flac"; ".m4a"; ".ogg"].

Definition UPLOAD_DIR (P : platform) : string := PyPath.join (BASE_DIR P) "uploads".
Definition TEMP_DIR (P : platform) : string := PyPath.join (UPLOAD_DIR P) "temp".

End config.

(** ** librosa and soundfile, on top of the platform's decoder *)

Module librosa.
Section with_platform.
Context (P : platform).

(** [librosa.to_mono] *)
Definition to_mono (a : ndarray) : ndarray :=
  match a with
  | Arr1 y => Arr1 y
  | Arr2 rows => Arr1 (mixdown P rows)
  end.

(** [librosa.resample(y, orig_sr=, target_sr=)]; the identity when the
    rates agree. *)
Definition resample_to (orig target : positive) (a : ndarray) : ndarray :=
  if Pos.eqb orig target then a
  else match a with
       | Arr1 y => Arr1 (resample P orig target y)
       | Arr2 rows => Arr2 (map (resample P orig target) rows)
       end.

(** soundfile lays a two-dimensional array out as frames of channels;
    librosa returns channels of frames, and a flat array for one channel. *)
Definition channels_first (a : ndarray) : ndarray :=
  match a with
  | Arr1 y => Arr1 y
  | Arr2 frames =>
      match shape_last a with
      | 1 => Arr1 (map (fun fr => nth 0 fr 0%Q) frames)
      | n => Arr2 (map (fun c => map (fun fr => nth c fr 0%Q) frames) (seq 0 n))
      end
  end.

Definition decode (c : content) : option (ndarray * positive) :=
  match c with
  | Raw b => decode_audio P b
  | Wav y r => Some (channels_first y, r)
  end.

(** [librosa.load(path, sr=sr, mono=mono)] *)
Definition load (path : string) (sr : option positive) (mono : bool)
  : M (ndarray * positive) :=
  fun w =>
    match fs w !! path with
    | None => (w, Raise (OSError ("[Errno 2] No such file or directory: " ++ path)))
    | Some Directory => (w, Raise (OSError ("[Errno 21] Is a directory: " ++ path)))
    | Some (RegularFile c) =>
        match decode c with
        | None => (w, Raise (LibraryError "NoBackendError"))
        | Some (y, sr_native) =>
            let y := if mono then to_mono y else y in
            match sr with
            | Some target => (w, Return (resample_to sr_native target y, target))
            | None => (w, Return (y, sr_native))
            end
        end
    end.

(** [librosa.get_duration(y=y, sr=sr)]: [y.shape[-1] / sr] *)
Definition get_duration (y : ndarray) (sr : positive) : Q :=
  Z.of_nat (shape_last y) # sr.

End with_platform.
End librosa.

Module sf.
Section with_platform.
Context (P : platform).

(** The container formats of soundfile's table that have a default
    subtype ([RAW] has none and cannot be written without one). *)
Definition formats : list string :=
  ["WAV"; "AIFF"; "AU"; "PAF"; "SVX"; "NIST"; "VOC"; "IRCAM"; "W64"; "MAT4";
   "MAT5"; "PVF"; "XI"; "HTK"; "SDS"; "AVR"; "WAVEX"; "SD2"; "FLAC"; "CAF";
   "WVE"; "OGG"; "MPC2K"; "RF64"; "MP3"].

(** The format soundfile reads off the file name:
    [os.path.splitext(file)[-1][1:].upper()] *)
Definition format_of (file : string) : string :=
  Str.upper P (PyStr.tail (PyPath.splitext_ext file)).

(** Whether libsndfile takes the data in that container: the rate must
    fit a C [int]; a flat waveform always fits a WAV file; anything else
    is the library's decision, on the channel count [data.shape[1]]. *)
Definition container_accepts (fmt : string) (data : ndarray) (samplerate : positive)
  : bool :=
  (Z.pos samplerate <? 2147483648)%Z
  && match data with
     | Arr1 _ => String.eqb fmt "WAV" || libsndfile_accepts P fmt 1 samplerate
     | Arr2 _ => libsndfile_accepts P fmt (shape_last data) samplerate
     end.

Definition can_write (file : string) (data : ndarray) (samplerate : positive) : bool :=
  bool_decide (format_of file ∈ formats)
  && container_accepts (format_of file) data samplerate.

(** [soundfile.write(file, data, samplerate)]: the format is read off the
    file name and checked together with the channel count and the rate
    before the file is opened. *)
Definition write (file : string) (data : ndarray) (samplerate : positive) : M unit :=
  fun w =>
    if negb (bool_decide (format_of file ∈ formats))
    then (w, Raise (LibraryError
                      ("No format specified and unable to get format from file extension: "
                       ++ file)))
    else if negb (container_accepts (format_of file) data samplerate)
    then (w, Raise (LibraryError "Invalid combination of format, subtype and endian"))
    else if decide (file ∈ unwritable w)
    then (w, Raise (RuntimeError ("Error opening " ++ file ++ ": System error.")))
    else match fs w !! file with
         | Some Directory =>
             (w, Raise (RuntimeError ("Error opening " ++ file ++ ": System error.")))
         | _ => (set_fs (<[file := RegularFile (Wav data samplerate)]>) w, Return tt)
         end.

End with_platform.
End sf.

(** ** [audio_utils.py] *)

(** The dictionary returned by [validate_audio]. *)
Record AudioInfo := {
  duration : Q;
  sample_rate : positive;
  channels : nat;
  valid : bool
}.

Module audio_utils.
Section with_platform.
Context (P : platform).
Import config.

Definition convert_to_wav (input_path : string) (output_path : option string) : M string :=
  try_except
    (do loaded <- librosa.load P input_path (Some SAMPLE_RATE) true;
     let audio := fst loaded in
     let output_path :=
       match output_path with
       | None => PyStr.rsplit1_head "." input_path ++ "_converted.wav"
       | Some p => p
       end in
     exec sf.write P output_path audio SAMPLE_RATE;
     ret output_path)
    (fun e => Some (raise (ValueError ("Failed to convert audio file: " ++ str e)))).

Definition validate_audio (file_path : string) : M AudioInfo :=
  try_except
    (do loaded <- librosa.load P file_path None false;
     let audio := fst loaded in
     let sr := snd loaded in
     let duration := librosa.get_duration audio sr in
     if Qlt_le_dec (inject_Z MAX_AUDIO_DURATION) duration
     then raise (ValueError ("Audio duration (" ++ format_float P 1 duration
                             ++ "s) exceeds maximum allowed duration ("
                             ++ pretty MAX_AUDIO_DURATION ++ "s)"))
     else
       let channels := if (ndim audio =? 1)%nat then 1%nat else shape0 audio in
       ret {| duration := duration; sample_rate := sr;
              channels := channels; valid := true |})
    (fun e => Some (raise (ValueError ("Audio validation failed: " ++ str e)))).

Definition get_audio_info (file_path : string) : M string :=
  do info <- validate_audio file_path;
  ret ("Duration: " ++ format_float P 2 (duration info) ++ "s, "
       ++ "Sample Rate: " ++ pretty (Z.pos (sample_rate info)) ++ "Hz, "
       ++ "Channels: " ++ pretty (channels info)).

End with_platform.
End audio_utils.

(** ** [model_service.py] *)

(** The dictionary returned by [ModelService.transcribe]. *)
Record TranscriptionResult := {
  text : string;
  language : string;
  confidence : option Q
}.

(** The dictionary returned by [ModelService.get_model_info]. *)
Record ModelInfo := {
  info_model_name : string;
  info_device : string;
  info_status : string
}.

Module model_service_py.
Section with_platform.
Context (P : platform).
Import config.

(** [ModelService._load_model]; the assignments to [self.model] are
    returned as the updated object. *)
Definition _load_model (self : ModelService) : M ModelService :=
  try_except
    (exec logger_info ("Loading NVIDIA Parakeet model: " ++ model_name self);
     exec logger_info "This may take a few minutes on first run (downloading model)...";
     do m <- (fun w => (w, from_pretrained P (model_name self)));
     let self := {| oid := oid self; model := Some m; model_name := model_name self |} in
     exec logger_info "Model loaded successfully!";
     if cuda_is_available P
     then
       exec logger_info ("Using GPU: " ++ cuda_get_device_name P);
       ret {| oid := oid self;
              model := Some {| pretrained_name := pretrained_name m; on_cuda := true |};
              model_name := model_name self |}
     else
       exec logger_info "Using CPU (consider using GPU for better performance)";
       ret self)
    (fun e => Some (exec logger_error ("Failed to load model: " ++ str e);
                    raise (RuntimeError ("Model initialization failed: " ++ str e)))).

(** [ModelService()]: allocate the object, run [__init__]. *)
Definition new_ModelService : M ModelService :=
  fun w =>
    let self := {| oid := allocated w; model := None; model_name := MODEL_NAME |} in
    (do self <- _load_model self;
     fun w' => (add_instance self w', Return self))
    (set_allocated (S (allocated w)) w).

(** [output[0]] *)
Definition first_output (output : list asr_output) : M asr_output :=
  match output with
  | o :: _ => ret o
  | [] => raise (IndexError "list index out of range")
  end.

(** [ModelService.transcribe] *)
Definition transcribe (self : ModelService) (audio_path : string) : M TranscriptionResult :=
  match model self with
  | None => raise (RuntimeError "Model not loaded")
  | Some m =>
      try_except
        (exec logger_info ("Transcribing audio file: " ++ audio_path);
         do output <- (fun w => (w, model_transcribe P m [fs w !! audio_path]));
         do out0 <- first_output output;
         let text := match out0 with PlainText t => t | HypothesisObj t _ => t end in
         let language :=
           match out0 with
           | HypothesisObj _ (Some l) => l
           | _ => "auto-detected"
           end in
         exec logger_info ("Transcription successful: '" ++ PyStr.take 50 text ++ "...'");
         ret {| text := text; language := language; confidence := None |})
        (fun e => Some (exec logger_error ("Transcription failed: " ++ str e);
                        raise (RuntimeError ("Transcription failed: " ++ str e))))
  end.

(** The dictionary built for one output of the model. *)
Definition result_of_output (output : asr_output) : TranscriptionResult :=
  {| text := match output with PlainText t => t | HypothesisObj t _ => t end;
     language :=
       match output with
       | HypothesisObj _ (Some l) => l
       | _ => "auto-detected"
       end;
     confidence := None |}.

(** [ModelService.transcribe_batch] *)
Definition transcribe_batch (self : ModelService) (audio_paths : list string)
  : M (list TranscriptionResult) :=
  match model self with
  | None => raise (RuntimeError "Model not loaded")
  | Some m =>
      try_except
        (exec logger_info ("Batch transcribing " ++ pretty (length audio_paths) ++ " files");
         do outputs <-
           (fun w => (w, model_transcribe P m (map (fun p => fs w !! p) audio_paths)));
         let results := map result_of_output outputs in
         exec logger_info ("Batch transcription completed: "
                           ++ pretty (length results) ++ " files");
         ret results)
        (fun e => Some (exec logger_error ("Batch transcription failed: " ++ str e);
                        raise (RuntimeError ("Batch transcription failed: " ++ str e))))
  end.

(** [ModelService.get_model_info] *)
Definition get_model_info (self : ModelService) : ModelInfo :=
  {| info_model_name := model_name self;
     info_device := if cuda_is_available P then "cuda" else "cpu";
     info_status := match model self with Some _ => "loaded" | None => "not loaded" end |}.

(** [get_model_service]: returns whatever the global holds at the end. *)
Definition get_model_service : M (option ModelService) :=
  do current <- (fun w => (w, Return (_model_service_instance w)));
  exec match current with
       | None =>
           do ms <- new_ModelService;
           fun w => (set__model_service_instance (Some ms) w, Return tt)
       | Some _ => ret tt
       end;
  fun w => (w, Return (_model_service_instance w)).

(** *** [get_model_service] statement by statement

    Between two threads the interpreter may switch after the test of the
    global, after the construction and assignment, and before the return.
    A call is at one of these points. *)
Inductive call_point :=
| AtTest
| AtConstruct
| AtReturn
| Finished (r : result (option ModelService)).

Definition call_step (pc : call_point) (w : world) : world * call_point :=
  match pc with
  | AtTest =>
      match _model_service_instance w with
      | None => (w, AtConstruct)
      | Some _ => (w, AtReturn)
      end
  | AtConstruct =>
      match new_ModelService w with
      | (w', Return ms) => (set__model_service_instance (Some ms) w', AtReturn)
      | (w', Raise e) => (w', Finished (Raise e))
      end
  | AtReturn => (w, Finished (Return (_model_service_instance w)))
  | Finished r => (w, Finished r)
  end.

(** A schedule names, step by step, the thread that runs next. *)
Fixpoint run_schedule (sched : list nat) (threads : list call_point) (w : world)
  : world * list call_point :=
  match sched with
  | [] => (w, threads)
  | t :: sched' =>
      match threads !! t with
      | Some pc =>
          let '(w', pc') := call_step pc w in
          run_schedule sched' (<[t := pc']> threads) w'
      | None => run_schedule sched' threads w
      end
  end.

(** Calls made one after the other, each run to its end. *)
Fixpoint call_many (n : nat) (w : world)
  : world * list (result (option ModelService)) :=
  match n with
  | O => (w, [])
  | S n' =>
      let '(w', r) := get_model_service w in
      let '(w'', rs) := call_many n' w' in
      (w'', r :: rs)
  end.

End with_platform.
End model_service_py.

(** ** [app.py] *)

(** The uploaded part: declared file name and the bytes [await audio.read()]
    yields. *)
Record UploadFile := {
  filename : string;
  body : list Byte.byte
}.

Record HealthResponse := {
  health_status : string;
  health_model : ModelInfo
}.

(** The JSON body of a successful [/transcribe]. *)
Record TranscribeResponse := {
  success : bool;
  resp_text : string;
  resp_language : string;
  audio_duration : Q;
  original_filename : string
}.

Record CleanupResponse := {
  cleanup_success : bool;
  files_deleted : nat
}.

(** The status line FastAPI sends for a handler's outcome. *)
Definition status_of {A} (r : result A) : nat :=
  match r with
  | Return _ => 200
  | Raise (HTTPException c _) => c
  | Raise _ => 500
  end.

Module app.
Section with_platform.
Context (P : platform).
Import config.

Definition startup_event : M unit :=
  try_except
    (exec logger_info "Starting up application...";
     exec logger_info "Loading ASR model (this may take a few minutes)...";
     do ms <- model_service_py.get_model_service P;
     exec (fun w => (set_model_service ms w, Return tt));
     logger_info "Application ready!")
    (fun e => Some (exec logger_error ("Failed to initialize model: " ++ str e);
                    raise e)).

Definition health_check : M HealthResponse :=
  fun w =>
    match model_service w with
    | None => raise (HTTPException 503 "Model not initialized") w
    | Some ms =>
        ret {| health_status := "healthy";
               health_model := model_service_py.get_model_info P ms |} w
    end.

Definition model_info : M ModelInfo :=
  fun w =>
    match model_service w with
    | None => raise (HTTPException 503 "Model not initialized") w
    | Some ms => ret (model_service_py.get_model_info P ms) w
    end.

Definition file_extension_of (audio : UploadFile) : string :=
  Str.lower P (PyPath.suffix (filename audio)).

Definition input_path_of (file_id file_extension : string) : string :=
  PyPath.join (TEMP_DIR P) (file_id ++ "_input" ++ file_extension).

Definition wav_path_of (file_id : string) : string :=
  PyPath.join (TEMP_DIR P) (file_id ++ "_converted.wav").

(** The [try] block of [transcribe_audio] with its two [except] clauses. *)
Definition transcribe_body (ms : ModelService) (audio : UploadFile)
    (input_path wav_path : string) : M TranscribeResponse :=
  try_except
    (exec logger_info ("Receiving audio file: " ++ filename audio);
     exec os.write_bytes input_path (body audio);
     exec logger_info "Converting audio to 16kHz WAV format...";
     exec try_except
            (exec audio_utils.convert_to_wav P input_path (Some wav_path); ret tt)
            (fun e =>
               match e with
               | ValueError _ =>
                   Some (exec logger_error ("Audio conversion error: " ++ str e);
                         raise (HTTPException 400 ("Audio conversion failed: " ++ str e)))
               | _ => None
               end);
     do audio_info <-
       try_except
         (do audio_info <- audio_utils.validate_audio P wav_path;
          exec logger_info ("Audio validated: "
                            ++ format_float P 2 (duration audio_info) ++ "s");
          ret audio_info)
         (fun e =>
            match e with
            | ValueError _ =>
                Some (exec logger_error ("Audio validation error: " ++ str e);
                      raise (HTTPException 400 (str e)))
            | _ => None
            end);
     exec logger_info "Transcribing audio...";
     do result <- model_service_py.transcribe P ms wav_path;
     let response :=
       {| success := true;
          resp_text := text result;
          resp_language := language result;
          audio_duration := duration audio_info;
          original_filename := filename audio |} in
     exec logger_info ("Transcription completed: "
                       ++ pretty (String.length (text result)) ++ " characters");
     ret response)
    (fun e =>
       match e with
       | HTTPException _ _ => Some (raise e)
       | _ =>
           Some (exec logger_error ("Transcription error: " ++ str e);
                 raise (HTTPException 500 ("Transcription failed: " ++ str e)))
       end).

(** The [finally] block of [transcribe_audio]. *)
Definition transcribe_cleanup (input_path wav_path : string) : M unit :=
  try_except
    (do present <- os.path_exists input_path;
     exec when present (os.remove input_path);
     do present <- os.path_exists wav_path;
     when present (os.remove wav_path))
    (fun e => Some (logger_warning ("Failed to cleanup temp files: " ++ str e))).

(** [transcribe_audio]; [file_id] is the value of [str(uuid.uuid4())]. *)
Definition transcribe_audio (file_id : string) (audio : UploadFile)
  : M TranscribeResponse :=
  fun w =>
    match model_service w with
    | None => raise (HTTPException 503 "Model not initialized") w
    | Some ms =>
        let file_extension := file_extension_of audio in
        if negb (bool_decide (file_extension ∈ ALLOWED_FORMATS))
        then raise (HTTPException 400
                      ("Unsupported file format. Allowed formats: "
                       ++ PyStr.join ", " ALLOWED_FORMATS)) w
        else
          let input_path := input_path_of file_id file_extension in
          let wav_path := wav_path_of file_id in
          try_finally
            (transcribe_body ms audio input_path wav_path)
            (transcribe_cleanup input_path wav_path) w
    end.

Definition cleanup_temp_files : M CleanupResponse :=
  try_except
    (do files <- os.listdir (TEMP_DIR P);
     exec for_each files
            (fun file =>
               let file_path := PyPath.join (TEMP_DIR P) file in
               do isfile <- os.path_isfile file_path;
               when isfile (os.remove file_path));
     ret {| cleanup_success := true; files_deleted := length files |})
    (fun e => Some (raise (HTTPException 500 ("Cleanup failed: " ++ str e)))).

End with_platform.
End app.

(** ** Runs of the process *)

(** One step of the process: a call of one of its entry points, or the
    host changing the file system behind its back. *)
Inductive process_step (P : platform) : world -> world -> Prop :=
| step_startup w :
    process_step P w (fst (app.startup_event P w))
| step_get_model_service w :
    process_step P w (fst (model_service_py.get_model_service P w))
| step_health w :
    process_step P w (fst (app.health_check P w))
| step_model_info w :
    process_step P w (fst (app.model_info P w))
| step_transcribe file_id audio w :
    process_step P w (fst (app.transcribe_audio P file_id audio w))
| step_cleanup w :
    process_step P w (fst (app.cleanup_temp_files P w))
| step_host f u v w :
    process_step P w
      {| fs := f; undeletable := u; unwritable := v; log := log w;
         allocated := allocated w; instances := instances w;
         _model_service_instance := _model_service_instance w;
         model_service := model_service w |}.

(** The process right after the modules are imported. *)
Definition fresh_process (w : world) : Prop :=
  log w = [] /\ allocated w = 0%nat /\ instances w = [] /\
  _model_service_instance w = None /\ model_service w = None.

Definition reachable (P : platform) (w : world) : Prop :=
  exists w0, fresh_process w0 /\ rtc (process_step P) w0 w.

(** ** Invariants and frames *)

(** What a request leaves alone: the host's refusals, the objects and the
    globals of the process, and which paths are directories. *)
Record frame (w w' : world) : Prop := {
  frame_undeletable : undeletable w' = undeletable w;
  frame_unwritable : unwritable w' = unwritable w;
  frame_allocated : allocated w' = allocated w;
  frame_instances : instances w' = instances w;
  frame_global : _model_service_instance w' = _model_service_instance w;
  frame_app_global : model_service w' = model_service w;
  frame_directories : forall p, fs w' !! p = Some Directory <-> fs w !! p = Some Directory
}.

Definition framed {A} (c : M A) : Prop := forall w, frame w (fst (c w)).

(** What [os.path.join(d, b)] puts in front of a relative [b]. *)
Definition join_prefix (d : string) : string :=
  if (String.length d =? 0)%nat || PyStr.endswith_char "/" d then d else d ++ "/".

(** A [/transcribe] request that gets past both guards of the handler, on
    a host where its two temporary paths can be written. *)
Definition accepted (P : platform) (w : world) (file_id : string) (audio : UploadFile)
    (ms : ModelService) : Prop :=
  model_service w = Some ms /\
  app.file_extension_of P audio ∈ config.ALLOWED_FORMATS /\
  (app.input_path_of P file_id (app.file_extension_of P audio) ∉ unwritable w) /\
  fs w !! app.input_path_of P file_id (app.file_extension_of P audio) <> Some Directory /\
  (app.wav_path_of P file_id ∉ unwritable w) /\
  fs w !! app.wav_path_of P file_id <> Some Directory.

(** The waveform [convert_to_wav] writes for a decoded upload, and its
    duration in seconds. *)
Definition normalized (P : platform) (y0 : ndarray) (sr0 : positive) : ndarray :=
  librosa.resample_to P sr0 config.SAMPLE_RATE (librosa.to_mono P y0).

Definition normalized_duration (P : platform) (y0 : ndarray) (sr0 : positive) : Q :=
  librosa.get_duration (normalized P y0 sr0) config.SAMPLE_RATE.

(** A computation that changes no file outside the paths satisfying [Q]. *)
Definition confined (Q : string -> Prop) {A} (c : M A) : Prop :=
  forall w p, ~ Q p -> fs (fst (c w)) !! p = fs w !! p.

(** The global holds the one instance that exists, and that instance has
    its model loaded. *)
Definition singleton_inv (w : world) : Prop :=
  match _model_service_instance w with
  | None => instances w = []
  | Some ms => instances w = [ms] /\ model ms <> None
  end.

Definition app_global_inv (w : world) : Prop :=
  forall ms, model_service w = Some ms -> _model_service_instance w = Some ms.

(** ** A small platform and worlds to run the code on *)

Module Demo.
Import config.

(** Decodes any non-empty upload as two channels at 8 kHz, one sample per
    byte; "resampling" doubles the samples. *)
Definition platform0 : platform :=
  {| BASE_DIR := "/srv";
     decode_audio := fun b =>
       match b with
       | [] => None
       | _ => Some (Arr2 [map (fun _ => 0%Q) b; map (fun _ => 0%Q) b], 8000%positive)
       end;
     mixdown := fun rows => match rows with r :: _ => r | [] => [] end;
     resample := fun _ _ y => (y ++ y)%list;
     format_float := fun _ _ => "?";
     unicode_lower := fun s => s;
     unicode_upper := fun s => s;
     libsndfile_accepts := fun _ _ _ => false;
     from_pretrained := fun n => Return {| pretrained_name := n; on_cuda := false |};
     cuda_is_available := false;
     cuda_get_device_name := "";
     model_transcribe := fun _ _ => Return [PlainText "hello"] |}.

(** The same host without access to the model hub. *)
Definition offline : platform :=
  {| BASE_DIR := BASE_DIR platform0;
     decode_audio := decode_audio platform0;
     mixdown := mixdown platform0;
     resample := resample platform0;
     format_float := format_float platform0;
     unicode_lower := unicode_lower platform0;
     unicode_upper := unicode_upper platform0;
     libsndfile_accepts := libsndfile_accepts platform0;
     from_pretrained := fun _ => Raise (LibraryError "Connection refused");
     cuda_is_available := false;
     cuda_get_device_name := "";
     model_transcribe := model_transcribe platform0 |}.

(** The same host with a model that fails on every call. *)
Definition faulty : platform :=
  {| BASE_DIR := BASE_DIR platform0;
     decode_audio := decode_audio platform0;
     mixdown := mixdown platform0;
     resample := resample platform0;
     format_float := format_float platform0;
     unicode_lower := unicode_lower platform0;
     unicode_upper := unicode_upper platform0;
     libsndfile_accepts := libsndfile_accepts platform0;
     from_pretrained := from_pretrained platform0;
     cuda_is_available := false;
     cuda_get_device_name := "";
     model_transcribe := fun _ _ => Raise (LibraryError "CUDA out of memory") |}.

(** The same host where every conversion yields 23,040,001 samples, one
    more than 1440 seconds at 16 kHz. *)
Definition marathon : platform :=
  {| BASE_DIR := BASE_DIR platform0;
     decode_audio := decode_audio platform0;
     mixdown := mixdown platform0;
     resample := fun _ _ _ => repeat 0%Q (N.to_nat 23040001);
     format_float := format_float platform0;
     unicode_lower := unicode_lower platform0;
     unicode_upper := unicode_upper platform0;
     libsndfile_accepts := libsndfile_accepts platform0;
     from_pretrained := from_pretrained platform0;
     cuda_is_available := false;
     cuda_get_device_name := "";
     model_transcribe := model_transcribe platform0 |}.

Definition temp : string := "/srv/uploads/temp".

Definition booting : world :=
  {| fs := {[ temp := Directory ]}; undeletable := ∅; unwritable := ∅;
     log := []; allocated := 0; instances := [];
     _model_service_instance := None; model_service := None |}.

(** After [startup_event]. *)
Definition serving : world := fst (app.startup_event platform0 booting).

Definition clip : UploadFile := {| filename := "clip.MP3"; body := [Byte.x00; Byte.x01] |}.
Definition notes : UploadFile := {| filename := "notes.txt"; body := [Byte.x68; Byte.x69] |}.
Definition empty_clip : UploadFile := {| filename := "empty.wav"; body := [] |}.

Definition with_undeletable (u : gset string) (w : world) : world :=
  {| fs := fs w; undeletable := u; unwritable := unwritable w; log := log w;
     allocated := allocated w; instances := instances w;
     _model_service_instance := _model_service_instance w;
     model_service := model_service w |}.

(** The serving process on a host that refuses to remove the upload of
    request ["id"]. *)
Definition input_id : string := "/srv/uploads/temp/id_input.mp3".
Definition wav_id : string := "/srv/uploads/temp/id_converted.wav".
Definition locked : world := with_undeletable {[ input_id ]} serving.


(** A one-second and a 1441-second mono file at 1 Hz. *)
Definition short_wav : node := RegularFile (Wav (Arr1 [0%Q]) 1).
Definition long_wav : node := RegularFile (Wav (Arr1 (repeat 0%Q 1441)) 1).
Definition archive : world :=
  set_fs (fun _ => {[ "/a/short.wav" := short_wav; "/a/long.wav" := long_wav;
                      "/a/clip.mp3" := RegularFile (Raw [Byte.x00; Byte.x01]) ]})
         booting.

(** The temporary directory holding one regular file and one
    sub-directory. *)
Definition cluttered : world :=
  set_fs (fun m => <[ "/srv/uploads/temp/sub" := Directory ]>
                     (<[ "/srv/uploads/temp/a.wav" := short_wav ]> m))
         serving.

End Demo.

(** * Properties *)

Example suffix_wav : PyPath.suffix "clip.WAV" = ".WAV".
Proof. reflexivity. Qed.
Example suffix_hidden : PyPath.suffix ".bashrc" = "".
Proof. reflexivity. Qed.
Example suffix_tar : PyPath.suffix "dir.d/a.tar.gz" = ".gz".
Proof. reflexivity. Qed.
Example suffix_dot : PyPath.suffix "name." = "".
Proof. reflexivity. Qed.
Example lower_mixed : PyStr.ascii_lower ".Mp3" = ".mp3".
Proof. reflexivity. Qed.
Example join_rel : PyPath.join "/srv/uploads" "temp" = "/srv/uploads/temp".
Proof. reflexivity. Qed.
Example rsplit_ex : PyStr.rsplit1_head "." "/t/a.b.mp3" = "/t/a.b".
Proof. reflexivity. Qed.

Example name_dot_component : PyPath.name "clip.wav/." = "clip.wav".
Proof. reflexivity. Qed.
Example name_trailing_slash : PyPath.name "a//b/" = "b".
Proof. reflexivity. Qed.
Example name_root : PyPath.name "/" = "".
Proof. reflexivity. Qed.
Example suffix_dotdot : PyPath.suffix "a/.." = "".
Proof. reflexivity. Qed.
Example suffix_dotted_directory : PyPath.suffix "a.b/c" = "".
Proof. reflexivity. Qed.
Example suffix_hidden_in_directory : PyPath.suffix "x/.hidden" = "".
Proof. reflexivity. Qed.
Example suffix_double_dot : PyPath.suffix "a..b" = ".b".
Proof. reflexivity. Qed.
Example extension_dot_component :
  app.file_extension_of Demo.platform0 {| filename := "Clip.WAV/."; body := [] |} = ".wav".
Proof. reflexivity. Qed.
Example splitext_wav : PyPath.splitext_ext "/t/a.b.WAV" = ".WAV".
Proof. reflexivity. Qed.
Example splitext_hidden : PyPath.splitext_ext "/t/..bashrc" = "".
Proof. reflexivity. Qed.
Example splitext_dir_dot : PyPath.splitext_ext "dir.d/file" = "".
Proof. reflexivity. Qed.

Import config.

(** ** Strings and paths *)

Lemma string_app_cons (a : ascii) (s t : string) :
  String a s ++ t = String a (s ++ t).
Proof. reflexivity. Qed.

Lemma string_app_nil (t : string) : "" ++ t = t.
Proof. reflexivity. Qed.

Lemma rpartition_split (c : ascii) (s l r : string) :
  PyStr.rpartition c s = Some (l, r) -> s = l ++ String c r.
Proof.
  revert l r. induction s as [|a s IH]; intros l r; cbn; [discriminate|].
  destruct (PyStr.rpartition c s) as [[l' r']|].
  - intros [= <- <-]. rewrite string_app_cons. f_equal. by apply IH.
  - destruct (Ascii.eqb a c) eqn:E; [|discriminate].
    intros [= <- <-]. apply Ascii.eqb_eq in E as ->. reflexivity.
Qed.

Lemma string_app_length (s t : string) :
  String.length (s ++ t) = (String.length s + String.length t)%nat.
Proof.
  induction s as [|a s IH]; [reflexivity|].
  rewrite string_app_cons. cbn. by rewrite IH.
Qed.

Lemma string_app_inv_head (s t u : string) : s ++ t = s ++ u -> t = u.
Proof.
  induction s as [|a s IH]; [done|].
  rewrite !string_app_cons. intros [= H]. by apply IH.
Qed.

Lemma string_app_assoc (s t u : string) : (s ++ t) ++ u = s ++ t ++ u.
Proof.
  induction s as [|a s IH]; [reflexivity|].
  rewrite !string_app_cons. by rewrite IH.
Qed.

Lemma rpartition_app_found (c : ascii) (s t l r : string) :
  PyStr.rpartition c t = Some (l, r) ->
  PyStr.rpartition c (s ++ t) = Some (s ++ l, r).
Proof.
  intros Ht. induction s as [|a s IH]; [exact Ht|].
  rewrite !string_app_cons. cbn [PyStr.rpartition]. by rewrite IH.
Qed.

Lemma rpartition_app_absent (c : ascii) (s t : string) :
  PyStr.rpartition c t = None ->
  PyStr.rpartition c (s ++ t)
  = match PyStr.rpartition c s with
    | Some (l, r) => Some (l, r ++ t)
    | None => None
    end.
Proof.
  intros Ht. induction s as [|a s IH]; [exact Ht|].
  rewrite string_app_cons. cbn [PyStr.rpartition]. rewrite IH.
  destruct (PyStr.rpartition c s) as [[l r]|]; [reflexivity|].
  by destruct (Ascii.eqb a c).
Qed.

Lemma all_chars_app (c : ascii) (s t : string) :
  PyStr.all_chars c (s ++ t) = PyStr.all_chars c s && PyStr.all_chars c t.
Proof.
  induction s as [|a s IH]; [reflexivity|].
  rewrite string_app_cons. cbn [PyStr.all_chars]. rewrite IH.
  by destruct (Ascii.eqb a c).
Qed.

(** Every path that ends in ["_converted.wav"] has extension [".wav"]. *)
Lemma splitext_converted_wav (s : string) :
  PyPath.splitext_ext (s ++ "_converted.wav") = ".wav".
Proof.
  unfold PyPath.splitext_ext.
  rewrite (rpartition_app_absent "/" s "_converted.wav") by reflexivity.
  assert (Hbase : exists b,
    match
      match PyStr.rpartition "/" s with
      | Some (l, r) => Some (l, r ++ "_converted.wav")
      | None => None
      end
    with
    | Some (_, r) => r
    | None => s ++ "_converted.wav"
    end = b ++ "_converted.wav")
    by (destruct (PyStr.rpartition "/" s) as [[l r]|]; eauto).
  destruct Hbase as [b ->].
  rewrite (rpartition_app_found "." b "_converted.wav" "_converted" "wav") by reflexivity.
  rewrite all_chars_app. cbn. by rewrite andb_false_r.
Qed.

(** ** soundfile *)

Lemma format_of_converted_wav (P : platform) (s : string) :
  sf.format_of P (s ++ "_converted.wav") = "WAV".
Proof. unfold sf.format_of. by rewrite splitext_converted_wav. Qed.

Lemma can_write_wav (P : platform) (file : string) (y : list Q) :
  sf.format_of P file = "WAV" -> sf.can_write P file (Arr1 y) SAMPLE_RATE = true.
Proof. intros H. unfold sf.can_write. by rewrite H. Qed.

Lemma sf_write_cases (P : platform) (file : string) (data : ndarray) (sr : positive)
    (w : world) :
  (sf.write P file data sr w
     = (set_fs (<[file := RegularFile (Wav data sr)]>) w, Return tt) /\
   sf.can_write P file data sr = true /\
   (file ∉ unwritable w) /\ fs w !! file <> Some Directory) \/
  (exists e, sf.write P file data sr w = (w, Raise e) /\
   (sf.can_write P file data sr = false \/
    file ∈ unwritable w \/ fs w !! file = Some Directory)).
Proof.
  unfold sf.write, sf.can_write.
  destruct (bool_decide (sf.format_of P file ∈ sf.formats)); cbn [negb andb];
    [|right; eauto].
  destruct (sf.container_accepts P (sf.format_of P file) data sr); cbn [negb];
    [|right; eauto].
  destruct (decide (file ∈ unwritable w)) as [Hin|Hout]; [right; eauto|].
  destruct (fs w !! file) as [[c|]|] eqn:E; [|right; eauto|];
    left; repeat split; done.
Qed.

Example write_unknown_extension :
  snd (audio_utils.convert_to_wav Demo.platform0 "/a/clip.mp3" (Some "/a/out.dat")
         Demo.archive)
  = Raise (ValueError
      "Failed to convert audio file: No format specified and unable to get format from file extension: /a/out.dat").
Proof. vm_compute. reflexivity. Qed.

Lemma sf_write_ok (P : platform) (file : string) (data : ndarray) (sr : positive)
    (w : world) :
  sf.can_write P file data sr = true ->
  file ∉ unwritable w -> fs w !! file <> Some Directory ->
  sf.write P file data sr w
  = (set_fs (<[file := RegularFile (Wav data sr)]>) w, Return tt).
Proof.
  intros Hc Hu Hd.
  destruct (sf_write_cases P file data sr w) as [(H & _)|(e & _ & [H|[H|H]])];
    [done|congruence|contradiction|contradiction].
Qed.

Lemma wav_path_shape (P : platform) (file_id : string) :
  exists s, app.wav_path_of P file_id = s ++ "_converted.wav".
Proof.
  unfold app.wav_path_of, PyPath.join.
  destruct (PyStr.startswith "/" (file_id ++ "_converted.wav")); [eauto|].
  destruct ((String.length (TEMP_DIR P) =? 0)%nat || PyStr.endswith_char "/" (TEMP_DIR P)).
  - exists (TEMP_DIR P ++ file_id). by rewrite string_app_assoc.
  - exists (TEMP_DIR P ++ "/" ++ file_id). by rewrite !string_app_assoc.
Qed.

Lemma wav_path_format (P : platform) (file_id : string) :
  sf.format_of P (app.wav_path_of P file_id) = "WAV".
Proof.
  destruct (wav_path_shape P file_id) as [s ->]. apply format_of_converted_wav.
Qed.

(** ** Before the engine is initialised *)

Lemma not_in_by_decide (x : string) (l : list string) :
  bool_decide (x ∈ l) = false -> x ∉ l.
Proof. intros H. by apply bool_decide_eq_false in H. Qed.

Lemma in_by_decide (x : string) (l : list string) :
  bool_decide (x ∈ l) = true -> x ∈ l.
Proof. intros H. by apply bool_decide_eq_true in H. Qed.

(** C5. While [model_service] is [None], [/health], [/model-info] and
    [/transcribe] answer 503 "Model not initialized" and leave the world
    (files, log, globals) exactly as it was. *)
Theorem uninitialized_engine_503 (P : platform) (w : world)
    (file_id : string) (audio : UploadFile) :
  model_service w = None ->
  app.health_check P w = (w, Raise (HTTPException 503 "Model not initialized")) /\
  app.model_info P w = (w, Raise (HTTPException 503 "Model not initialized")) /\
  app.transcribe_audio P file_id audio w
    = (w, Raise (HTTPException 503 "Model not initialized")).
Proof.
  intros Hnone.
  unfold app.health_check, app.model_info, app.transcribe_audio.
  rewrite Hnone. repeat split.
Qed.

Lemma uninitialized_engine_503_witness :
  model_service Demo.booting = None /\
  app.health_check Demo.platform0 Demo.booting
    = (Demo.booting, Raise (HTTPException 503 "Model not initialized")).
Proof.
  split; [reflexivity|].
  apply (uninitialized_engine_503 Demo.platform0 Demo.booting "id" Demo.clip).
  reflexivity.
Defined.

(** C6, as amended. An upload whose lower-cased suffix is not in
    [ALLOWED_FORMATS] never changes the world: nothing is written, logged
    or run.  When the engine is initialised the answer is 400 with the
    list of allowed formats; when it is not, the 503 of the guard above
    comes first. *)
Theorem unsupported_extension_rejected (P : platform) (w : world)
    (file_id : string) (audio : UploadFile) :
  app.file_extension_of P audio ∉ ALLOWED_FORMATS ->
  fst (app.transcribe_audio P file_id audio w) = w /\
  (forall ms, model_service w = Some ms ->
     app.transcribe_audio P file_id audio w
       = (w, Raise (HTTPException 400
           "Unsupported file format. Allowed formats: .wav, .webm, .mp3, .flac, .m4a, .ogg"))) /\
  (model_service w = None ->
     status_of (snd (app.transcribe_audio P file_id audio w)) = 503%nat).
Proof.
  intros Hext.
  unfold app.transcribe_audio.
  destruct (model_service w) as [ms|] eqn:Hms.
  - rewrite bool_decide_eq_false_2 by exact Hext. cbn.
    repeat split; try discriminate.
  - cbn. repeat split. intros ms; discriminate.
Qed.

Lemma unsupported_extension_rejected_witness :
  (app.file_extension_of Demo.platform0 Demo.notes ∉ ALLOWED_FORMATS) /\
  fst (app.transcribe_audio Demo.platform0 "id" Demo.notes Demo.serving) = Demo.serving /\
  status_of (snd (app.transcribe_audio Demo.platform0 "id" Demo.notes Demo.serving)) = 400%nat.
Proof.
  assert (Hext : app.file_extension_of Demo.platform0 Demo.notes ∉ ALLOWED_FORMATS)
    by (apply not_in_by_decide; reflexivity).
  destruct (unsupported_extension_rejected Demo.platform0 Demo.serving "id" Demo.notes Hext)
    as (Hw & H400 & _).
  split; [exact Hext|]. split; [exact Hw|].
  rewrite (H400 _ eq_refl). reflexivity.
Defined.

(** C6 as stated fails before initialisation: [notes.txt] is answered 503,
    not 400. *)
Lemma unsupported_extension_before_init_is_503 :
  ~ (app.file_extension_of Demo.platform0 Demo.notes ∉ ALLOWED_FORMATS ->
     status_of (snd (app.transcribe_audio Demo.platform0 "id" Demo.notes Demo.booting))
       = 400%nat).
Proof.
  intros H.
  assert (Hext : app.file_extension_of Demo.platform0 Demo.notes ∉ ALLOWED_FORMATS)
    by (apply not_in_by_decide; reflexivity).
  specialize (H Hext). vm_compute in H. discriminate H.
Qed.

(** ** Audio validation and normalisation *)

Lemma get_duration_nonneg (y : ndarray) (sr : positive) :
  (0 <= librosa.get_duration y sr)%Q.
Proof.
  unfold librosa.get_duration, Qle. cbn. lia.
Qed.

Lemma load_world (P : platform) path sr mono w :
  fst (librosa.load P path sr mono w) = w.
Proof.
  unfold librosa.load.
  destruct (fs w !! path) as [[c|]|]; try reflexivity.
  destruct (librosa.decode P c) as [[y r]|]; try reflexivity.
  destruct sr; reflexivity.
Qed.

(** C3. On a file that decodes, [validate_audio] fails exactly when the
    measured duration exceeds 1440 seconds, with a [ValueError] whose
    message carries the measured duration (one decimal) and the maximum;
    otherwise it returns the metadata, with the measured, non-negative
    duration and the native sample rate. *)
Theorem validate_audio_duration_policy (P : platform) (w : world) (path : string)
    (y : ndarray) (sr : positive) :
  snd (librosa.load P path None false w) = Return (y, sr) ->
  let d := librosa.get_duration y sr in
  ((inject_Z 1440 < d)%Q ->
     audio_utils.validate_audio P path w
       = (w, Raise (ValueError ("Audio validation failed: Audio duration ("
                      ++ format_float P 1 d
                      ++ "s) exceeds maximum allowed duration (1440s)")))) /\
  ((d <= inject_Z 1440)%Q ->
     exists info, audio_utils.validate_audio P path w = (w, Return info) /\
       duration info = d /\ (0 <= duration info)%Q /\
       sample_rate info = sr /\ valid info = true).
Proof.
  intros Hload d.
  assert (Hl : librosa.load P path None false w = (w, Return (y, sr))).
  { rewrite <- (load_world P path None false w) at 2.
    rewrite <- Hload. by destruct (librosa.load P path None false w). }
  unfold audio_utils.validate_audio, try_except, bind.
  rewrite Hl. cbn [fst snd]. fold d.
  split; intros Hd.
  - destruct (Qlt_le_dec (inject_Z MAX_AUDIO_DURATION) d) as [_|Hle].
    + reflexivity.
    + exfalso. apply (Qlt_not_le _ _ Hd). exact Hle.
  - destruct (Qlt_le_dec (inject_Z MAX_AUDIO_DURATION) d) as [Hlt|_].
    + exfalso. apply (Qlt_not_le _ _ Hlt). exact Hd.
    + eexists. split; [reflexivity|]. cbn.
      repeat split. apply get_duration_nonneg.
Qed.

Lemma validate_audio_duration_policy_witness :
  (exists m, snd (audio_utils.validate_audio Demo.platform0 "/a/long.wav" Demo.archive)
             = Raise (ValueError m)) /\
  (exists info, snd (audio_utils.validate_audio Demo.platform0 "/a/short.wav" Demo.archive)
                = Return info /\ (0 <= duration info)%Q).
Proof.
  split.
  - destruct (validate_audio_duration_policy Demo.platform0 Demo.archive "/a/long.wav"
                (Arr1 (repeat 0%Q 1441)) 1 eq_refl) as [Hlong _].
    rewrite Hlong by reflexivity. eexists. reflexivity.
  - destruct (validate_audio_duration_policy Demo.platform0 Demo.archive "/a/short.wav"
                (Arr1 [0%Q]) 1 eq_refl) as [_ Hshort].
    destruct Hshort as (info & Hrun & _ & Hpos & _); [discriminate|].
    exists info. rewrite Hrun. split; [reflexivity|exact Hpos].
Defined.

Lemma to_mono_flat (P : platform) (a : ndarray) :
  exists y, librosa.to_mono P a = Arr1 y.
Proof. destruct a; cbn; eauto. Qed.

Lemma resample_to_flat (P : platform) (o t : positive) (y : list Q) :
  exists y', librosa.resample_to P o t (Arr1 y) = Arr1 y'.
Proof. unfold librosa.resample_to. destruct (Pos.eqb o t); eauto. Qed.

Lemma load_mono_flat (P : platform) path target w a sr :
  snd (librosa.load P path (Some target) true w) = Return (a, sr) ->
  sr = target /\ exists y, a = Arr1 y.
Proof.
  unfold librosa.load.
  destruct (fs w !! path) as [[c|]|]; try discriminate.
  destruct (librosa.decode P c) as [[y0 r0]|]; try discriminate.
  cbn. intros [= <- <-]. split; [reflexivity|].
  destruct (to_mono_flat P y0) as [y1 ->].
  apply resample_to_flat.
Qed.

(** C7. Whenever [convert_to_wav] returns a path, that path is the given
    output path, or the input path cut at its last dot with
    "_converted.wav" appended, and the file there is a flat (one channel)
    waveform at 16000 Hz, which is also what [librosa.load] reads back
    from it.  It does return when the input file decodes, the output path
    can be opened for writing and, for an output path chosen by the
    caller, soundfile knows the container named by the path's extension
    and the container takes one channel at 16000 Hz; the default output
    path always names a WAV container. *)
Theorem convert_to_wav_canonical (P : platform) (w : world)
    (input_path : string) (output_path : option string) :
  let out :=
    match output_path with
    | None => PyStr.rsplit1_head "." input_path ++ "_converted.wav"
    | Some p => p
    end in
  (forall w' p,
     audio_utils.convert_to_wav P input_path output_path w = (w', Return p) ->
     p = out /\
     exists y, fs w' !! p = Some (RegularFile (Wav (Arr1 y) 16000)) /\
               librosa.load P p None false w' = (w', Return (Arr1 y, 16000%positive))) /\
  (forall c y0 sr0,
     fs w !! input_path = Some (RegularFile c) ->
     librosa.decode P c = Some (y0, sr0) ->
     out ∉ unwritable w ->
     fs w !! out <> Some Directory ->
     (output_path = None \/ forall y, sf.can_write P out (Arr1 y) 16000 = true) ->
     exists w', audio_utils.convert_to_wav P input_path output_path w = (w', Return out)).
Proof.
  intros out. split.
  - intros w' p. unfold audio_utils.convert_to_wav, try_except, bind.
    pose proof (load_world P input_path (Some SAMPLE_RATE) true w) as Hw.
    pose proof (load_mono_flat P input_path SAMPLE_RATE w) as Hflat.
    destruct (librosa.load P input_path (Some SAMPLE_RATE) true w) as [w1 [[a sr]|e]];
      cbn in Hw; subst w1; [|cbn; discriminate].
    destruct (Hflat a sr eq_refl) as [-> [y ->]]. cbn [fst].
    fold out.
    destruct (sf_write_cases P out (Arr1 y) SAMPLE_RATE w)
      as [(-> & _)|(e & -> & _)]; cbn; [|discriminate].
    intros [= <- <-]; split; [reflexivity|]; exists y.
    unfold librosa.load; cbn; rewrite lookup_insert_eq; split; reflexivity.
  - intros c y0 sr0 Hin Hdec Hwr Hdir Hfmt.
    assert (Hcan : forall y, sf.can_write P out (Arr1 y) 16000 = true).
    { destruct Hfmt as [->|Hfmt]; [|exact Hfmt].
      intros y. apply can_write_wav, format_of_converted_wav. }
    unfold audio_utils.convert_to_wav, try_except, bind, librosa.load.
    rewrite Hin, Hdec. cbn [fst].
    fold out.
    destruct (to_mono_flat P y0) as [y1 Hy1]. rewrite Hy1.
    destruct (resample_to_flat P sr0 SAMPLE_RATE y1) as [y2 Hy2]. rewrite Hy2.
    cbn [snd fst].
    rewrite (sf_write_ok P out (Arr1 y2) SAMPLE_RATE w (Hcan y2) Hwr Hdir).
    cbn. eexists; reflexivity.
Qed.

Lemma convert_to_wav_canonical_witness :
  exists w' y,
    audio_utils.convert_to_wav Demo.platform0 "/a/clip.mp3" None Demo.archive
      = (w', Return "/a/clip_converted.wav") /\
    fs w' !! "/a/clip_converted.wav" = Some (RegularFile (Wav (Arr1 y) 16000)).
Proof.
  destruct (convert_to_wav_canonical Demo.platform0 Demo.archive "/a/clip.mp3" None)
    as [Hsafe Hlive].
  destruct (Hlive (Raw [Byte.x00; Byte.x01])
              (Arr2 [[0%Q; 0%Q]; [0%Q; 0%Q]]) 8000%positive) as [w' Hrun].
  - reflexivity.
  - reflexivity.
  - vm_compute. set_solver.
  - vm_compute. discriminate.
  - left. reflexivity.
  - destruct (Hsafe w' _ Hrun) as (_ & y & Hfile & _).
    exists w', y. split; [exact Hrun|exact Hfile].
Defined.

(** ** What a request may change *)

Lemma frame_refl w : frame w w.
Proof. by split. Qed.

Lemma frame_trans w1 w2 w3 : frame w1 w2 -> frame w2 w3 -> frame w1 w3.
Proof.
  intros [] []. split; try congruence.
  intros p. etrans; eauto.
Qed.

Lemma frame_add_log l m w : frame w (add_log l m w).
Proof. by split. Qed.

Lemma frame_insert_file p c w :
  fs w !! p <> Some Directory -> frame w (set_fs (<[p := RegularFile c]>) w).
Proof.
  intros Hp. split; try reflexivity.
  intros q. cbn. destruct (decide (p = q)) as [<-|Hne].
  - rewrite lookup_insert_eq. split; [discriminate|]. intros; contradiction.
  - by rewrite lookup_insert_ne.
Qed.

Lemma frame_delete_file p c w :
  fs w !! p = Some (RegularFile c) -> frame w (set_fs (delete p) w).
Proof.
  intros Hp. split; try reflexivity.
  intros q. cbn. destruct (decide (p = q)) as [<-|Hne].
  - rewrite lookup_delete_eq, Hp. split; discriminate.
  - by rewrite lookup_delete_ne.
Qed.

Lemma framed_ret {A} (a : A) : framed (ret a).
Proof. intros w. apply frame_refl. Qed.

Lemma framed_raise {A} e : framed (@raise A e).
Proof. intros w. apply frame_refl. Qed.

Lemma framed_bind {A B} (c : M A) (k : A -> M B) :
  framed c -> (forall a, framed (k a)) -> framed (bind c k).
Proof.
  intros Hc Hk w. unfold bind. specialize (Hc w).
  destruct (c w) as [w1 [a|e]]; cbn in *; [|exact Hc].
  eapply frame_trans; [exact Hc|apply Hk].
Qed.

Lemma framed_try_except {A} (c : M A) h :
  framed c -> (forall e k, h e = Some k -> framed k) -> framed (try_except c h).
Proof.
  intros Hc Hh w. unfold try_except. specialize (Hc w).
  destruct (c w) as [w1 [a|e]]; cbn in *; [exact Hc|].
  destruct (h e) as [k|] eqn:He; [|exact Hc].
  eapply frame_trans; [exact Hc|eapply Hh; eauto].
Qed.

Lemma framed_try_finally {A} (c : M A) f :
  framed c -> framed f -> framed (try_finally c f).
Proof.
  intros Hc Hf w. unfold try_finally. specialize (Hc w).
  destruct (c w) as [w1 r]; cbn in *. specialize (Hf w1).
  destruct (f w1) as [w2 [[]|e]]; cbn in *; eapply frame_trans; eauto.
Qed.

Lemma framed_when b c : framed c -> framed (when b c).
Proof. destruct b; cbn; [done|]. intros _. apply framed_ret. Qed.

Lemma framed_for_each {A} (l : list A) body :
  (forall x, framed (body x)) -> framed (for_each l body).
Proof.
  intros Hb. induction l as [|x l IH]; cbn.
  - apply framed_ret.
  - apply framed_bind; [apply Hb|]. intros _. exact IH.
Qed.

Lemma framed_logger_info m : framed (logger_info m).
Proof. intros w. apply frame_add_log. Qed.
Lemma framed_logger_warning m : framed (logger_warning m).
Proof. intros w. apply frame_add_log. Qed.
Lemma framed_logger_error m : framed (logger_error m).
Proof. intros w. apply frame_add_log. Qed.

Lemma framed_path_exists p : framed (os.path_exists p).
Proof. intros w. apply frame_refl. Qed.
Lemma framed_path_isfile p : framed (os.path_isfile p).
Proof. intros w. apply frame_refl. Qed.
Lemma framed_listdir d : framed (os.listdir d).
Proof. intros w. unfold os.listdir. destruct (fs w !! d) as [[]|]; apply frame_refl. Qed.

Lemma framed_remove p : framed (os.remove p).
Proof.
  intros w. unfold os.remove.
  destruct (fs w !! p) as [[c|]|] eqn:Hp; try apply frame_refl.
  destruct (decide (p ∈ undeletable w)); [apply frame_refl|].
  eapply frame_delete_file; eauto.
Qed.

Lemma framed_write_bytes p b : framed (os.write_bytes p b).
Proof.
  intros w. unfold os.write_bytes.
  destruct (decide (p ∈ unwritable w)); [apply frame_refl|].
  destruct (fs w !! p) as [[c|]|] eqn:Hp; try apply frame_refl;
    apply frame_insert_file; congruence.
Qed.

Lemma framed_sf_write (P : platform) p a r : framed (sf.write P p a r).
Proof.
  intros w.
  destruct (sf_write_cases P p a r w) as [(-> & _ & _ & Hd)|(e & -> & _)];
    [|apply frame_refl].
  destruct (fs w !! p) as [[c|]|] eqn:Hp; [| congruence |];
    apply frame_insert_file; congruence.
Qed.

Lemma framed_load P p sr mono : framed (librosa.load P p sr mono).
Proof. intros w. rewrite load_world. apply frame_refl. Qed.

Create HintDb framed.
#[local] Hint Resolve framed_ret framed_raise framed_when
  framed_logger_info framed_logger_warning framed_logger_error
  framed_path_exists framed_path_isfile framed_listdir framed_remove
  framed_write_bytes framed_sf_write framed_load : framed.

Ltac framed_step :=
  first
    [ solve [auto with framed]
    | apply framed_bind; [|intros ?]
    | apply framed_try_except;
      [|let e := fresh "e" in let k := fresh "k" in let H := fresh "H" in
        intros e k H; destruct e; simplify_eq]
    | apply framed_try_finally
    | apply framed_for_each; intros ? ].

Lemma framed_convert_to_wav P i o : framed (audio_utils.convert_to_wav P i o).
Proof.
  unfold audio_utils.convert_to_wav.
  repeat framed_step.
Qed.

Lemma framed_validate_audio P p : framed (audio_utils.validate_audio P p).
Proof.
  unfold audio_utils.validate_audio.
  repeat framed_step.
  destruct (Qlt_le_dec _ _); auto with framed.
Qed.

Lemma framed_read {A} (f : world -> result A) : framed (fun w => (w, f w)).
Proof. intros w. apply frame_refl. Qed.

Lemma framed_first_output output : framed (model_service_py.first_output output).
Proof. destruct output; cbn; auto with framed. Qed.

Lemma framed_transcribe P ms p : framed (model_service_py.transcribe P ms p).
Proof.
  unfold model_service_py.transcribe.
  destruct (model ms); [|auto with framed].
  pose proof framed_first_output. pose proof @framed_read.
  repeat framed_step.
Qed.

#[local] Hint Resolve framed_convert_to_wav framed_validate_audio framed_transcribe : framed.

Lemma framed_transcribe_body P ms audio i o :
  framed (app.transcribe_body P ms audio i o).
Proof.
  unfold app.transcribe_body.
  repeat framed_step.
Qed.

Lemma framed_transcribe_cleanup i o : framed (app.transcribe_cleanup i o).
Proof.
  unfold app.transcribe_cleanup.
  repeat framed_step.
Qed.

Lemma framed_transcribe_audio P file_id audio :
  framed (app.transcribe_audio P file_id audio).
Proof.
  intros w. unfold app.transcribe_audio.
  destruct (model_service w); [|apply frame_refl].
  destruct (negb _); [apply frame_refl|].
  apply framed_try_finally.
  - apply framed_transcribe_body.
  - apply framed_transcribe_cleanup.
Qed.

Lemma framed_cleanup_temp_files P : framed (app.cleanup_temp_files P).
Proof.
  unfold app.cleanup_temp_files.
  repeat framed_step.
Qed.

(** ** The model service singleton *)

Lemma load_model_spec (P : platform) (self : ModelService) (w : world) :
  match model_service_py._load_model P self w with
  | (w1, Return s) =>
      oid s = oid self /\ model s <> None /\ model_name s = model_name self /\ frame w w1
  | (w1, Raise e) => frame w w1
  end.
Proof.
  unfold model_service_py._load_model, try_except, bind, logger_info, logger_error, raise, ret.
  destruct (from_pretrained P (model_name self)) as [m|e]; cbn.
  - destruct (cuda_is_available P); cbn; repeat split; done.
  - by split.
Qed.

Lemma new_ModelService_spec (P : platform) (w : world) :
  match model_service_py.new_ModelService P w with
  | (w1, Return ms) =>
      oid ms = allocated w /\ model ms <> None /\
      instances w1 = (instances w ++ [ms])%list /\
      _model_service_instance w1 = _model_service_instance w /\
      model_service w1 = model_service w
  | (w1, Raise e) =>
      instances w1 = instances w /\
      _model_service_instance w1 = _model_service_instance w /\
      model_service w1 = model_service w
  end.
Proof.
  unfold model_service_py.new_ModelService, bind.
  pose proof (load_model_spec P
    {| oid := allocated w; model := None; model_name := MODEL_NAME |}
    (set_allocated (S (allocated w)) w)) as H.
  destruct (model_service_py._load_model _ _ _) as [w1 [s|e]]; cbn.
  - destruct H as (Hoid & Hm & _ & []). cbn in *. repeat split; congruence.
  - destruct H. cbn in *. repeat split; congruence.
Qed.

(** [get_model_service], case by case. *)
Lemma get_model_service_cases (P : platform) (w : world) :
  match _model_service_instance w with
  | Some ms => model_service_py.get_model_service P w = (w, Return (Some ms))
  | None =>
      match model_service_py.new_ModelService P w with
      | (w1, Return ms) =>
          model_service_py.get_model_service P w
            = (set__model_service_instance (Some ms) w1, Return (Some ms))
      | (w1, Raise e) => model_service_py.get_model_service P w = (w1, Raise e)
      end
  end.
Proof.
  unfold model_service_py.get_model_service, bind, ret.
  destruct (_model_service_instance w) as [ms|] eqn:Hg; cbn.
  - by rewrite Hg.
  - by destruct (model_service_py.new_ModelService P w) as [w1 [ms|e]].
Qed.

Lemma get_model_service_inv (P : platform) (w : world) :
  singleton_inv w ->
  match model_service_py.get_model_service P w with
  | (w1, r) =>
      singleton_inv w1 /\ model_service w1 = model_service w /\
      (forall ms, _model_service_instance w = Some ms ->
                  _model_service_instance w1 = Some ms) /\
      (forall a, r = Return a ->
         exists ms, a = Some ms /\ _model_service_instance w1 = Some ms)
  end.
Proof.
  unfold singleton_inv. intros Hinv.
  pose proof (get_model_service_cases P w) as Hc.
  destruct (_model_service_instance w) as [ms|] eqn:Hg.
  - rewrite Hc, Hg. repeat split; try tauto.
    intros a [= <-]. eauto.
  - pose proof (new_ModelService_spec P w) as Hn.
    destruct (model_service_py.new_ModelService P w) as [w1 [ms|e]]; rewrite Hc; cbn.
    + destruct Hn as (_ & Hm & Hi & _ & Ha). rewrite Hi, Hinv.
      repeat split; try done. intros a [= <-]. eauto.
    + destruct Hn as (Hi & Hg1 & Ha). rewrite Hg1, Hi, Hg.
      repeat split; try done.
Qed.

Lemma call_many_initialised (P : platform) (n : nat) (w : world) (ms : ModelService) :
  _model_service_instance w = Some ms ->
  model_service_py.call_many P n w = (w, replicate n (Return (Some ms))).
Proof.
  intros Hg. induction n as [|n IH]; cbn [model_service_py.call_many replicate];
    [reflexivity|].
  pose proof (get_model_service_cases P w) as Hc. rewrite Hg in Hc.
  rewrite Hc, IH. reflexivity.
Qed.

Lemma call_many_inv (P : platform) (n : nat) (w w' : world) rs :
  singleton_inv w ->
  model_service_py.call_many P n w = (w', rs) ->
  singleton_inv w' /\
  forall i a, rs !! i = Some (Return a) ->
    exists ms, a = Some ms /\ _model_service_instance w' = Some ms.
Proof.
  revert w w' rs.
  induction n as [|n IH]; intros w w' rs Hinv; cbn [model_service_py.call_many].
  - intros [= <- <-]. split; [exact Hinv|]. intros i a Hi. by rewrite lookup_nil in Hi.
  - pose proof (get_model_service_inv P w Hinv) as Hstep.
    destruct (model_service_py.get_model_service P w) as [w1 r].
    destruct Hstep as (Hinv1 & _ & _ & Hret).
    destruct (model_service_py.call_many P n w1) as [w2 rs'] eqn:Hrest.
    intros [= <- <-].
    destruct (IH _ _ _ Hinv1 Hrest) as [Hinv2 Hrs]. split; [exact Hinv2|].
    intros [|i] a; cbn; [|apply Hrs].
    intros [= ->]. destruct (Hret a eq_refl) as (ms & -> & Hg).
    rewrite (call_many_initialised P n w1 ms Hg) in Hrest.
    injection Hrest as <- _. eauto.
Qed.

(** C4, as amended. From a process in which no instance exists yet, any
    number of calls of [get_model_service] made one after the other leave
    at most one [ModelService] object in existence, and every call that
    returns hands out that one object, the value of the global. *)
Theorem get_model_service_singleton (P : platform) (n : nat) (w w' : world)
    (rs : list (result (option ModelService))) :
  _model_service_instance w = None ->
  instances w = [] ->
  model_service_py.call_many P n w = (w', rs) ->
  length (instances w') <= 1 /\
  forall i j a b,
    rs !! i = Some (Return a) -> rs !! j = Some (Return b) ->
    a = b /\ exists ms, a = Some ms /\ instances w' = [ms].
Proof.
  intros Hg Hi Hcalls.
  assert (Hinv : singleton_inv w) by (unfold singleton_inv; by rewrite Hg).
  destruct (call_many_inv P n w w' rs Hinv Hcalls) as [Hinv' Hrs].
  unfold singleton_inv in Hinv'. split.
  - destruct (_model_service_instance w'); [destruct Hinv' as [-> _]|rewrite Hinv']; cbn; lia.
  - intros i j a b Ha Hb.
    destruct (Hrs i a Ha) as (ms & -> & Hga).
    destruct (Hrs j b Hb) as (ms' & -> & Hgb).
    rewrite Hga in Hgb. injection Hgb as <-. split; [reflexivity|].
    exists ms. split; [reflexivity|]. rewrite Hga in Hinv'. tauto.
Qed.

Lemma get_model_service_singleton_witness :
  exists ms,
    instances (fst (model_service_py.call_many Demo.platform0 3 Demo.booting)) = [ms] /\
    snd (model_service_py.call_many Demo.platform0 3 Demo.booting)
      = [Return (Some ms); Return (Some ms); Return (Some ms)].
Proof.
  destruct (model_service_py.call_many Demo.platform0 3 Demo.booting) as [w' rs] eqn:Hrun.
  destruct (get_model_service_singleton Demo.platform0 3 Demo.booting w' rs
              eq_refl eq_refl Hrun) as [_ Hsame].
  vm_compute in Hrun. injection Hrun as <- <-.
  destruct (Hsame 0%nat 2%nat _ _ eq_refl eq_refl) as (_ & ms & Hms & Hinst).
  exists ms. split; [exact Hinst|]. injection Hms as <-. reflexivity.
Defined.

(** The interleaved model agrees with the function when one call runs
    alone. *)
Lemma call_step_sequential (P : platform) (w : world) :
  let '(w1, p1) := model_service_py.call_step P model_service_py.AtTest w in
  let '(w2, p2) := model_service_py.call_step P p1 w1 in
  let '(w3, p3) := model_service_py.call_step P p2 w2 in
  (w3, p3) = (fst (model_service_py.get_model_service P w),
              model_service_py.Finished (snd (model_service_py.get_model_service P w))).
Proof.
  pose proof (get_model_service_cases P w) as Hc.
  destruct (model_service_py.get_model_service P w) as [wf rf].
  cbn [fst snd model_service_py.call_step].
  destruct (_model_service_instance w) as [ms|] eqn:Hg.
  - injection Hc as -> ->. cbn. congruence.
  - cbn [model_service_py.call_step].
    destruct (model_service_py.new_ModelService P w) as [w1 [ms|e]];
      injection Hc as -> ->; reflexivity.
Qed.

(** C4 as stated fails for overlapping calls: two threads that both test
    the global before either assigns it construct one object each and
    return different instances. *)
Lemma concurrent_acquisitions_differ :
  exists a b w',
    model_service_py.run_schedule Demo.platform0 [0; 1; 0; 0; 1; 1]%nat
      [model_service_py.AtTest; model_service_py.AtTest] Demo.booting
    = (w', [model_service_py.Finished (Return (Some a));
            model_service_py.Finished (Return (Some b))]) /\
    a <> b /\ instances w' = [a; b].
Proof.
  eexists _, _, _. split; [vm_compute; reflexivity|].
  split; [discriminate|reflexivity].
Qed.

(** ** Model information *)

Lemma frame_singleton_inv (w w' : world) :
  frame w w' -> singleton_inv w -> singleton_inv w'.
Proof.
  intros [] Hinv. unfold singleton_inv in *.
  rewrite frame_global0, frame_instances0. exact Hinv.
Qed.

Lemma frame_app_global_inv (w w' : world) :
  frame w w' -> app_global_inv w -> app_global_inv w'.
Proof.
  intros [] Hinv ms. unfold app_global_inv in *.
  rewrite frame_app_global0, frame_global0. apply Hinv.
Qed.

Lemma startup_event_inv (P : platform) (w : world) :
  singleton_inv w -> app_global_inv w ->
  singleton_inv (fst (app.startup_event P w)) /\
  app_global_inv (fst (app.startup_event P w)).
Proof.
  intros Hs Ha.
  unfold app.startup_event, try_except, bind, logger_info, logger_error, raise.
  set (w1 := add_log _ _ (add_log _ _ w)).
  assert (Hs1 : singleton_inv w1) by exact Hs.
  assert (Ha1 : app_global_inv w1) by exact Ha.
  pose proof (get_model_service_inv P w1 Hs1) as Hstep.
  destruct (model_service_py.get_model_service P w1) as [w2 [a|e]]; cbn.
  - destruct Hstep as (Hs2 & _ & _ & Hret).
    destruct (Hret a eq_refl) as (ms & -> & Hg).
    split; [exact Hs2|]. intros ms'. cbn. congruence.
  - destruct Hstep as (Hs2 & Hm & Hkeep & _).
    split; [exact Hs2|]. intros ms'. cbn. rewrite Hm. intros Hms'.
    apply Hkeep, Ha1, Hms'.
Qed.

Lemma process_step_inv (P : platform) (w w' : world) :
  process_step P w w' ->
  singleton_inv w /\ app_global_inv w -> singleton_inv w' /\ app_global_inv w'.
Proof.
  intros Hstep [Hs Ha]. destruct Hstep.
  - by apply startup_event_inv.
  - pose proof (get_model_service_inv P w Hs) as H.
    destruct (model_service_py.get_model_service P w) as [w1 r]; cbn.
    destruct H as (Hs1 & Hm & Hkeep & _). split; [exact Hs1|].
    intros ms. rewrite Hm. intros Hms. apply Hkeep, Ha, Hms.
  - unfold app.health_check. by destruct (model_service w).
  - unfold app.model_info. by destruct (model_service w).
  - pose proof (framed_transcribe_audio P file_id audio w) as Hf.
    split; [eapply frame_singleton_inv|eapply frame_app_global_inv]; eauto.
  - pose proof (framed_cleanup_temp_files P w) as Hf.
    split; [eapply frame_singleton_inv|eapply frame_app_global_inv]; eauto.
  - split; [exact Hs|exact Ha].
Qed.

Lemma run_inv (P : platform) (w0 w : world) :
  rtc (process_step P) w0 w ->
  singleton_inv w0 /\ app_global_inv w0 -> singleton_inv w /\ app_global_inv w.
Proof.
  induction 1 as [w|w1 w2 w3 Hstep _ IH]; intros Hinv; [exact Hinv|].
  apply IH. eapply process_step_inv; eauto.
Qed.

Lemma reachable_inv (P : platform) (w : world) :
  reachable P w -> singleton_inv w /\ app_global_inv w.
Proof.
  intros (w0 & (_ & _ & Hi & Hg & Hm) & Hrun).
  apply (run_inv P w0 w Hrun).
  unfold singleton_inv, app_global_inv. rewrite Hg, Hm. split; [exact Hi|discriminate].
Qed.

(** C9. [get_model_info] is a total function of the object; its status is
    "loaded" exactly when [self.model] is set and "not loaded" exactly
    when it is [None]; every instance handed out by [get_model_service],
    and the instance the handlers use, reports "loaded". *)
Theorem get_model_info_status (P : platform) :
  (forall ms,
     (info_status (model_service_py.get_model_info P ms) = "loaded"
        <-> model ms <> None) /\
     (info_status (model_service_py.get_model_info P ms) = "not loaded"
        <-> model ms = None)) /\
  (forall w w' ms,
     reachable P w ->
     (model_service_py.get_model_service P w = (w', Return (Some ms)) \/
      model_service w = Some ms) ->
     info_status (model_service_py.get_model_info P ms) = "loaded").
Proof.
  assert (Hst : forall ms,
     (info_status (model_service_py.get_model_info P ms) = "loaded"
        <-> model ms <> None) /\
     (info_status (model_service_py.get_model_info P ms) = "not loaded"
        <-> model ms = None)).
  { intros ms. unfold model_service_py.get_model_info. cbn.
    destruct (model ms); split; split; intros; done. }
  split; [exact Hst|].
  intros w w' ms Hreach Hms. apply Hst.
  destruct (reachable_inv P w Hreach) as [Hs Ha].
  assert (Hg : exists w1, singleton_inv w1 /\ _model_service_instance w1 = Some ms).
  { destruct Hms as [Hcall|Happ].
    - pose proof (get_model_service_inv P w Hs) as Hstep. rewrite Hcall in Hstep.
      destruct Hstep as (Hs' & _ & _ & Hret).
      destruct (Hret _ eq_refl) as (ms' & [= <-] & Hg). eauto.
    - exists w. split; [exact Hs|]. by apply Ha. }
  destruct Hg as (w1 & Hs1 & Hg). unfold singleton_inv in Hs1.
  rewrite Hg in Hs1. tauto.
Qed.

Lemma serving_reachable : reachable Demo.platform0 Demo.serving.
Proof.
  exists Demo.booting. split; [by repeat split|].
  apply rtc_once. apply step_startup.
Qed.

Lemma get_model_info_status_witness :
  exists ms,
    model_service Demo.serving = Some ms /\
    info_status (model_service_py.get_model_info Demo.platform0 ms) = "loaded".
Proof.
  eexists. split; [reflexivity|].
  apply (proj2 (get_model_info_status Demo.platform0) Demo.serving Demo.serving _
           serving_reachable).
  right. reflexivity.
Defined.

(** ** The transcription pipeline *)

Lemma transcribe_cleanup_returns (input_path wav_path : string) (w : world) :
  snd (app.transcribe_cleanup input_path wav_path w) = Return tt.
Proof.
  unfold app.transcribe_cleanup, try_except, bind, os.path_exists, when, logger_warning.
  cbn.
  destruct (bool_decide (is_Some (fs w !! input_path))); cbn.
  - destruct (os.remove input_path w) as [w1 [[]|e]]; cbn; [|reflexivity].
    destruct (bool_decide (is_Some (fs w1 !! wav_path))); cbn; [|reflexivity].
    by destruct (os.remove wav_path w1) as [w2 [[]|e]].
  - destruct (bool_decide (is_Some (fs w !! wav_path))); cbn; [|reflexivity].
    by destruct (os.remove wav_path w) as [w2 [[]|e]].
Qed.

(** The outcome of the handler is the outcome of its [try] block. *)
Lemma transcribe_audio_outcome (P : platform) (w : world) (ms : ModelService)
    (file_id : string) (audio : UploadFile) :
  model_service w = Some ms ->
  app.file_extension_of P audio ∈ ALLOWED_FORMATS ->
  snd (app.transcribe_audio P file_id audio w)
  = snd (app.transcribe_body P ms audio
           (app.input_path_of P file_id (app.file_extension_of P audio))
           (app.wav_path_of P file_id) w).
Proof.
  intros Hms Hext. unfold app.transcribe_audio. rewrite Hms.
  rewrite bool_decide_eq_true_2 by exact Hext. cbn [negb].
  unfold try_finally.
  destruct (app.transcribe_body _ _ _ _ _ w) as [w1 r]. cbn [snd].
  pose proof (transcribe_cleanup_returns
    (app.input_path_of P file_id (app.file_extension_of P audio))
    (app.wav_path_of P file_id) w1) as Hc.
  destruct (app.transcribe_cleanup _ _ w1) as [w2 [[]|e]]; [reflexivity|discriminate].
Qed.

Lemma remove_ok (p : string) (w : world) (c : content) :
  fs w !! p = Some (RegularFile c) -> p ∉ undeletable w ->
  os.remove p w = (set_fs (delete p) w, Return tt).
Proof.
  intros Hp Hu. unfold os.remove. rewrite Hp.
  by destruct (decide (p ∈ undeletable w)).
Qed.

Lemma transcribe_cleanup_removes (input_path wav_path : string) (w : world) :
  fs w !! input_path <> Some Directory ->
  fs w !! wav_path <> Some Directory ->
  input_path ∉ undeletable w ->
  wav_path ∉ undeletable w ->
  fs (fst (app.transcribe_cleanup input_path wav_path w)) !! input_path = None /\
  fs (fst (app.transcribe_cleanup input_path wav_path w)) !! wav_path = None.
Proof.
  intros Hi Ho Hui Huo.
  unfold app.transcribe_cleanup, try_except, bind, os.path_exists, when. cbn.
  destruct (fs w !! input_path) as [[ci|]|] eqn:Ei; [|congruence|].
  - rewrite bool_decide_eq_true_2 by eauto.
    rewrite (remove_ok _ _ _ Ei Hui). cbn.
    destruct (decide (input_path = wav_path)) as [<-|Hne].
    + rewrite lookup_delete_eq. rewrite bool_decide_eq_false_2 by (intros [? ?]; discriminate).
      cbn. by rewrite lookup_delete_eq.
    + rewrite lookup_delete_ne by exact Hne.
      destruct (fs w !! wav_path) as [[co|]|] eqn:Eo; [|congruence|].
      * rewrite bool_decide_eq_true_2 by eauto.
        rewrite (remove_ok wav_path (set_fs (delete input_path) w) co); cbn.
        -- rewrite lookup_delete_eq. split; [|reflexivity].
           rewrite lookup_delete_ne by congruence. by rewrite lookup_delete_eq.
        -- by rewrite lookup_delete_ne.
        -- exact Huo.
      * rewrite bool_decide_eq_false_2 by (intros [? ?]; discriminate). cbn.
        rewrite lookup_delete_eq. split; [reflexivity|]. by rewrite lookup_delete_ne.
  - rewrite bool_decide_eq_false_2 by (intros [? ?]; discriminate). cbn.
    destruct (fs w !! wav_path) as [[co|]|] eqn:Eo; [|congruence|].
    + rewrite bool_decide_eq_true_2 by eauto.
      rewrite (remove_ok _ _ _ Eo Huo). cbn. rewrite lookup_delete_eq.
      split; [|reflexivity].
      destruct (decide (wav_path = input_path)) as [->|Hne]; [by rewrite lookup_delete_eq|].
      by rewrite lookup_delete_ne.
    + rewrite bool_decide_eq_false_2 by (intros [? ?]; discriminate). cbn. tauto.
Qed.

(** C1, as amended. For a request that reaches the pipeline, the handler's
    outcome is the outcome of its [try] block, whatever happens in the
    cleanup; and when the host refuses neither removal, neither temporary
    path exists any more when the handler returns, on every branch. *)
Theorem transcribe_audio_cleanup (P : platform) (w : world) (ms : ModelService)
    (file_id : string) (audio : UploadFile) :
  model_service w = Some ms ->
  app.file_extension_of P audio ∈ ALLOWED_FORMATS ->
  let input_path := app.input_path_of P file_id (app.file_extension_of P audio) in
  let wav_path := app.wav_path_of P file_id in
  let w' := fst (app.transcribe_audio P file_id audio w) in
  snd (app.transcribe_audio P file_id audio w)
    = snd (app.transcribe_body P ms audio input_path wav_path w) /\
  (fs w !! input_path <> Some Directory ->
   fs w !! wav_path <> Some Directory ->
   input_path ∉ undeletable w ->
   wav_path ∉ undeletable w ->
   fs w' !! input_path = None /\ fs w' !! wav_path = None).
Proof.
  intros Hms Hext input_path wav_path w'.
  split; [by apply transcribe_audio_outcome|].
  intros Hi Ho Hui Huo. subst w'.
  unfold app.transcribe_audio. rewrite Hms.
  rewrite bool_decide_eq_true_2 by exact Hext. cbn [negb].
  fold input_path wav_path. unfold try_finally.
  pose proof (framed_transcribe_body P ms audio input_path wav_path w) as Hf.
  destruct (app.transcribe_body P ms audio input_path wav_path w) as [w1 r].
  cbn [fst] in Hf. destruct Hf as [Hu _ _ _ _ _ Hd].
  pose proof (transcribe_cleanup_removes input_path wav_path w1) as Hc.
  rewrite Hu in Hc. rewrite !Hd in Hc. specialize (Hc Hi Ho Hui Huo).
  by destruct (app.transcribe_cleanup input_path wav_path w1) as [w2 [[]|e]].
Qed.

Lemma transcribe_audio_cleanup_witness :
  let w' := fst (app.transcribe_audio Demo.platform0 "id" Demo.clip Demo.serving) in
  (app.file_extension_of Demo.platform0 Demo.clip ∈ ALLOWED_FORMATS) /\
  fs w' !! Demo.input_id = None /\ fs w' !! Demo.wav_id = None.
Proof.
  assert (Hext : app.file_extension_of Demo.platform0 Demo.clip ∈ ALLOWED_FORMATS)
    by (apply in_by_decide; reflexivity).
  cbv zeta. split; [exact Hext|].
  refine (proj2 (transcribe_audio_cleanup Demo.platform0 Demo.serving _ "id" Demo.clip
                   eq_refl Hext) _ _ _ _).
  - vm_compute. discriminate.
  - vm_compute. discriminate.
  - vm_compute. set_solver.
  - vm_compute. set_solver.
Defined.

(** C1 as stated fails when the host refuses a removal: the request
    succeeds and both of its temporary files are still on disk. *)
Lemma temp_files_survive_refused_removal :
  let w' := fst (app.transcribe_audio Demo.platform0 "id" Demo.clip Demo.locked) in
  app.input_path_of Demo.platform0 "id" (app.file_extension_of Demo.platform0 Demo.clip) = Demo.input_id /\
  app.wav_path_of Demo.platform0 "id" = Demo.wav_id /\
  status_of (snd (app.transcribe_audio Demo.platform0 "id" Demo.clip Demo.locked)) = 200%nat /\
  fs w' !! Demo.input_id = Some (RegularFile (Raw [Byte.x00; Byte.x01])) /\
  fs w' !! Demo.wav_id <> None.
Proof.
  cbv zeta. split; [reflexivity|]. split; [reflexivity|].
  split; [vm_compute; reflexivity|]. split; [vm_compute; reflexivity|].
  vm_compute. discriminate.
Qed.



(** ** [DELETE /cleanup] *)

Lemma cleanup_temp_files_raises (P : platform) (w : world) (e : exn) :
  snd (app.cleanup_temp_files P w) = Raise e ->
  exists m, e = HTTPException 500 ("Cleanup failed: " ++ m).
Proof.
  unfold app.cleanup_temp_files, try_except.
  destruct (bind _ _ w) as [w1 [a|e1]]; cbn; [discriminate|].
  intros [= <-]; eauto.
Qed.

(** C8, evaluated where it breaks. With one regular file and one
    sub-directory in the temporary directory, [cleanup_temp_files] removes
    the file, leaves the directory, and reports [files_deleted = 2]: the
    number of entries listed, not the number of files deleted. *)
Theorem cleanup_counts_listed_entries :
  let w := Demo.cluttered in
  let w' := fst (app.cleanup_temp_files Demo.platform0 w) in
  snd (app.cleanup_temp_files Demo.platform0 w)
    = Return {| cleanup_success := true; files_deleted := 2 |} /\
  fs w !! "/srv/uploads/temp/a.wav" = Some Demo.short_wav /\
  fs w' !! "/srv/uploads/temp/a.wav" = None /\
  fs w' !! "/srv/uploads/temp/sub" = Some Directory /\
  size (fs w) = 3%nat /\ size (fs w') = 2%nat.
Proof.
  cbv zeta. repeat split; vm_compute; reflexivity.
Qed.

(** ** Failure mapping *)

Lemma write_bytes_raises (p : string) (b : list Byte.byte) (w : world) (e : exn) :
  snd (os.write_bytes p b w) = Raise e -> exists m, e = OSError m.
Proof.
  unfold os.write_bytes.
  destruct (decide (p ∈ unwritable w)); cbn; [intros [= <-]; eauto|].
  destruct (fs w !! p) as [[c|]|]; cbn; try discriminate.
  intros [= <-]; eauto.
Qed.

Lemma convert_to_wav_raises (P : platform) i o (w : world) (e : exn) :
  snd (audio_utils.convert_to_wav P i o w) = Raise e -> exists m, e = ValueError m.
Proof.
  unfold audio_utils.convert_to_wav, try_except.
  destruct (bind _ _ w) as [w1 [p|e1]]; cbn; [discriminate|].
  intros [= <-]; eauto.
Qed.

Lemma validate_audio_raises (P : platform) p (w : world) (e : exn) :
  snd (audio_utils.validate_audio P p w) = Raise e -> exists m, e = ValueError m.
Proof.
  unfold audio_utils.validate_audio, try_except.
  destruct (bind _ _ w) as [w1 [a|e1]]; cbn; [discriminate|].
  intros [= <-]; eauto.
Qed.

Lemma transcribe_raises (P : platform) ms p (w : world) (e : exn) :
  snd (model_service_py.transcribe P ms p w) = Raise e -> exists m, e = RuntimeError m.
Proof.
  unfold model_service_py.transcribe.
  destruct (model ms) as [m|]; [|cbn; intros [= <-]; eauto].
  unfold try_except.
  destruct (bind _ _ w) as [w1 [a|e1]]; cbn; [discriminate|].
  intros [= <-]; eauto.
Qed.

(** C2. For a request that reaches the pipeline the response is decided
    by the first stage that raises: saving the upload (500), conversion
    (400, "Audio conversion failed: " and the converter's message),
    validation (400, the validator's message), inference (500); with no
    failure the response is the 200 body.  No other status occurs. *)
Theorem transcribe_audio_status_mapping (P : platform) (w : world) (ms : ModelService)
    (file_id : string) (audio : UploadFile) :
  model_service w = Some ms ->
  app.file_extension_of P audio ∈ ALLOWED_FORMATS ->
  let input_path := app.input_path_of P file_id (app.file_extension_of P audio) in
  let wav_path := app.wav_path_of P file_id in
  let r := snd (app.transcribe_audio P file_id audio w) in
  match (exec logger_info ("Receiving audio file: " ++ filename audio);
         os.write_bytes input_path (body audio)) w with
  | (_, Raise e) =>
      r = Raise (HTTPException 500 ("Transcription failed: " ++ str e))
  | (w1, Return _) =>
      match (exec logger_info "Converting audio to 16kHz WAV format...";
             audio_utils.convert_to_wav P input_path (Some wav_path)) w1 with
      | (_, Raise e) =>
          r = Raise (HTTPException 400 ("Audio conversion failed: " ++ str e))
      | (w2, Return _) =>
          match audio_utils.validate_audio P wav_path w2 with
          | (_, Raise e) => r = Raise (HTTPException 400 (str e))
          | (w3, Return audio_info) =>
              match (exec logger_info ("Audio validated: "
                       ++ format_float P 2 (duration audio_info) ++ "s");
                     exec logger_info "Transcribing audio...";
                     model_service_py.transcribe P ms wav_path) w3 with
              | (_, Raise e) =>
                  r = Raise (HTTPException 500 ("Transcription failed: " ++ str e))
              | (_, Return result) =>
                  r = Return {| success := true;
                                resp_text := text result;
                                resp_language := language result;
                                audio_duration := duration audio_info;
                                original_filename := filename audio |}
              end
          end
      end
  end /\
  (status_of r = 200 \/ status_of r = 400 \/ status_of r = 500)%nat.
Proof.
  intros Hms Hext input_path wav_path r.
  assert (Hr : r = snd (app.transcribe_body P ms audio input_path wav_path w))
    by (by apply transcribe_audio_outcome).
  assert (Hmain :
    match (exec logger_info ("Receiving audio file: " ++ filename audio);
         os.write_bytes input_path (body audio)) w with
  | (_, Raise e) =>
      r = Raise (HTTPException 500 ("Transcription failed: " ++ str e))
  | (w1, Return _) =>
      match (exec logger_info "Converting audio to 16kHz WAV format...";
             audio_utils.convert_to_wav P input_path (Some wav_path)) w1 with
      | (_, Raise e) =>
          r = Raise (HTTPException 400 ("Audio conversion failed: " ++ str e))
      | (w2, Return _) =>
          match audio_utils.validate_audio P wav_path w2 with
          | (_, Raise e) => r = Raise (HTTPException 400 (str e))
          | (w3, Return audio_info) =>
              match (exec logger_info ("Audio validated: "
                       ++ format_float P 2 (duration audio_info) ++ "s");
                     exec logger_info "Transcribing audio...";
                     model_service_py.transcribe P ms wav_path) w3 with
              | (_, Raise e) =>
                  r = Raise (HTTPException 500 ("Transcription failed: " ++ str e))
              | (_, Return result) =>
                  r = Return {| success := true;
                                resp_text := text result;
                                resp_language := language result;
                                audio_duration := duration audio_info;
                                original_filename := filename audio |}
              end
          end
      end
  end).
  { rewrite Hr. clear Hr r.
    unfold app.transcribe_body, try_except, bind, logger_info, logger_error, raise, ret.
    set (w0 := add_log "INFO" _ w).
    pose proof (write_bytes_raises input_path (body audio) w0) as Hsave.
    destruct (os.write_bytes input_path (body audio) w0) as [w1 [[]|e]]; cbn [snd] in *.
    2:{ destruct (Hsave e eq_refl) as [m ->]. reflexivity. }
    clear Hsave. set (w1' := add_log "INFO" _ w1).
    pose proof (convert_to_wav_raises P input_path (Some wav_path) w1') as Hconv.
    destruct (audio_utils.convert_to_wav P input_path (Some wav_path) w1')
      as [w2 [p|e]]; cbn [snd] in *.
    2:{ destruct (Hconv e eq_refl) as [m ->]. reflexivity. }
    clear Hconv.
    pose proof (validate_audio_raises P wav_path w2) as Hval.
    destruct (audio_utils.validate_audio P wav_path w2) as [w3 [info|e]]; cbn [snd] in *.
    2:{ destruct (Hval e eq_refl) as [m ->]. reflexivity. }
    clear Hval. set (w3' := add_log "INFO" _ (add_log "INFO" _ w3)).
    pose proof (transcribe_raises P ms wav_path w3') as Htr.
    destruct (model_service_py.transcribe P ms wav_path w3') as [w4 [res|e]];
      cbn [snd] in *.
    2:{ destruct (Htr e eq_refl) as [m ->]. reflexivity. }
    reflexivity. }
  split; [exact Hmain|].
  repeat match type of Hmain with
         | match ?c with _ => _ end => destruct c as [? [?|?]]
         end; rewrite Hmain; cbn; tauto.
Qed.

Lemma transcribe_audio_status_mapping_witness :
  (app.file_extension_of Demo.platform0 Demo.clip ∈ ALLOWED_FORMATS) /\
  (status_of (snd (app.transcribe_audio Demo.platform0 "id" Demo.clip Demo.serving)) = 200
   \/ status_of (snd (app.transcribe_audio Demo.platform0 "id" Demo.clip Demo.serving)) = 400
   \/ status_of (snd (app.transcribe_audio Demo.platform0 "id" Demo.clip Demo.serving)) = 500)%nat.
Proof.
  assert (Hext : app.file_extension_of Demo.platform0 Demo.clip ∈ ALLOWED_FORMATS)
    by (apply in_by_decide; reflexivity).
  split; [exact Hext|].
  exact (proj2 (transcribe_audio_status_mapping Demo.platform0 Demo.serving _ "id"
                  Demo.clip eq_refl Hext)).
Defined.

(** * Further properties of the code *)

(** ** [audio_utils.py] *)

(** X1. Without an explicit output path, the path [convert_to_wav] writes
    to is never the input path: the source file cannot be overwritten by
    its own conversion. *)
Theorem default_output_differs_from_input (input_path : string) :
  PyStr.rsplit1_head "." input_path ++ "_converted.wav" <> input_path.
Proof.
  unfold PyStr.rsplit1_head.
  destruct (PyStr.rpartition "." input_path) as [[l r]|] eqn:E.
  - apply rpartition_split in E. rewrite E.
    intros H. apply string_app_inv_head in H. discriminate H.
  - intros H. apply (f_equal String.length) in H.
    rewrite string_app_length in H. cbn in H. lia.
Qed.

Lemma load_cases (P : platform) (path : string) (sr : option positive) (mono : bool)
    (w : world) :
  (exists c y0 sr0,
     fs w !! path = Some (RegularFile c) /\ librosa.decode P c = Some (y0, sr0) /\
     librosa.load P path sr mono w
       = (w, Return
               (match sr with
                | Some t => librosa.resample_to P sr0 t
                              (if mono then librosa.to_mono P y0 else y0)
                | None => if mono then librosa.to_mono P y0 else y0
                end,
                match sr with Some t => t | None => sr0 end))) \/
  (exists e, librosa.load P path sr mono w = (w, Raise e) /\
     forall c, fs w !! path = Some (RegularFile c) -> librosa.decode P c = None).
Proof.
  unfold librosa.load.
  destruct (fs w !! path) as [[c|]|] eqn:E.
  - destruct (librosa.decode P c) as [[y0 sr0]|] eqn:D.
    + left. exists c, y0, sr0. split; [done|]. split; [done|]. by destruct sr.
    + right. eexists. split; [reflexivity|]. by intros c' [= <-].
  - right. eexists. split; [reflexivity|]. discriminate.
  - right. eexists. split; [reflexivity|]. discriminate.
Qed.

(** X2. [convert_to_wav] changes nothing but the file at its output path;
    every failure is a [ValueError] "Failed to convert audio file: "
    followed by the cause; when the input is not a decodable regular file
    it fails and changes nothing at all; and it succeeds exactly when the
    input is a regular file that decodes, soundfile knows the container
    named by the output path's extension and the container takes the
    converted waveform at 16000 Hz, and the output path can be opened for
    writing. *)
Theorem convert_to_wav_effects (P : platform) (w : world)
    (input_path : string) (output_path : option string) :
  let out :=
    match output_path with
    | None => PyStr.rsplit1_head "." input_path ++ "_converted.wav"
    | Some p => p
    end in
  let run := audio_utils.convert_to_wav P input_path output_path w in
  (forall p, p <> out -> fs (fst run) !! p = fs w !! p) /\
  fst run = set_fs (fun _ => fs (fst run)) w /\
  (forall e, snd run = Raise e ->
     exists cause, e = ValueError ("Failed to convert audio file: " ++ cause)) /\
  ((forall c, fs w !! input_path = Some (RegularFile c) -> librosa.decode P c = None) ->
   fst run = w /\ exists e, snd run = Raise e) /\
  ((exists p, snd run = Return p) <->
   (exists c y0 sr0,
      fs w !! input_path = Some (RegularFile c) /\
      librosa.decode P c = Some (y0, sr0) /\
      sf.can_write P out
        (librosa.resample_to P sr0 16000 (librosa.to_mono P y0)) 16000 = true /\
      (out ∉ unwritable w) /\ fs w !! out <> Some Directory)).
Proof.
  intros out run. subst run.
  unfold audio_utils.convert_to_wav, try_except, bind.
  destruct (load_cases P input_path (Some SAMPLE_RATE) true w)
    as [(c & y0 & sr0 & Hin & Hdec & ->)|(e & -> & Hbad)].
  - cbn [fst snd]. fold out.
    destruct (sf_write_cases P out
                (librosa.resample_to P sr0 SAMPLE_RATE (librosa.to_mono P y0))
                SAMPLE_RATE w)
      as [(-> & Hc & Hw & Hd)|(m & -> & Hbad)]; cbn [fst snd].
    + split; [intros p Hp; cbn; by rewrite lookup_insert_ne|].
      split; [by destruct w|].
      split; [discriminate|].
      split; [intros Hno; specialize (Hno c Hin); congruence|].
      split; [intros _; exists c, y0, sr0; done|eauto].
    + split; [done|]. split; [by destruct w|].
      split; [intros e [= <-]; eauto|].
      split; [intros Hno; specialize (Hno c Hin); congruence|].
      split; [intros [p Hp]; discriminate|].
      intros (c' & y' & sr' & Hin' & Hdec' & Hc & Hw & Hd).
      rewrite Hin in Hin'. injection Hin' as <-.
      rewrite Hdec in Hdec'. injection Hdec' as <- <-.
      change SAMPLE_RATE with 16000%positive in Hbad.
      destruct Hbad as [Hb|[Hb|Hb]]; [congruence|contradiction..].
  - cbn [fst snd]. split; [done|]. split; [by destruct w|].
    split; [intros e' [= <-]; eauto|].
    split; [intros _; split; [done|eauto]|].
    split; [intros [p Hp]; discriminate|].
    intros (c & y0 & sr0 & Hin & Hdec & _). rewrite (Hbad c Hin) in Hdec. discriminate.
Qed.

Lemma convert_to_wav_result (P : platform) (w w' : world)
    (input_path : string) (output_path : option string) (p : string) :
  audio_utils.convert_to_wav P input_path output_path w = (w', Return p) ->
  exists y,
    w' = set_fs (<[p := RegularFile (Wav (Arr1 y) 16000)]>) w /\
    (p ∉ unwritable w) /\ fs w !! p <> Some Directory.
Proof.
  unfold audio_utils.convert_to_wav, try_except, bind.
  destruct (load_cases P input_path (Some SAMPLE_RATE) true w)
    as [(c & y0 & sr0 & Hin & Hdec & ->)|(e & -> & Hbad)]; [|discriminate].
  cbn [fst snd].
  set (out := match output_path with Some p0 => p0 | None => _ end).
  destruct (to_mono_flat P y0) as [y1 ->].
  destruct (resample_to_flat P sr0 SAMPLE_RATE y1) as [y2 ->].
  destruct (sf_write_cases P out (Arr1 y2) SAMPLE_RATE w)
    as [(-> & _ & Hw & Hd)|(m & -> & _)]; [|discriminate].
  intros [= <- <-]. eauto.
Qed.

Lemma load_wav_flat (P : platform) (w : world) (p : string) (y : list Q)
    (sr : positive) (target : option positive) (mono : bool) :
  fs w !! p = Some (RegularFile (Wav (Arr1 y) sr)) ->
  (target = None \/ target = Some sr) ->
  librosa.load P p target mono w = (w, Return (Arr1 y, sr)).
Proof.
  intros Hp Ht. unfold librosa.load. rewrite Hp.
  destruct mono, Ht as [->| ->]; cbn;
    unfold librosa.resample_to; rewrite ?Pos.eqb_refl; reflexivity.
Qed.



Lemma validate_wav_flat (P : platform) (w : world) (p : string) (y : list Q)
    (sr : positive) :
  fs w !! p = Some (RegularFile (Wav (Arr1 y) sr)) ->
  audio_utils.validate_audio P p w
  = (w, if Qlt_le_dec (inject_Z 1440) (Z.of_nat (length y) # sr)
        then Raise (ValueError
               ("Audio validation failed: Audio duration ("
                ++ format_float P 1 (Z.of_nat (length y) # sr)
                ++ "s) exceeds maximum allowed duration (1440s)"))
        else Return {| duration := Z.of_nat (length y) # sr; sample_rate := sr;
                       channels := 1; valid := true |}).
Proof.
  intros Hp. unfold audio_utils.validate_audio, try_except, bind.
  rewrite (load_wav_flat P w p y sr None false Hp) by (by left).
  cbn [fst snd].
  change (inject_Z MAX_AUDIO_DURATION) with (inject_Z 1440).
  change (librosa.get_duration (Arr1 y) sr) with (Z.of_nat (length y) # sr).
  by destruct (Qlt_le_dec (inject_Z 1440) (Z.of_nat (length y) # sr)).
Qed.

(** X4. Validating what [convert_to_wav] wrote never fails on decoding:
    the converted file holds some waveform [y]; when its duration
    [len(y)/16000] is at most 1440 seconds the metadata is one channel at
    16000 Hz with that duration, otherwise the only failure is the
    duration-exceeded [ValueError]. *)
Theorem validate_after_convert (P : platform) (w w1 : world)
    (input_path : string) (output_path : option string) (out : string) :
  audio_utils.convert_to_wav P input_path output_path w = (w1, Return out) ->
  exists y,
    fs w1 !! out = Some (RegularFile (Wav (Arr1 y) 16000)) /\
    ((Z.of_nat (length y) # 16000 <= inject_Z 1440)%Q ->
       audio_utils.validate_audio P out w1
       = (w1, Return {| duration := Z.of_nat (length y) # 16000; sample_rate := 16000;
                        channels := 1; valid := true |})) /\
    ((inject_Z 1440 < Z.of_nat (length y) # 16000)%Q ->
       audio_utils.validate_audio P out w1
       = (w1, Raise (ValueError
                ("Audio validation failed: Audio duration ("
                 ++ format_float P 1 (Z.of_nat (length y) # 16000)
                 ++ "s) exceeds maximum allowed duration (1440s)")))).
Proof.
  intros Hconv.
  destruct (convert_to_wav_result P w w1 input_path output_path out Hconv)
    as (y & -> & _ & _).
  exists y.
  assert (Hfile : fs (set_fs (<[out := RegularFile (Wav (Arr1 y) 16000)]>) w) !! out
                  = Some (RegularFile (Wav (Arr1 y) 16000)))
    by (cbn; by rewrite lookup_insert_eq).
  split; [exact Hfile|].
  rewrite (validate_wav_flat P _ out y 16000 Hfile).
  split; intros Hd;
    destruct (Qlt_le_dec (inject_Z 1440) (Z.of_nat (length y) # 16000)) as [Hlt|Hle];
    try reflexivity; exfalso; eapply Qlt_not_le; eauto.
Qed.

Lemma validate_after_convert_witness :
  exists y,
    fs (fst (audio_utils.convert_to_wav Demo.platform0 "/a/clip.mp3" None Demo.archive))
      !! "/a/clip_converted.wav" = Some (RegularFile (Wav (Arr1 y) 16000)).
Proof.
  destruct (validate_after_convert Demo.platform0 Demo.archive
              (fst (audio_utils.convert_to_wav Demo.platform0 "/a/clip.mp3" None
                      Demo.archive))
              "/a/clip.mp3" None "/a/clip_converted.wav")
    as (y & Hfile & _).
  - vm_compute. reflexivity.
  - exists y. exact Hfile.
Defined.

Lemma convert_to_wav_effects_witness :
  fs (fst (audio_utils.convert_to_wav Demo.platform0 "/a/clip.mp3" None Demo.archive))
    !! "/a/clip.mp3"
  = fs Demo.archive !! "/a/clip.mp3".
Proof.
  apply (proj1 (convert_to_wav_effects Demo.platform0 Demo.archive "/a/clip.mp3" None)).
  vm_compute. discriminate.
Defined.

(** X5. [validate_audio] has no effect on the world; every failure is a
    [ValueError] "Audio validation failed: " followed by the cause; and it
    succeeds exactly on a regular file that decodes with a duration of at
    most 1440 seconds. *)
Theorem validate_audio_effects (P : platform) (w : world) (file_path : string) :
  let run := audio_utils.validate_audio P file_path w in
  fst run = w /\
  (forall e, snd run = Raise e ->
     exists cause, e = ValueError ("Audio validation failed: " ++ cause)) /\
  ((exists info, snd run = Return info) <->
   (exists c y sr,
      fs w !! file_path = Some (RegularFile c) /\
      librosa.decode P c = Some (y, sr) /\
      (librosa.get_duration y sr <= inject_Z 1440)%Q)).
Proof.
  intros run. subst run.
  unfold audio_utils.validate_audio, try_except, bind.
  destruct (load_cases P file_path None false w)
    as [(c & y0 & sr0 & Hin & Hdec & ->)|(e & -> & Hbad)]; cbn [fst snd].
  - change (inject_Z MAX_AUDIO_DURATION) with (inject_Z 1440).
    destruct (Qlt_le_dec (inject_Z 1440) (librosa.get_duration y0 sr0)) as [Hlt|Hle];
      cbn [fst snd raise ret].
    + split; [done|]. split; [intros e [= <-]; eauto|]. split.
      * intros [info Hi]. discriminate.
      * intros (c' & y & sr & Hc & Hd & Hdur). exfalso.
        rewrite Hin in Hc. injection Hc as <-. rewrite Hdec in Hd.
        injection Hd as <- <-. eapply Qlt_not_le; eauto.
    + split; [done|]. split; [discriminate|]. split; [|eauto].
      intros _. exists c, y0, sr0. done.
  - split; [done|]. split; [intros e' [= <-]; eauto|]. split.
    + intros [info Hi]. discriminate.
    + intros (c & y & sr & Hc & Hd & _). rewrite (Hbad c Hc) in Hd. discriminate.
Qed.

Lemma validate_audio_effects_witness :
  exists cause,
    snd (audio_utils.validate_audio Demo.platform0 "/a/missing.wav" Demo.archive)
    = Raise (ValueError ("Audio validation failed: " ++ cause)).
Proof.
  destruct (proj1 (proj2 (validate_audio_effects Demo.platform0 Demo.archive
                            "/a/missing.wav"))
              (ValueError
                 "Audio validation failed: [Errno 2] No such file or directory: /a/missing.wav"))
    as [cause Hc].
  - vm_compute. reflexivity.
  - exists cause. rewrite <- Hc. vm_compute. reflexivity.
Defined.

(** X6. On a file written by [convert_to_wav], [get_audio_info] changes
    nothing; when the converted waveform [y] lasts at most 1440 seconds it
    returns the duration followed by "Sample Rate: 16000Hz, Channels: 1",
    and otherwise it raises the duration-exceeded [ValueError] of
    [validate_audio] unchanged. *)
Theorem get_audio_info_after_convert (P : platform) (w w1 : world)
    (input_path : string) (output_path : option string) (out : string) :
  audio_utils.convert_to_wav P input_path output_path w = (w1, Return out) ->
  exists y,
    fs w1 !! out = Some (RegularFile (Wav (Arr1 y) 16000)) /\
    ((Z.of_nat (length y) # 16000 <= inject_Z 1440)%Q ->
       audio_utils.get_audio_info P out w1
       = (w1, Return ("Duration: " ++ format_float P 2 (Z.of_nat (length y) # 16000)
                      ++ "s, Sample Rate: 16000Hz, Channels: 1"))) /\
    ((inject_Z 1440 < Z.of_nat (length y) # 16000)%Q ->
       audio_utils.get_audio_info P out w1
       = (w1, Raise (ValueError
                ("Audio validation failed: Audio duration ("
                 ++ format_float P 1 (Z.of_nat (length y) # 16000)
                 ++ "s) exceeds maximum allowed duration (1440s)")))).
Proof.
  intros Hconv.
  destruct (convert_to_wav_result P w w1 input_path output_path out Hconv)
    as (y & -> & _ & _).
  exists y.
  assert (Hfile : fs (set_fs (<[out := RegularFile (Wav (Arr1 y) 16000)]>) w) !! out
                  = Some (RegularFile (Wav (Arr1 y) 16000)))
    by (cbn; by rewrite lookup_insert_eq).
  split; [exact Hfile|].
  unfold audio_utils.get_audio_info, bind.
  rewrite (validate_wav_flat P _ out y 16000 Hfile).
  split; intros Hd;
    destruct (Qlt_le_dec (inject_Z 1440) (Z.of_nat (length y) # 16000)) as [Hlt|Hle];
    try reflexivity; exfalso; eapply Qlt_not_le; eauto.
Qed.

Lemma get_audio_info_after_convert_witness :
  exists y,
    fs (fst (audio_utils.convert_to_wav Demo.platform0 "/a/clip.mp3" None Demo.archive))
      !! "/a/clip_converted.wav" = Some (RegularFile (Wav (Arr1 y) 16000)).
Proof.
  destruct (get_audio_info_after_convert Demo.platform0 Demo.archive
              (fst (audio_utils.convert_to_wav Demo.platform0 "/a/clip.mp3" None
                      Demo.archive))
              "/a/clip.mp3" None "/a/clip_converted.wav")
    as (y & Hfile & _).
  - vm_compute. reflexivity.
  - exists y. exact Hfile.
Defined.

(** ** [model_service.py] *)

(** X7. [ModelService.transcribe] touches neither files nor globals, and
    its outcome is read off the model's answer for the one path: without a
    loaded model it raises "Model not loaded" at once; an exception of the
    model, or an empty answer, becomes a [RuntimeError] "Transcription
    failed: ..."; otherwise the result is built from the first output
    alone, with language "auto-detected" unless the output names one, and
    no confidence. *)
Theorem transcribe_outcome (P : platform) (self : ModelService) (audio_path : string)
    (w : world) :
  let run := model_service_py.transcribe P self audio_path w in
  fs (fst run) = fs w /\
  _model_service_instance (fst run) = _model_service_instance w /\
  model_service (fst run) = model_service w /\
  match model self with
  | None => run = (w, Raise (RuntimeError "Model not loaded"))
  | Some m =>
      match model_transcribe P m [fs w !! audio_path] with
      | Raise e =>
          snd run = Raise (RuntimeError ("Transcription failed: " ++ str e))
      | Return [] =>
          snd run = Raise (RuntimeError "Transcription failed: list index out of range")
      | Return (o :: _) =>
          snd run = Return (model_service_py.result_of_output o) /\
          confidence (model_service_py.result_of_output o) = None
      end
  end.
Proof.
  intros run. subst run. unfold model_service_py.transcribe.
  destruct (model self) as [m|]; [|by cbn].
  unfold try_except, bind, logger_info, logger_error, raise, ret. cbn [fst snd fs add_log].
  destruct (model_transcribe P m [fs w !! audio_path]) as [[|o outputs]|e]; cbn;
    repeat split; try done.
Qed.

(** X8. [ModelService.transcribe_batch] is all or nothing: it returns one
    result per output of the model, in the model's order, or raises a
    [RuntimeError] ("Model not loaded", or "Batch transcription failed: "
    and the cause); it touches neither files nor globals.  The number of
    results is the number of outputs, whatever the number of paths. *)
Theorem transcribe_batch_outcome (P : platform) (self : ModelService)
    (audio_paths : list string) (w : world) :
  let run := model_service_py.transcribe_batch P self audio_paths w in
  fs (fst run) = fs w /\
  _model_service_instance (fst run) = _model_service_instance w /\
  model_service (fst run) = model_service w /\
  match model self with
  | None => run = (w, Raise (RuntimeError "Model not loaded"))
  | Some m =>
      match model_transcribe P m (map (fun p => fs w !! p) audio_paths) with
      | Raise e =>
          snd run = Raise (RuntimeError ("Batch transcription failed: " ++ str e))
      | Return outputs =>
          exists results,
            snd run = Return results /\
            length results = length outputs /\
            forall i o, outputs !! i = Some o ->
                        results !! i = Some (model_service_py.result_of_output o)
      end
  end.
Proof.
  intros run. subst run. unfold model_service_py.transcribe_batch.
  destruct (model self) as [m|]; [|by cbn].
  unfold try_except, bind, logger_info, logger_error, raise, ret. cbn [fst snd fs add_log].
  destruct (model_transcribe P m (map (fun p => fs w !! p) audio_paths))
    as [outputs|e]; cbn; [|done].
  split; [done|]. split; [done|]. split; [done|].
  eexists. split; [reflexivity|]. split.
  - by rewrite length_map.
  - intros i o Hi. by rewrite list_lookup_fmap, Hi.
Qed.

(** X9. Transcribing one file and transcribing the one-element batch of
    that file agree: [transcribe] returns [r] exactly when the batch
    returns a list that starts with [r]; the batch returns the empty list
    exactly when [transcribe] fails with "list index out of range". *)
Theorem transcribe_agrees_with_batch (P : platform) (self : ModelService)
    (audio_path : string) (w : world) :
  (forall r,
     snd (model_service_py.transcribe P self audio_path w) = Return r <->
     exists rest,
       snd (model_service_py.transcribe_batch P self [audio_path] w) = Return (r :: rest)) /\
  (snd (model_service_py.transcribe_batch P self [audio_path] w) = Return [] <->
   snd (model_service_py.transcribe P self audio_path w)
   = Raise (RuntimeError "Transcription failed: list index out of range") /\
   exists m, model self = Some m /\
             model_transcribe P m [fs w !! audio_path] = Return []).
Proof.
  unfold model_service_py.transcribe, model_service_py.transcribe_batch.
  destruct (model self) as [m|].
  2:{ cbn. split.
      - intros r. split; [discriminate|]. intros [rest H]. discriminate.
      - split; [discriminate|]. intros [_ (m & Hm & _)]. discriminate. }
  unfold try_except, bind, logger_info, logger_error, raise, ret.
  cbn [fst snd fs add_log map].
  destruct (model_transcribe P m [fs w !! audio_path]) as [[|o outputs]|e] eqn:E; cbn.
  - split.
    + intros r. split; [discriminate|]. intros [rest H]. discriminate.
    + split; [|done]. intros _. split; [done|eauto].
  - split.
    + intros r. split.
      * intros [= <-]. eexists. reflexivity.
      * intros [rest [= <- _]]. reflexivity.
    + split; [discriminate|]. intros [H _]. discriminate.
  - split.
    + intros r. split; [discriminate|]. intros [rest H]. discriminate.
    + split; [discriminate|]. intros [_ (m' & [= <-] & H)]. congruence.
Qed.

(** ** Start-up *)

Lemma startup_event_unfold (P : platform) (w : world) :
  _model_service_instance w = None ->
  app.startup_event P w
  = match from_pretrained P MODEL_NAME with
    | Return m =>
        let ms :=
          {| oid := allocated w;
             model := Some (if cuda_is_available P
                            then {| pretrained_name := pretrained_name m; on_cuda := true |}
                            else m);
             model_name := MODEL_NAME |} in
        (add_log "INFO" "Application ready!"
           (set_model_service (Some ms)
              (set__model_service_instance (Some ms)
                 (add_instance ms
                    (fst (model_service_py._load_model P
                            {| oid := allocated w; model := None; model_name := MODEL_NAME |}
                            (set_allocated (S (allocated w))
                               (add_log "INFO"
                                  "Loading ASR model (this may take a few minutes)..."
                                  (add_log "INFO" "Starting up application..." w)))))))),
         Return tt)
    | Raise e =>
        let e' := RuntimeError ("Model initialization failed: " ++ str e) in
        (add_log "ERROR" ("Failed to initialize model: " ++ str e')
           (fst (model_service_py._load_model P
                   {| oid := allocated w; model := None; model_name := MODEL_NAME |}
                   (set_allocated (S (allocated w))
                      (add_log "INFO"
                         "Loading ASR model (this may take a few minutes)..."
                         (add_log "INFO" "Starting up application..." w))))),
         Raise e')
    end.
Proof.
  intros Hg.
  unfold app.startup_event, model_service_py.get_model_service,
    model_service_py.new_ModelService, model_service_py._load_model,
    try_except, bind, logger_info, logger_error, raise, ret.
  cbn. rewrite Hg. cbn.
  change (model_name {| oid := allocated w; model := None; model_name := MODEL_NAME |})
    with MODEL_NAME.
  destruct (from_pretrained P MODEL_NAME) as [m|e]; cbn; [|reflexivity].
  destruct (cuda_is_available P); reflexivity.
Qed.

Lemma load_model_frame (P : platform) (self : ModelService) (w : world) :
  frame w (fst (model_service_py._load_model P self w)).
Proof.
  pose proof (load_model_spec P self w) as H.
  destruct (model_service_py._load_model P self w) as [w1 [s|e]]; cbn; tauto.
Qed.

(** X10. When the pretrained model cannot be loaded, [startup_event]
    re-raises the [RuntimeError] "Model initialization failed: ..." after
    logging it, registers no instance and leaves both globals [None]; from
    then on [/health], [/model-info] and [/transcribe] answer 503. *)
Theorem startup_failure_keeps_service_down (P : platform) (w : world) (e : exn)
    (file_id : string) (audio : UploadFile) :
  _model_service_instance w = None ->
  model_service w = None ->
  from_pretrained P MODEL_NAME = Raise e ->
  let w1 := fst (app.startup_event P w) in
  snd (app.startup_event P w)
    = Raise (RuntimeError ("Model initialization failed: " ++ str e)) /\
  last (log w1)
    = Some ("ERROR", "Failed to initialize model: Model initialization failed: " ++ str e) /\
  _model_service_instance w1 = None /\
  model_service w1 = None /\
  instances w1 = instances w /\
  fs w1 = fs w /\
  status_of (snd (app.health_check P w1)) = 503%nat /\
  status_of (snd (app.model_info P w1)) = 503%nat /\
  status_of (snd (app.transcribe_audio P file_id audio w1)) = 503%nat.
Proof.
  intros Hg Hm Hfail w1. subst w1.
  rewrite (startup_event_unfold P w Hg), Hfail. cbn [fst snd].
  set (w0 := set_allocated _ _).
  pose proof (load_model_frame P
    {| oid := allocated w; model := None; model_name := MODEL_NAME |} w0) as Hf.
  pose proof (load_model_spec P
    {| oid := allocated w; model := None; model_name := MODEL_NAME |} w0) as Hs.
  set (wl := fst (model_service_py._load_model P _ w0)) in *.
  assert (Hmw : model_service (add_log "ERROR"
            ("Failed to initialize model: "
             ++ str (RuntimeError ("Model initialization failed: " ++ str e))) wl) = None).
  { cbn. rewrite (frame_app_global _ _ Hf). exact Hm. }
  split; [reflexivity|].
  split; [cbn; by rewrite last_snoc|].
  split; [cbn; rewrite (frame_global _ _ Hf); exact Hg|].
  split; [exact Hmw|].
  split; [cbn; by rewrite (frame_instances _ _ Hf)|].
  split.
  { cbn. subst wl w0.
    unfold model_service_py._load_model, try_except, bind, logger_info, logger_error,
      raise, ret. cbn.
    change (model_name {| oid := allocated w; model := None; model_name := MODEL_NAME |})
      with MODEL_NAME.
    rewrite Hfail. reflexivity. }
  unfold app.health_check, app.model_info, app.transcribe_audio.
  rewrite Hmw. repeat split.
Qed.

Lemma startup_failure_keeps_service_down_witness :
  snd (app.startup_event Demo.offline Demo.booting)
    = Raise (RuntimeError "Model initialization failed: Connection refused") /\
  status_of (snd (app.health_check Demo.offline
                    (fst (app.startup_event Demo.offline Demo.booting)))) = 503%nat.
Proof.
  destruct (startup_failure_keeps_service_down Demo.offline Demo.booting
              (LibraryError "Connection refused") "id" Demo.clip
              eq_refl eq_refl eq_refl)
    as (Hr & _ & _ & _ & _ & _ & Hh & _).
  split; [exact Hr|exact Hh].
Defined.

(** X11. When the pretrained model loads, [startup_event] of a fresh
    process returns normally, creates exactly one [ModelService] and
    stores it in both globals; afterwards [/health] answers "healthy" with
    the same information as [/model-info]: model name
    "nvidia/parakeet-tdt-0.6b-v3", status "loaded", and device "cuda"
    exactly when CUDA is available, in which case the model was moved to
    the GPU. *)
Theorem startup_then_health (P : platform) (w : world) (m : ASRModel) :
  fresh_process w ->
  from_pretrained P MODEL_NAME = Return m ->
  let w1 := fst (app.startup_event P w) in
  let info :=
    {| info_model_name := "nvidia/parakeet-tdt-0.6b-v3";
       info_device := if cuda_is_available P then "cuda" else "cpu";
       info_status := "loaded" |} in
  snd (app.startup_event P w) = Return tt /\
  (exists ms m',
     model_service w1 = Some ms /\ _model_service_instance w1 = Some ms /\
     instances w1 = [ms] /\ model ms = Some m' /\
     pretrained_name m' = pretrained_name m /\
     (cuda_is_available P = true -> on_cuda m' = true) /\
     (cuda_is_available P = false -> m' = m)) /\
  app.health_check P w1
    = (w1, Return {| health_status := "healthy"; health_model := info |}) /\
  app.model_info P w1 = (w1, Return info).
Proof.
  intros (_ & _ & Hi & Hg & Hm) Hload w1 info. subst w1.
  rewrite (startup_event_unfold P w Hg), Hload. cbn [fst snd].
  set (w0 := set_allocated _ _).
  pose proof (load_model_frame P
    {| oid := allocated w; model := None; model_name := MODEL_NAME |} w0) as Hf.
  set (wl := fst (model_service_py._load_model P _ w0)) in *.
  split; [reflexivity|]. split.
  - eexists _, _. split; [reflexivity|]. split; [reflexivity|].
    split; [cbn; rewrite (frame_instances _ _ Hf); subst w0; cbn; by rewrite Hi|].
    split; [reflexivity|].
    destruct (cuda_is_available P); repeat split; try done.
  - unfold app.health_check, app.model_info. cbn. split; reflexivity.
Qed.

Lemma startup_then_health_witness :
  app.health_check Demo.platform0 Demo.serving
  = (Demo.serving,
     Return {| health_status := "healthy";
               health_model :=
                 {| info_model_name := "nvidia/parakeet-tdt-0.6b-v3";
                    info_device := "cpu"; info_status := "loaded" |} |}).
Proof.
  refine (proj1 (proj2 (proj2 (startup_then_health Demo.platform0 Demo.booting
             {| pretrained_name := MODEL_NAME; on_cuda := false |} _ eq_refl)))).
  by repeat split.
Defined.

(** ** The temporary files of a request *)

Lemma startswith_slash_cons (a : ascii) (s : string) :
  PyStr.startswith "/" (String a s) = if ascii_dec "/" a then true else false.
Proof.
  unfold PyStr.startswith.
  change (String.prefix "/" (String a s))
    with (if ascii_dec "/" a then String.prefix "" s else false).
  destruct (ascii_dec "/" a); [|reflexivity]. by destruct s.
Qed.

Lemma startswith_slash_app (f t t' : string) :
  PyStr.startswith "/" (f ++ String "_" t) = PyStr.startswith "/" (f ++ String "_" t').
Proof.
  destruct f as [|a f]; [reflexivity|].
  by rewrite !string_app_cons, !startswith_slash_cons.
Qed.

Lemma startswith_slash_app_false (f t : string) :
  PyStr.startswith "/" f = false ->
  PyStr.startswith "/" (f ++ String "_" t) = false.
Proof.
  destruct f as [|a f]; [reflexivity|].
  by rewrite string_app_cons, !startswith_slash_cons.
Qed.

Lemma join_relative (d b : string) :
  PyStr.startswith "/" b = false -> PyPath.join d b = join_prefix d ++ b.
Proof.
  intros Hb. unfold PyPath.join, join_prefix. rewrite Hb.
  destruct ((String.length d =? 0)%nat || PyStr.endswith_char "/" d); [reflexivity|].
  by rewrite string_app_assoc.
Qed.

Lemma join_absolute (d b : string) :
  PyStr.startswith "/" b = true -> PyPath.join d b = b.
Proof. intros Hb. unfold PyPath.join. by rewrite Hb. Qed.

Lemma join_inj (d b1 b2 : string) :
  PyStr.startswith "/" b1 = PyStr.startswith "/" b2 ->
  PyPath.join d b1 = PyPath.join d b2 -> b1 = b2.
Proof.
  intros Hs. destruct (PyStr.startswith "/" b2) eqn:E2.
  - by rewrite !join_absolute.
  - rewrite !join_relative by done. apply string_app_inv_head.
Qed.

Lemma string_app_inv_length (s1 s2 t1 t2 : string) :
  String.length s1 = String.length s2 ->
  s1 ++ t1 = s2 ++ t2 -> s1 = s2 /\ t1 = t2.
Proof.
  revert s2. induction s1 as [|a s1 IH]; intros [|b s2]; try discriminate.
  - intros _ H. done.
  - rewrite !string_app_cons. intros [= Hl] [= -> H].
    destruct (IH s2 Hl H) as [-> ->]. done.
Qed.

(** X12. The two temporary paths of a request are always different; and
    two requests whose ids have the same length (as all [uuid4] strings
    do), do not start with a slash and differ, share none of their
    temporary paths, whatever the extensions. *)
Theorem temp_paths_distinct (P : platform) :
  (forall file_id ext,
     app.input_path_of P file_id ext <> app.wav_path_of P file_id) /\
  (forall f1 f2 e1 e2,
     String.length f1 = String.length f2 ->
     PyStr.startswith "/" f1 = false ->
     PyStr.startswith "/" f2 = false ->
     f1 <> f2 ->
     app.wav_path_of P f1 <> app.wav_path_of P f2 /\
     app.input_path_of P f1 e1 <> app.input_path_of P f2 e2 /\
     app.input_path_of P f1 e1 <> app.wav_path_of P f2).
Proof.
  unfold app.input_path_of, app.wav_path_of. split.
  - intros file_id ext H.
    apply join_inj in H; [|apply startswith_slash_app].
    apply string_app_inv_head in H. discriminate H.
  - intros f1 f2 e1 e2 Hl H1 H2 Hne.
    repeat split; intros H; apply Hne;
      rewrite !join_relative in H by (by apply startswith_slash_app_false);
      apply string_app_inv_head in H;
      by destruct (string_app_inv_length _ _ _ _ Hl H).
Qed.

Lemma temp_paths_distinct_witness :
  app.wav_path_of Demo.platform0 "1f0e" <> app.wav_path_of Demo.platform0 "9c2a".
Proof.
  apply (proj2 (temp_paths_distinct Demo.platform0) "1f0e" "9c2a" ".mp3" ".wav");
    [reflexivity|reflexivity|reflexivity|discriminate].
Defined.

Lemma confined_weaken (Q Q' : string -> Prop) {A} (c : M A) :
  (forall p, Q p -> Q' p) -> confined Q c -> confined Q' c.
Proof. intros HQ Hc w p Hp. apply Hc. intros Hq. by apply Hp, HQ. Qed.

Lemma confined_ret (Q : string -> Prop) {A} (a : A) : confined Q (ret a).
Proof. by intros w p _. Qed.

Lemma confined_raise (Q : string -> Prop) {A} e : confined Q (@raise A e).
Proof. by intros w p _. Qed.

Lemma confined_read (Q : string -> Prop) {A} (f : world -> result A) :
  confined Q (fun w => (w, f w)).
Proof. by intros w p _. Qed.

Lemma confined_bind (Q : string -> Prop) {A B} (c : M A) (k : A -> M B) :
  confined Q c -> (forall a, confined Q (k a)) -> confined Q (bind c k).
Proof.
  intros Hc Hk w p Hp. unfold bind. specialize (Hc w p Hp).
  destruct (c w) as [w1 [a|e]]; cbn in *; [|exact Hc].
  rewrite <- Hc. by apply Hk.
Qed.

Lemma confined_try_except (Q : string -> Prop) {A} (c : M A) h :
  confined Q c -> (forall e k, h e = Some k -> confined Q k) ->
  confined Q (try_except c h).
Proof.
  intros Hc Hh w p Hp. unfold try_except. specialize (Hc w p Hp).
  destruct (c w) as [w1 [a|e]]; cbn in *; [exact Hc|].
  destruct (h e) as [k|] eqn:He; [|exact Hc].
  rewrite <- Hc. by eapply Hh.
Qed.

Lemma confined_try_finally (Q : string -> Prop) {A} (c : M A) f :
  confined Q c -> confined Q f -> confined Q (try_finally c f).
Proof.
  intros Hc Hf w p Hp. unfold try_finally. specialize (Hc w p Hp).
  destruct (c w) as [w1 r]; cbn in *. specialize (Hf w1 p Hp).
  destruct (f w1) as [w2 [[]|e]]; cbn in *; congruence.
Qed.

Lemma confined_when (Q : string -> Prop) b c : confined Q c -> confined Q (when b c).
Proof. destruct b; cbn; [done|]. intros _. apply confined_ret. Qed.

Lemma confined_logger_info Q m : confined Q (logger_info m).
Proof. by intros w p _. Qed.
Lemma confined_logger_warning Q m : confined Q (logger_warning m).
Proof. by intros w p _. Qed.
Lemma confined_logger_error Q m : confined Q (logger_error m).
Proof. by intros w p _. Qed.
Lemma confined_path_exists Q p : confined Q (os.path_exists p).
Proof. by intros w q _. Qed.
Lemma confined_path_isfile Q p : confined Q (os.path_isfile p).
Proof. by intros w q _. Qed.

Lemma confined_remove (Q : string -> Prop) p : Q p -> confined Q (os.remove p).
Proof.
  intros Hq w q Hnq. unfold os.remove.
  destruct (fs w !! p) as [[c|]|]; try reflexivity.
  destruct (decide (p ∈ undeletable w)); [reflexivity|]. cbn.
  apply lookup_delete_ne. by intros ->.
Qed.

Lemma confined_write_bytes (Q : string -> Prop) p b : Q p -> confined Q (os.write_bytes p b).
Proof.
  intros Hq w q Hnq. unfold os.write_bytes.
  destruct (decide (p ∈ unwritable w)); [reflexivity|].
  destruct (fs w !! p) as [[c|]|]; try reflexivity; cbn;
    apply lookup_insert_ne; by intros ->.
Qed.

Lemma confined_sf_write (P : platform) (Q : string -> Prop) p a r :
  Q p -> confined Q (sf.write P p a r).
Proof.
  intros Hq w q Hnq.
  destruct (sf_write_cases P p a r w) as [(-> & _)|(e & -> & _)]; [|reflexivity].
  cbn. apply lookup_insert_ne; by intros ->.
Qed.

Lemma confined_load (Q : string -> Prop) P p sr mono : confined Q (librosa.load P p sr mono).
Proof. intros w q _. by rewrite load_world. Qed.

Lemma confined_first_output (Q : string -> Prop) output :
  confined Q (model_service_py.first_output output).
Proof. destruct output; cbn; [apply confined_raise|apply confined_ret]. Qed.

Create HintDb confined.
#[local] Hint Resolve confined_ret confined_raise confined_read confined_when
  confined_logger_info confined_logger_warning confined_logger_error
  confined_path_exists confined_path_isfile confined_remove confined_write_bytes
  confined_sf_write confined_load confined_first_output : confined.

Ltac confined_step :=
  first
    [ solve [auto with confined]
    | apply confined_bind; [|intros ?]
    | apply confined_try_except;
      [|let e := fresh "e" in let k := fresh "k" in let H := fresh "H" in
        intros e k H; destruct e; simplify_eq]
    | apply confined_try_finally ].

Lemma confined_convert_to_wav (Q : string -> Prop) P i o :
  Q o -> confined Q (audio_utils.convert_to_wav P i (Some o)).
Proof.
  intros Hq. unfold audio_utils.convert_to_wav. repeat confined_step.
Qed.

Lemma confined_validate_audio (Q : string -> Prop) P p :
  confined Q (audio_utils.validate_audio P p).
Proof.
  unfold audio_utils.validate_audio. repeat confined_step.
  destruct (Qlt_le_dec _ _); auto with confined.
Qed.

Lemma confined_transcribe (Q : string -> Prop) P ms p :
  confined Q (model_service_py.transcribe P ms p).
Proof.
  unfold model_service_py.transcribe.
  destruct (model ms); [|auto with confined].
  repeat confined_step.
Qed.

#[local] Hint Resolve confined_convert_to_wav confined_validate_audio
  confined_transcribe : confined.

Lemma confined_transcribe_body (Q : string -> Prop) P ms audio i o :
  Q i -> Q o -> confined Q (app.transcribe_body P ms audio i o).
Proof.
  intros Hi Ho. unfold app.transcribe_body. repeat confined_step.
Qed.

Lemma confined_transcribe_cleanup (Q : string -> Prop) i o :
  Q i -> Q o -> confined Q (app.transcribe_cleanup i o).
Proof.
  intros Hi Ho. unfold app.transcribe_cleanup. repeat confined_step.
Qed.

(** X13. A [/transcribe] request changes no file other than its own two
    temporary paths, and leaves the model service, both globals and the
    host's permissions as they were: all it may change besides those two
    paths is the log. *)
Theorem transcribe_audio_confined (P : platform) (file_id : string) (audio : UploadFile)
    (w : world) :
  let w' := fst (app.transcribe_audio P file_id audio w) in
  (forall p,
     p <> app.input_path_of P file_id (app.file_extension_of P audio) ->
     p <> app.wav_path_of P file_id ->
     fs w' !! p = fs w !! p) /\
  instances w' = instances w /\
  _model_service_instance w' = _model_service_instance w /\
  model_service w' = model_service w /\
  allocated w' = allocated w /\
  undeletable w' = undeletable w /\
  unwritable w' = unwritable w.
Proof.
  intros w'. subst w'. split.
  - intros p Hi Ho. unfold app.transcribe_audio.
    destruct (model_service w) as [ms|]; [|reflexivity].
    destruct (negb _); [reflexivity|].
    set (Q := fun q => q = app.input_path_of P file_id (app.file_extension_of P audio)
                       \/ q = app.wav_path_of P file_id).
    apply (confined_try_finally Q).
    + apply confined_transcribe_body; [by left|by right].
    + apply confined_transcribe_cleanup; [by left|by right].
    + unfold Q. tauto.
  - destruct (framed_transcribe_audio P file_id audio w). repeat split; done.
Qed.

Lemma transcribe_audio_confined_witness :
  fs (fst (app.transcribe_audio Demo.platform0 "id" Demo.clip Demo.cluttered))
    !! "/srv/uploads/temp/a.wav"
  = fs Demo.cluttered !! "/srv/uploads/temp/a.wav".
Proof.
  apply (proj1 (transcribe_audio_confined Demo.platform0 "id" Demo.clip Demo.cluttered));
    vm_compute; discriminate.
Defined.

(** ** Requests end to end *)

Lemma write_bytes_ok (p : string) (b : list Byte.byte) (w : world) :
  p ∉ unwritable w -> fs w !! p <> Some Directory ->
  os.write_bytes p b w = (set_fs (<[p := RegularFile (Raw b)]>) w, Return tt).
Proof.
  intros Hu Hd. unfold os.write_bytes.
  destruct (decide (p ∈ unwritable w)); [contradiction|].
  by destruct (fs w !! p) as [[c|]|].
Qed.

Lemma convert_to_wav_ok (P : platform) (w : world) (i o : string)
    (b : list Byte.byte) (y0 : ndarray) (sr0 : positive) :
  fs w !! i = Some (RegularFile (Raw b)) ->
  decode_audio P b = Some (y0, sr0) ->
  sf.format_of P o = "WAV" ->
  o ∉ unwritable w -> fs w !! o <> Some Directory ->
  audio_utils.convert_to_wav P i (Some o) w
  = (set_fs (<[o := RegularFile
                      (Wav (librosa.resample_to P sr0 16000 (librosa.to_mono P y0)) 16000)]>) w,
     Return o).
Proof.
  intros Hi Hdec Hfmt Hu Hd.
  unfold audio_utils.convert_to_wav, try_except, bind, librosa.load.
  rewrite Hi. cbn [librosa.decode]. rewrite Hdec. cbn [fst snd].
  destruct (to_mono_flat P y0) as [y1 Hy1]. rewrite Hy1.
  destruct (resample_to_flat P sr0 SAMPLE_RATE y1) as [y2 Hy2].
  change 16000%positive with SAMPLE_RATE. rewrite Hy2.
  by rewrite (sf_write_ok P o (Arr1 y2) SAMPLE_RATE w (can_write_wav P o y2 Hfmt) Hu Hd).
Qed.

Lemma convert_to_wav_undecodable (P : platform) (w : world) (i o : string)
    (b : list Byte.byte) :
  fs w !! i = Some (RegularFile (Raw b)) ->
  decode_audio P b = None ->
  audio_utils.convert_to_wav P i (Some o) w
  = (w, Raise (ValueError "Failed to convert audio file: NoBackendError")).
Proof.
  intros Hi Hdec.
  unfold audio_utils.convert_to_wav, try_except, bind, librosa.load.
  rewrite Hi. cbn [librosa.decode]. rewrite Hdec. reflexivity.
Qed.

(** The response to an upload that can be saved. *)
Lemma transcribe_body_saved (P : platform) (ms : ModelService) (audio : UploadFile)
    (i o : string) (w : world) :
  i <> o ->
  sf.format_of P o = "WAV" ->
  i ∉ unwritable w -> fs w !! i <> Some Directory ->
  o ∉ unwritable w -> fs w !! o <> Some Directory ->
  snd (app.transcribe_body P ms audio i o w)
  = match decode_audio P (body audio) with
    | None =>
        Raise (HTTPException 400
                 "Audio conversion failed: Failed to convert audio file: NoBackendError")
    | Some (y0, sr0) =>
        let y := librosa.resample_to P sr0 16000 (librosa.to_mono P y0) in
        let d := Z.of_nat (shape_last y) # 16000 in
        if Qlt_le_dec (inject_Z 1440) d
        then Raise (HTTPException 400
                      ("Audio validation failed: Audio duration ("
                       ++ format_float P 1 d
                       ++ "s) exceeds maximum allowed duration (1440s)"))
        else
          match model ms with
          | None => Raise (HTTPException 500 "Transcription failed: Model not loaded")
          | Some m =>
              match model_transcribe P m [Some (RegularFile (Wav y 16000))] with
              | Raise e =>
                  Raise (HTTPException 500
                           ("Transcription failed: Transcription failed: " ++ str e))
              | Return [] =>
                  Raise (HTTPException 500
                    "Transcription failed: Transcription failed: list index out of range")
              | Return (out :: _) =>
                  Return {| success := true;
                            resp_text := text (model_service_py.result_of_output out);
                            resp_language := language (model_service_py.result_of_output out);
                            audio_duration := d;
                            original_filename := filename audio |}
              end
          end
    end.
Proof.
  intros Hio Hfmt Hiu Hid Hou Hod.
  unfold app.transcribe_body, try_except, bind, logger_info, logger_error, raise, ret.
  set (w0 := add_log "INFO" _ w).
  rewrite (write_bytes_ok i (body audio) w0) by (subst w0; cbn; assumption).
  cbv beta iota.
  set (w1 := add_log "INFO" _ (set_fs _ w0)).
  assert (Hfile : fs w1 !! i = Some (RegularFile (Raw (body audio))))
    by (subst w1 w0; cbn; by rewrite lookup_insert_eq).
  destruct (decode_audio P (body audio)) as [[y0 sr0]|] eqn:Hdec.
  2:{ rewrite (convert_to_wav_undecodable P w1 i o (body audio) Hfile Hdec).
      reflexivity. }
  rewrite (convert_to_wav_ok P w1 i o (body audio) y0 sr0 Hfile Hdec Hfmt)
    by (subst w1 w0; cbn; rewrite ?lookup_insert_ne by done; assumption).
  cbv beta iota.
  destruct (to_mono_flat P y0) as [y1 Hy1].
  destruct (resample_to_flat P sr0 16000 y1) as [y Hy].
  rewrite Hy1, Hy. cbv zeta.
  set (w2 := set_fs _ w1).
  assert (Hwav : fs w2 !! o = Some (RegularFile (Wav (Arr1 y) 16000)))
    by (subst w2; cbn; by rewrite lookup_insert_eq).
  cbv beta iota.
  rewrite (validate_wav_flat P w2 o y 16000 Hwav).
  change (shape_last (Arr1 y)) with (length y).
  destruct (Qlt_le_dec (inject_Z 1440) (Z.of_nat (length y) # 16000)); [reflexivity|].
  cbv beta iota.
  unfold model_service_py.transcribe.
  destruct (model ms) as [m|]; [|reflexivity].
  unfold try_except, bind, logger_info, logger_error, raise, ret.
  cbn [fst snd fs add_log].
  rewrite Hwav.
  destruct (model_transcribe P m [Some (RegularFile (Wav (Arr1 y) 16000))])
    as [[|out outs]|e]; reflexivity.
Qed.

Lemma input_path_ne_wav_path (P : platform) (file_id ext : string) :
  app.input_path_of P file_id ext <> app.wav_path_of P file_id.
Proof.
  unfold app.input_path_of, app.wav_path_of. intros H.
  apply join_inj in H; [|apply startswith_slash_app].
  apply string_app_inv_head in H. discriminate H.
Qed.

(** The response of an accepted request. *)
Lemma transcribe_audio_accepted (P : platform) (w : world) (file_id : string)
    (audio : UploadFile) (ms : ModelService) :
  accepted P w file_id audio ms ->
  snd (app.transcribe_audio P file_id audio w)
  = match decode_audio P (body audio) with
    | None =>
        Raise (HTTPException 400
                 "Audio conversion failed: Failed to convert audio file: NoBackendError")
    | Some (y0, sr0) =>
        let y := normalized P y0 sr0 in
        let d := normalized_duration P y0 sr0 in
        if Qlt_le_dec (inject_Z 1440) d
        then Raise (HTTPException 400
                      ("Audio validation failed: Audio duration ("
                       ++ format_float P 1 d
                       ++ "s) exceeds maximum allowed duration (1440s)"))
        else
          match model ms with
          | None => Raise (HTTPException 500 "Transcription failed: Model not loaded")
          | Some m =>
              match model_transcribe P m [Some (RegularFile (Wav y 16000))] with
              | Raise e =>
                  Raise (HTTPException 500
                           ("Transcription failed: Transcription failed: " ++ str e))
              | Return [] =>
                  Raise (HTTPException 500
                    "Transcription failed: Transcription failed: list index out of range")
              | Return (out :: _) =>
                  Return {| success := true;
                            resp_text := text (model_service_py.result_of_output out);
                            resp_language := language (model_service_py.result_of_output out);
                            audio_duration := d;
                            original_filename := filename audio |}
              end
          end
    end.
Proof.
  intros (Hms & Hext & Hiu & Hid & Hou & Hod).
  rewrite (transcribe_audio_outcome P w ms file_id audio Hms Hext).
  apply transcribe_body_saved; try assumption.
  - apply input_path_ne_wav_path.
  - apply wav_path_format.
Qed.

(** X14. An accepted upload whose bytes do not decode is answered 400
    with a detail that starts "Audio conversion failed: Failed to convert
    audio file: "; this holds in particular for an empty upload when the
    decoder rejects empty input. *)
Theorem undecodable_upload_is_400 (P : platform) (w : world) (file_id : string)
    (audio : UploadFile) (ms : ModelService) :
  accepted P w file_id audio ms ->
  decode_audio P (body audio) = None ->
  exists cause,
    snd (app.transcribe_audio P file_id audio w)
    = Raise (HTTPException 400
               ("Audio conversion failed: Failed to convert audio file: " ++ cause)).
Proof.
  intros Hacc Hdec.
  rewrite (transcribe_audio_accepted P w file_id audio ms Hacc), Hdec.
  by exists "NoBackendError".
Qed.

(** X15. An accepted upload that decodes but whose normalised waveform
    lasts more than 1440 seconds is answered 400 with the validator's
    message, which names the measured duration and the 1440 s limit; the
    model's answer plays no part. *)
Theorem too_long_upload_is_400 (P : platform) (w : world) (file_id : string)
    (audio : UploadFile) (ms : ModelService) (y0 : ndarray) (sr0 : positive) :
  accepted P w file_id audio ms ->
  decode_audio P (body audio) = Some (y0, sr0) ->
  (inject_Z 1440 < normalized_duration P y0 sr0)%Q ->
  snd (app.transcribe_audio P file_id audio w)
  = Raise (HTTPException 400
             ("Audio validation failed: Audio duration ("
              ++ format_float P 1 (normalized_duration P y0 sr0)
              ++ "s) exceeds maximum allowed duration (1440s)")).
Proof.
  intros Hacc Hdec Hlong.
  rewrite (transcribe_audio_accepted P w file_id audio ms Hacc), Hdec. cbv zeta.
  destruct (Qlt_le_dec (inject_Z 1440) (normalized_duration P y0 sr0)) as [_|Hle];
    [reflexivity|].
  exfalso. eapply Qlt_not_le; eauto.
Qed.

(** X16. An accepted upload that decodes, lasts at most 1440 seconds
    after normalisation and for which the model answers with at least one
    output gets the 200 body: the text and language of the first output
    ("auto-detected" when it names none), the duration of the normalised
    waveform, and the file name as the client declared it. *)
Theorem successful_transcription (P : platform) (w : world) (file_id : string)
    (audio : UploadFile) (ms : ModelService) (m : ASRModel) (y0 : ndarray)
    (sr0 : positive) (out : asr_output) (rest : list asr_output) :
  accepted P w file_id audio ms ->
  decode_audio P (body audio) = Some (y0, sr0) ->
  (normalized_duration P y0 sr0 <= inject_Z 1440)%Q ->
  model ms = Some m ->
  model_transcribe P m [Some (RegularFile (Wav (normalized P y0 sr0) 16000))]
    = Return (out :: rest) ->
  snd (app.transcribe_audio P file_id audio w)
  = Return {| success := true;
              resp_text := match out with PlainText t | HypothesisObj t _ => t end;
              resp_language :=
                match out with
                | HypothesisObj _ (Some l) => l
                | _ => "auto-detected"
                end;
              audio_duration := normalized_duration P y0 sr0;
              original_filename := filename audio |}.
Proof.
  intros Hacc Hdec Hshort Hm Hout.
  rewrite (transcribe_audio_accepted P w file_id audio ms Hacc), Hdec. cbv zeta.
  destruct (Qlt_le_dec (inject_Z 1440) (normalized_duration P y0 sr0)) as [Hlt|_].
  { exfalso. eapply Qlt_not_le; eauto. }
  rewrite Hm, Hout. reflexivity.
Qed.

(** X17. When the audio is fine but inference fails, the answer is 500
    and the detail carries the prefix twice, once from
    [ModelService.transcribe] and once from the handler: "Transcription
    failed: Transcription failed: " followed by the model's error, or by
    "list index out of range" when the model returns no output. *)
Theorem inference_failure_is_500 (P : platform) (w : world) (file_id : string)
    (audio : UploadFile) (ms : ModelService) (m : ASRModel) (y0 : ndarray)
    (sr0 : positive) :
  accepted P w file_id audio ms ->
  decode_audio P (body audio) = Some (y0, sr0) ->
  (normalized_duration P y0 sr0 <= inject_Z 1440)%Q ->
  model ms = Some m ->
  (forall e,
     model_transcribe P m [Some (RegularFile (Wav (normalized P y0 sr0) 16000))]
       = Raise e ->
     snd (app.transcribe_audio P file_id audio w)
     = Raise (HTTPException 500
                ("Transcription failed: Transcription failed: " ++ str e))) /\
  (model_transcribe P m [Some (RegularFile (Wav (normalized P y0 sr0) 16000))]
     = Return [] ->
   snd (app.transcribe_audio P file_id audio w)
   = Raise (HTTPException 500
              "Transcription failed: Transcription failed: list index out of range")).
Proof.
  intros Hacc Hdec Hshort Hm.
  rewrite (transcribe_audio_accepted P w file_id audio ms Hacc), Hdec. cbv zeta.
  destruct (Qlt_le_dec (inject_Z 1440) (normalized_duration P y0 sr0)) as [Hlt|_].
  { exfalso. eapply Qlt_not_le; eauto. }
  rewrite Hm. split.
  - intros e ->. reflexivity.
  - intros ->. reflexivity.
Qed.

Ltac demo_accepted :=
  split; [reflexivity|];
  split; [apply in_by_decide; reflexivity|];
  split; [vm_compute; set_solver|];
  split; [vm_compute; discriminate|];
  split; [vm_compute; set_solver|];
  vm_compute; discriminate.

Lemma undecodable_upload_is_400_witness :
  exists cause,
    snd (app.transcribe_audio Demo.platform0 "id" Demo.empty_clip Demo.serving)
    = Raise (HTTPException 400
               ("Audio conversion failed: Failed to convert audio file: " ++ cause)).
Proof.
  eapply (undecodable_upload_is_400 Demo.platform0 Demo.serving "id" Demo.empty_clip).
  - demo_accepted.
  - reflexivity.
Defined.

Lemma too_long_upload_is_400_witness :
  status_of (snd (app.transcribe_audio Demo.marathon "id" Demo.clip Demo.serving))
  = 400%nat.
Proof.
  erewrite (too_long_upload_is_400 Demo.marathon Demo.serving "id" Demo.clip _
              (Arr2 [[0%Q; 0%Q]; [0%Q; 0%Q]]) 8000).
  - reflexivity.
  - demo_accepted.
  - reflexivity.
  - change (normalized_duration Demo.marathon (Arr2 [[0%Q; 0%Q]; [0%Q; 0%Q]]) 8000)
      with (Z.of_nat (length (repeat 0%Q (N.to_nat 23040001))) # 16000).
    rewrite repeat_length, N_nat_Z. reflexivity.
Defined.

Lemma successful_transcription_witness :
  exists r,
    snd (app.transcribe_audio Demo.platform0 "id" Demo.clip Demo.serving) = Return r /\
    resp_text r = "hello" /\ resp_language r = "auto-detected".
Proof.
  eexists. split.
  - eapply (successful_transcription Demo.platform0 Demo.serving "id" Demo.clip _
              {| pretrained_name := MODEL_NAME; on_cuda := false |}
              (Arr2 [[0%Q; 0%Q]; [0%Q; 0%Q]]) 8000 (PlainText "hello") []).
    + demo_accepted.
    + reflexivity.
    + vm_compute. intros H. discriminate H.
    + reflexivity.
    + reflexivity.
  - split; reflexivity.
Defined.

Lemma inference_failure_is_500_witness :
  snd (app.transcribe_audio Demo.faulty "id" Demo.clip Demo.serving)
  = Raise (HTTPException 500
             "Transcription failed: Transcription failed: CUDA out of memory").
Proof.
  refine (proj1 (inference_failure_is_500 Demo.faulty Demo.serving "id" Demo.clip _
                   {| pretrained_name := MODEL_NAME; on_cuda := false |}
                   (Arr2 [[0%Q; 0%Q]; [0%Q; 0%Q]]) 8000 _ _ _ _)
            (LibraryError "CUDA out of memory") _).
  - demo_accepted.
  - reflexivity.
  - vm_compute. intros H. discriminate H.
  - reflexivity.
  - reflexivity.
Defined.

Lemma transcribe_cleanup_only_deletes (i o : string) (w : world) (p : string) :
  fs (fst (app.transcribe_cleanup i o w)) !! p = fs w !! p \/
  fs (fst (app.transcribe_cleanup i o w)) !! p = None.
Proof.
  assert (Hrm : forall q w0,
            fs (fst (os.remove q w0)) !! p = fs w0 !! p \/
            fs (fst (os.remove q w0)) !! p = None).
  { intros q w0. unfold os.remove.
    destruct (fs w0 !! q) as [[c|]|]; try by left.
    destruct (decide (q ∈ undeletable w0)); [by left|]. cbn.
    destruct (decide (q = p)) as [->|Hne].
    - right. apply lookup_delete_eq.
    - left. by apply lookup_delete_ne. }
  unfold app.transcribe_cleanup, try_except, bind, os.path_exists, when, logger_warning, ret.
  cbn [fst snd].
  destruct (bool_decide (is_Some (fs w !! i))).
  - pose proof (Hrm i w) as H1.
    destruct (os.remove i w) as [w1 [[]|e]]; cbn [fst snd] in *; [|exact H1].
    destruct (bool_decide (is_Some (fs w1 !! o))); cbn [fst snd]; [|exact H1].
    pose proof (Hrm o w1) as H2.
    destruct (os.remove o w1) as [w2 [[]|e]]; cbn [fst snd fs add_log] in *;
      destruct H1 as [H1|H1], H2 as [H2|H2]; rewrite ?H2, ?H1; tauto.
  - cbn [fst snd].
    destruct (bool_decide (is_Some (fs w !! o))); cbn [fst snd]; [|by left].
    pose proof (Hrm o w) as H2.
    by destruct (os.remove o w) as [w2 [[]|e]].
Qed.

Lemma transcribe_body_undecodable_files (P : platform) (ms : ModelService)
    (audio : UploadFile) (i o : string) (w : world) :
  i ∉ unwritable w -> fs w !! i <> Some Directory ->
  decode_audio P (body audio) = None ->
  fs (fst (app.transcribe_body P ms audio i o w))
  = <[i := RegularFile (Raw (body audio))]> (fs w).
Proof.
  intros Hiu Hid Hdec.
  unfold app.transcribe_body, try_except, bind, logger_info, logger_error, raise, ret.
  set (w0 := add_log "INFO" _ w).
  rewrite (write_bytes_ok i (body audio) w0) by (subst w0; cbn; assumption).
  cbv beta iota.
  set (w1 := add_log "INFO" _ (set_fs _ w0)).
  assert (Hfile : fs w1 !! i = Some (RegularFile (Raw (body audio))))
    by (subst w1 w0; cbn; by rewrite lookup_insert_eq).
  rewrite (convert_to_wav_undecodable P w1 i o (body audio) Hfile Hdec).
  reflexivity.
Qed.

(** X22. When the upload of an accepted request does not decode, no
    converted file is left behind: if the wav path of the request did not
    exist before, it does not exist when the handler returns, whether or
    not the cleanup succeeds. *)
Theorem undecodable_upload_leaves_no_wav (P : platform) (w : world) (file_id : string)
    (audio : UploadFile) (ms : ModelService) :
  accepted P w file_id audio ms ->
  decode_audio P (body audio) = None ->
  fs w !! app.wav_path_of P file_id = None ->
  fs (fst (app.transcribe_audio P file_id audio w)) !! app.wav_path_of P file_id = None.
Proof.
  intros (Hms & Hext & Hiu & Hid & _ & _) Hdec Hfresh.
  unfold app.transcribe_audio. rewrite Hms.
  rewrite bool_decide_eq_true_2 by exact Hext. cbn [negb].
  unfold try_finally.
  set (i := app.input_path_of P file_id (app.file_extension_of P audio)) in *.
  set (o := app.wav_path_of P file_id) in *.
  pose proof (transcribe_body_undecodable_files P ms audio i o w Hiu Hid Hdec) as Hfs.
  destruct (app.transcribe_body P ms audio i o w) as [w1 r]. cbn [fst] in Hfs.
  pose proof (transcribe_cleanup_only_deletes i o w1 o) as Hc.
  assert (Hw1 : fs w1 !! o = None).
  { rewrite Hfs, lookup_insert_ne; [done|]. apply input_path_ne_wav_path. }
  destruct (app.transcribe_cleanup i o w1) as [w2 [[]|e]]; cbn [fst] in *;
    destruct Hc as [Hc|Hc]; congruence.
Qed.

Lemma undecodable_upload_leaves_no_wav_witness :
  fs (fst (app.transcribe_audio Demo.platform0 "id" Demo.empty_clip Demo.serving))
    !! app.wav_path_of Demo.platform0 "id" = None.
Proof.
  eapply (undecodable_upload_leaves_no_wav Demo.platform0 Demo.serving "id"
            Demo.empty_clip).
  - demo_accepted.
  - reflexivity.
  - vm_compute. reflexivity.
Defined.

Lemma temp_paths_removed (P : platform) (w : world) (ms : ModelService)
    (audio : UploadFile) (i o : string) :
  fs w !! i <> Some Directory -> fs w !! o <> Some Directory ->
  i ∉ undeletable w -> o ∉ undeletable w ->
  let w' := fst (try_finally (app.transcribe_body P ms audio i o)
                             (app.transcribe_cleanup i o) w) in
  fs w' !! i = None /\ fs w' !! o = None.
Proof.
  intros Hi Ho Hui Huo. cbv zeta. unfold try_finally.
  pose proof (framed_transcribe_body P ms audio i o w) as Hf.
  destruct (app.transcribe_body P ms audio i o w) as [w1 r].
  cbn [fst] in Hf. destruct Hf as [Hu _ _ _ _ _ Hd].
  pose proof (transcribe_cleanup_removes i o w1) as Hc.
  rewrite Hu in Hc. rewrite !Hd in Hc. specialize (Hc Hi Ho Hui Huo).
  by destruct (app.transcribe_cleanup i o w1) as [w2 [[]|e]].
Qed.

(** X23. A request whose two temporary paths are fresh and which the host
    lets remove them leaves the file system exactly as it found it,
    whatever the outcome of the request. *)
Theorem transcribe_audio_leaves_no_trace (P : platform) (w : world) (file_id : string)
    (audio : UploadFile) :
  fs w !! app.input_path_of P file_id (app.file_extension_of P audio) = None ->
  fs w !! app.wav_path_of P file_id = None ->
  app.input_path_of P file_id (app.file_extension_of P audio) ∉ undeletable w ->
  app.wav_path_of P file_id ∉ undeletable w ->
  fs (fst (app.transcribe_audio P file_id audio w)) = fs w.
Proof.
  intros Hi Ho Hui Huo. unfold app.transcribe_audio.
  destruct (model_service w) as [ms|]; [|reflexivity].
  destruct (negb _); [reflexivity|].
  set (i := app.input_path_of P file_id (app.file_extension_of P audio)) in *.
  set (o := app.wav_path_of P file_id) in *.
  destruct (temp_paths_removed P w ms audio i o) as [Hgi Hgo];
    [congruence|congruence|done|done|].
  apply map_eq. intros p.
  destruct (decide (p = i)) as [->|Hpi]; [congruence|].
  destruct (decide (p = o)) as [->|Hpo]; [congruence|].
  apply (confined_try_finally (fun q => q = i \/ q = o)).
  - apply confined_transcribe_body; [by left|by right].
  - apply confined_transcribe_cleanup; [by left|by right].
  - tauto.
Qed.

Lemma transcribe_audio_leaves_no_trace_witness :
  fs (fst (app.transcribe_audio Demo.platform0 "id" Demo.clip Demo.serving))
  = fs Demo.serving.
Proof.
  apply transcribe_audio_leaves_no_trace.
  - vm_compute. reflexivity.
  - vm_compute. reflexivity.
  - vm_compute. set_solver.
  - vm_compute. set_solver.
Defined.

(** ** [DELETE /cleanup] in general *)

Lemma strip_prefix_split (pre s n : string) :
  PyStr.strip_prefix pre s = Some n -> s = pre ++ n.
Proof.
  revert s. induction pre as [|a pre IH]; intros s; cbn.
  - by intros [= ->].
  - destruct s as [|b s]; [discriminate|].
    destruct (Ascii.eqb a b) eqn:E; [|discriminate].
    apply Ascii.eqb_eq in E as ->. intros H.
    rewrite string_app_cons. f_equal. by apply IH.
Qed.

Lemma strip_prefix_app (pre n : string) :
  PyStr.strip_prefix pre (pre ++ n) = Some n.
Proof.
  induction pre as [|a pre IH]; [reflexivity|].
  rewrite string_app_cons. cbn. by rewrite Ascii.eqb_refl.
Qed.

Lemma string_app_nil_r (s : string) : s ++ "" = s.
Proof.
  induction s as [|a s IH]; [reflexivity|]. by rewrite string_app_cons, IH.
Qed.

Lemma no_slash_relative (n : string) :
  PyStr.contains_char "/" n = false -> PyStr.startswith "/" n = false.
Proof.
  destruct n as [|a n]; [reflexivity|]. cbn [PyStr.contains_char].
  rewrite startswith_slash_cons.
  destruct (Ascii.eqb a "/") eqn:E; [discriminate|]. intros _.
  destruct (ascii_dec "/" a) as [<-|]; [|reflexivity].
  by rewrite Ascii.eqb_refl in E.
Qed.

(** A path is an entry of directory [d] exactly when it is [d] joined
    with a non-empty name without separator. *)
Lemma entry_name_spec (d p n : string) :
  os.entry_name d p = Some n <->
  p = PyPath.join d n /\ n <> "" /\ PyStr.contains_char "/" n = false.
Proof.
  unfold os.entry_name.
  rewrite (join_relative d "") by reflexivity. rewrite string_app_nil_r.
  split.
  - destruct (PyStr.strip_prefix (join_prefix d) p) as [m|] eqn:E; [|discriminate].
    apply strip_prefix_split in E.
    destruct m as [|a m]; [discriminate|].
    destruct (PyStr.contains_char "/" (String a m)) eqn:Hs; cbn; [discriminate|].
    intros [= <-]. split; [|done].
    by rewrite join_relative by (by apply no_slash_relative).
  - intros (-> & Hne & Hs).
    rewrite join_relative by (by apply no_slash_relative).
    rewrite strip_prefix_app, Hs.
    by destruct n.
Qed.

Lemma listdir_spec (d : string) (w : world) :
  match os.listdir d w with
  | (w', Return names) =>
      w' = w /\ fs w !! d = Some Directory /\
      (forall n, n ∈ names <->
                 exists p x, fs w !! p = Some x /\ os.entry_name d p = Some n) /\
      NoDup (map (PyPath.join d) names)
  | (w', Raise e) => w' = w /\ fs w !! d <> Some Directory /\ exists m, e = OSError m
  end.
Proof.
  unfold os.listdir.
  destruct (fs w !! d) as [[c|]|] eqn:E; try (repeat split; [done|eauto]).
  split; [done|]. split; [done|]. split.
  - intros n. rewrite list_elem_of_omap. split.
    + intros ([p x] & Hin & Hn). apply elem_of_map_to_list in Hin. eauto.
    + intros (p & x & Hp & Hn). exists (p, x). split; [|done].
      by apply elem_of_map_to_list.
  - pose proof (NoDup_fst_map_to_list (fs w)) as Hnd.
    induction (map_to_list (fs w)) as [|[p x] l IH]; cbn; [constructor|].
    inversion Hnd as [|? ? Hnotin Hnd']; subst.
    destruct (os.entry_name d p) as [n|] eqn:En; cbn; [|by apply IH].
    constructor; [|by apply IH].
    apply entry_name_spec in En as (-> & _ & _).
    intros Hin. apply Hnotin.
    apply list_elem_of_fmap in Hin as (n' & Heq & Hin').
    apply list_elem_of_omap in Hin' as ([p' x'] & Hin'' & Hn').
    apply entry_name_spec in Hn' as (Hp' & _ & _). cbn in Hp'.
    apply list_elem_of_fmap. exists (p', x'). split; [|done]. cbn. congruence.
Qed.

(** One iteration of the loop of [cleanup_temp_files]. *)
Lemma cleanup_iteration (d file : string) (w : world) :
  (let file_path := PyPath.join d file in
   do isfile <- os.path_isfile file_path;
   when isfile (os.remove file_path)) w
  = match fs w !! PyPath.join d file with
    | Some (RegularFile _) =>
        if decide (PyPath.join d file ∈ undeletable w)
        then (w, Raise (OSError ("[Errno 13] Permission denied: " ++ PyPath.join d file)))
        else (set_fs (delete (PyPath.join d file)) w, Return tt)
    | _ => (w, Return tt)
    end.
Proof.
  cbv zeta. unfold bind, os.path_isfile, when, os.remove, ret.
  destruct (fs w !! PyPath.join d file) as [[c|]|] eqn:E; cbn; try reflexivity.
  rewrite E. by destruct (decide (PyPath.join d file ∈ undeletable w)).
Qed.

Section cleanup_loop.
Context (d : string).

Let body : string -> M unit :=
  fun file =>
    let file_path := PyPath.join d file in
    do isfile <- os.path_isfile file_path;
    when isfile (os.remove file_path).

Lemma cleanup_loop_cons (n : string) (l : list string) (w : world) :
  for_each (n :: l) body w
  = match fs w !! PyPath.join d n with
    | Some (RegularFile _) =>
        if decide (PyPath.join d n ∈ undeletable w)
        then (w, Raise (OSError ("[Errno 13] Permission denied: " ++ PyPath.join d n)))
        else for_each l body (set_fs (delete (PyPath.join d n)) w)
    | _ => for_each l body w
    end.
Proof.
  cbn [for_each]. unfold bind. unfold body at 1. rewrite cleanup_iteration.
  destruct (fs w !! PyPath.join d n) as [[c|]|]; try reflexivity.
  by destruct (decide (PyPath.join d n ∈ undeletable w)).
Qed.

Lemma cleanup_loop_scope (l : list string) (w : world) (p : string) :
  fs (fst (for_each l body w)) !! p = fs w !! p \/
  (fs (fst (for_each l body w)) !! p = None /\
   exists n c, n ∈ l /\ p = PyPath.join d n /\ fs w !! p = Some (RegularFile c)).
Proof.
  revert w. induction l as [|n l IH]; intros w; [by left|].
  rewrite cleanup_loop_cons.
  destruct (fs w !! PyPath.join d n) as [[c|]|] eqn:E.
  - destruct (decide (PyPath.join d n ∈ undeletable w)); [by left|].
    destruct (IH (set_fs (delete (PyPath.join d n)) w)) as [Hsame|(Hgone & n' & c' & Hin & -> & Hreg)].
    + rewrite Hsame. cbn. destruct (decide (PyPath.join d n = p)) as [<-|Hne].
      * right. rewrite lookup_delete_eq. split; [done|].
        exists n, c. split; [apply elem_of_cons; by left|done].
      * left. by rewrite lookup_delete_ne.
    + right. split; [exact Hgone|]. exists n', c'. split; [apply elem_of_cons; by right|]. split; [done|].
      cbn in Hreg. destruct (decide (PyPath.join d n = PyPath.join d n')) as [Heq|Hne].
      * rewrite Heq, lookup_delete_eq in Hreg. discriminate.
      * by rewrite lookup_delete_ne in Hreg.
  - destruct (IH w) as [Hsame|(Hgone & n' & c' & Hin & -> & Hreg)]; [by left|].
    right. split; [exact Hgone|]. exists n', c'. split; [apply elem_of_cons; by right|done].
  - destruct (IH w) as [Hsame|(Hgone & n' & c' & Hin & -> & Hreg)]; [by left|].
    right. split; [exact Hgone|]. exists n', c'. split; [apply elem_of_cons; by right|done].
Qed.

Lemma cleanup_loop_undeletable (l : list string) (w : world) :
  undeletable (fst (for_each l body w)) = undeletable w.
Proof.
  revert w. induction l as [|n l IH]; intros w; [done|].
  rewrite cleanup_loop_cons.
  destruct (fs w !! PyPath.join d n) as [[c|]|]; try apply IH.
  destruct (decide (PyPath.join d n ∈ undeletable w)); [done|].
  by rewrite IH.
Qed.

Lemma cleanup_loop_success (l : list string) (w : world) :
  snd (for_each l body w) = Return tt ->
  forall n c, n ∈ l ->
    fs (fst (for_each l body w)) !! PyPath.join d n <> Some (RegularFile c).
Proof.
  revert w. induction l as [|n l IH]; intros w; [set_solver|].
  rewrite cleanup_loop_cons.
  destruct (fs w !! PyPath.join d n) as [[c|]|] eqn:E.
  - destruct (decide (PyPath.join d n ∈ undeletable w)); [discriminate|].
    intros Hok n' c' Hin. apply elem_of_cons in Hin as [->|Hin]; [|by apply IH].
    destruct (cleanup_loop_scope l (set_fs (delete (PyPath.join d n)) w)
                (PyPath.join d n)) as [Hsame|[Hgone _]].
    + rewrite Hsame. cbn. by rewrite lookup_delete_eq.
    + by rewrite Hgone.
  - intros Hok n' c' Hin. apply elem_of_cons in Hin as [->|Hin]; [|by apply IH].
    destruct (cleanup_loop_scope l w (PyPath.join d n)) as [Hsame|[Hgone _]];
      congruence.
  - intros Hok n' c' Hin. apply elem_of_cons in Hin as [->|Hin]; [|by apply IH].
    destruct (cleanup_loop_scope l w (PyPath.join d n)) as [Hsame|[Hgone _]];
      congruence.
Qed.

Lemma cleanup_loop_failure (l : list string) (w : world) :
  (exists e, snd (for_each l body w) = Raise e) <->
  (exists n c, n ∈ l /\ fs w !! PyPath.join d n = Some (RegularFile c) /\
               PyPath.join d n ∈ undeletable w).
Proof.
  revert w. induction l as [|n l IH]; intros w.
  - split; [intros [e H]; discriminate|]. intros (n & c & Hin & _). set_solver.
  - rewrite cleanup_loop_cons.
    destruct (fs w !! PyPath.join d n) as [[c|]|] eqn:E.
    + destruct (decide (PyPath.join d n ∈ undeletable w)) as [Hu|Hu].
      * split; [|eauto]. intros _. exists n, c. split; [apply elem_of_cons; by left|done].
      * rewrite IH. cbn. split.
        -- intros (n' & c' & Hin & Hreg & Hun). exists n', c'.
           split; [apply elem_of_cons; by right|]. split; [|done].
           destruct (decide (PyPath.join d n = PyPath.join d n')) as [Heq|Hne].
           ++ rewrite Heq, lookup_delete_eq in Hreg. discriminate.
           ++ by rewrite lookup_delete_ne in Hreg.
        -- intros (n' & c' & Hin & Hreg & Hun).
           apply elem_of_cons in Hin as [->|Hin]; [contradiction|].
           exists n', c'. split; [done|]. split; [|done].
           rewrite lookup_delete_ne; [done|]. intros Heq. by rewrite Heq in Hu.
    + rewrite IH. split.
      * intros (n' & c' & Hin & H). exists n', c'. split; [apply elem_of_cons; by right|done].
      * intros (n' & c' & Hin & Hreg & Hun).
        apply elem_of_cons in Hin as [->|Hin]; [congruence|]. eauto.
    + rewrite IH. split.
      * intros (n' & c' & Hin & H). exists n', c'. split; [apply elem_of_cons; by right|done].
      * intros (n' & c' & Hin & Hreg & Hun).
        apply elem_of_cons in Hin as [->|Hin]; [congruence|]. eauto.
Qed.

Lemma cleanup_loop_count (l : list string) (w : world) :
  NoDup (map (PyPath.join d) l) ->
  (forall n, n ∈ l -> exists c, fs w !! PyPath.join d n = Some (RegularFile c)) ->
  snd (for_each l body w) = Return tt ->
  size (fs w) = (size (fs (fst (for_each l body w))) + length l)%nat.
Proof.
  revert w. induction l as [|n l IH]; intros w Hnd Hreg; [cbn; lia|].
  rewrite cleanup_loop_cons.
  destruct (Hreg n) as [c Hc]; [apply elem_of_cons; by left|]. rewrite Hc.
  destruct (decide (PyPath.join d n ∈ undeletable w)); [discriminate|].
  inversion Hnd as [|? ? Hnotin Hnd']; subst.
  intros Hok.
  assert (Hrest : forall n', n' ∈ l ->
            exists c', fs (set_fs (delete (PyPath.join d n)) w) !! PyPath.join d n'
                       = Some (RegularFile c')).
  { intros n' Hin. destruct (Hreg n') as [c' Hc']; [apply elem_of_cons; by right|]. exists c'. cbn.
    rewrite lookup_delete_ne; [done|]. intros Heq. apply Hnotin.
    rewrite Heq. apply list_elem_of_fmap. eauto. }
  pose proof (IH (set_fs (delete (PyPath.join d n)) w) Hnd' Hrest Hok) as Hsize.
  cbn [fs set_fs] in Hsize. rewrite map_size_delete_Some in Hsize by eauto.
  assert (size (fs w) <> 0%nat); [|cbn [length]; lia].
  intros Hz. apply map_size_empty_inv in Hz. rewrite Hz in Hc.
  by rewrite lookup_empty in Hc.
Qed.

End cleanup_loop.

Lemma cleanup_temp_files_unfold (P : platform) (w : world) :
  app.cleanup_temp_files P w
  = match os.listdir (TEMP_DIR P) w with
    | (_, Raise e) => (w, Raise (HTTPException 500 ("Cleanup failed: " ++ str e)))
    | (_, Return names) =>
        match for_each names
                (fun file =>
                   let file_path := PyPath.join (TEMP_DIR P) file in
                   do isfile <- os.path_isfile file_path;
                   when isfile (os.remove file_path)) w with
        | (w', Return _) =>
            (w', Return {| cleanup_success := true; files_deleted := length names |})
        | (w', Raise e) =>
            (w', Raise (HTTPException 500 ("Cleanup failed: " ++ str e)))
        end
    end.
Proof.
  unfold app.cleanup_temp_files, try_except, bind, raise, ret.
  pose proof (listdir_spec (TEMP_DIR P) w) as Hl.
  destruct (os.listdir (TEMP_DIR P) w) as [w0 [names|e]].
  - destruct Hl as [-> _].
    by destruct (for_each names _ w) as [w' [[]|e]].
  - by destruct Hl as [-> _].
Qed.

(** X18. [DELETE /cleanup] only ever removes regular files that lie
    directly in the temporary directory: every other path, every
    directory and every path outside it is left as it was, nothing is
    created, and the model service and both globals are untouched. *)
Theorem cleanup_temp_files_scope (P : platform) (w : world) :
  let w' := fst (app.cleanup_temp_files P w) in
  (forall p,
     fs w' !! p = fs w !! p \/
     (fs w' !! p = None /\
      (exists c, fs w !! p = Some (RegularFile c)) /\
      exists n, os.entry_name (TEMP_DIR P) p = Some n)) /\
  instances w' = instances w /\
  _model_service_instance w' = _model_service_instance w /\
  model_service w' = model_service w.
Proof.
  intros w'. subst w'. split.
  - intros p. rewrite cleanup_temp_files_unfold.
    pose proof (listdir_spec (TEMP_DIR P) w) as Hl.
    destruct (os.listdir (TEMP_DIR P) w) as [w0 [names|e]]; [|by left].
    destruct Hl as (-> & _ & Hnames & _).
    pose proof (cleanup_loop_scope (TEMP_DIR P) names w p) as Hs. cbv zeta in Hs.
    destruct (for_each names _ w) as [w' [[]|e]]; cbn [fst] in *.
    all: destruct Hs as [Hsame|(Hgone & n & c & Hin & -> & Hreg)]; [by left|].
    all: right; split; [done|]; split; [eauto|].
    all: apply Hnames in Hin as (p' & x & _ & Hn).
    all: exists n; apply entry_name_spec.
    all: by apply entry_name_spec in Hn as (_ & ? & ?).
  - destruct (framed_cleanup_temp_files P w). repeat split; done.
Qed.

Lemma cleanup_temp_files_scope_witness :
  fs (fst (app.cleanup_temp_files Demo.platform0 Demo.cluttered)) !! "/srv/uploads/temp/sub"
  = Some Directory.
Proof.
  destruct (proj1 (cleanup_temp_files_scope Demo.platform0 Demo.cluttered)
              "/srv/uploads/temp/sub") as [Hsame|(_ & [c Hc] & _)].
  - rewrite Hsame. vm_compute. reflexivity.
  - exfalso. vm_compute in Hc. discriminate Hc.
Defined.

(** X19. When [DELETE /cleanup] answers 200, no regular file is left
    directly in the temporary directory, and [files_deleted] is the number
    of entries [os.listdir] returned; when none of these entries is a
    directory, that is exactly the number of files that disappeared. *)
Theorem cleanup_temp_files_success (P : platform) (w : world) (resp : CleanupResponse) :
  snd (app.cleanup_temp_files P w) = Return resp ->
  let w' := fst (app.cleanup_temp_files P w) in
  cleanup_success resp = true /\
  (exists names,
     os.listdir (TEMP_DIR P) w = (w, Return names) /\
     files_deleted resp = length names) /\
  (forall p n c, os.entry_name (TEMP_DIR P) p = Some n ->
                 fs w' !! p <> Some (RegularFile c)) /\
  ((forall p n, os.entry_name (TEMP_DIR P) p = Some n -> fs w !! p <> Some Directory) ->
   size (fs w) = (size (fs w') + files_deleted resp)%nat).
Proof.
  rewrite cleanup_temp_files_unfold.
  pose proof (listdir_spec (TEMP_DIR P) w) as Hl.
  destruct (os.listdir (TEMP_DIR P) w) as [w0 [names|e]]; [|discriminate].
  destruct Hl as (-> & Hdir & Hnames & Hnd).
  pose proof (cleanup_loop_success (TEMP_DIR P) names w) as Hs.
  pose proof (cleanup_loop_scope (TEMP_DIR P) names w) as Hsc.
  pose proof (cleanup_loop_count (TEMP_DIR P) names w Hnd) as Hc.
  cbv zeta in Hs, Hsc, Hc.
  destruct (for_each names _ w) as [w' [[]|e]]; cbn [fst snd] in *; [|discriminate].
  intros [= <-]. cbn [cleanup_success files_deleted]. split; [done|]. split; [eauto|]. split.
  - intros p n c Hn Hreg.
    pose proof Hn as Hn'. apply entry_name_spec in Hn' as (-> & _ & _).
    apply (Hs eq_refl n c); [|done].
    apply Hnames.
    destruct (Hsc (PyPath.join (TEMP_DIR P) n)) as [Hsame|[Hgone _]]; [|congruence].
    rewrite Hsame in Hreg. eauto.
  - intros Hnodir. apply Hc; [|done].
    intros n Hin. apply Hnames in Hin as (p & x & Hp & Hn).
    pose proof Hn as Hn'. apply entry_name_spec in Hn' as (-> & _ & _).
    destruct x as [c|]; [eauto|]. by destruct (Hnodir _ _ Hn).
Qed.

(** X20. [DELETE /cleanup] fails exactly when the temporary directory is
    not a directory, or some regular file directly in it cannot be
    removed; the failure is always a 500 whose detail starts "Cleanup
    failed: ", and in the first case nothing has been changed. *)
Theorem cleanup_temp_files_failure (P : platform) (w : world) :
  ((exists e, snd (app.cleanup_temp_files P w) = Raise e) <->
   fs w !! TEMP_DIR P <> Some Directory \/
   (exists p n c, os.entry_name (TEMP_DIR P) p = Some n /\
                  fs w !! p = Some (RegularFile c) /\ p ∈ undeletable w)) /\
  (forall e, snd (app.cleanup_temp_files P w) = Raise e ->
     exists cause, e = HTTPException 500 ("Cleanup failed: " ++ cause)) /\
  (fs w !! TEMP_DIR P <> Some Directory -> fst (app.cleanup_temp_files P w) = w).
Proof.
  rewrite cleanup_temp_files_unfold.
  pose proof (listdir_spec (TEMP_DIR P) w) as Hl.
  destruct (os.listdir (TEMP_DIR P) w) as [w0 [names|e]].
  - destruct Hl as (-> & Hdir & Hnames & Hnd).
    pose proof (cleanup_loop_failure (TEMP_DIR P) names w) as Hf. cbv zeta in Hf.
    destruct (for_each names _ w) as [w' [[]|e]]; cbn [fst snd] in *.
    + split; [|split; [discriminate|done]]. split; [intros [e He]; discriminate|].
      intros [Hno|(p & n & c & Hn & Hreg & Hu)]; [done|].
      destruct (proj2 Hf) as [e He]; [|discriminate].
      pose proof Hn as Hn'. apply entry_name_spec in Hn' as (-> & _ & _).
      exists n, c. split; [|done]. apply Hnames. eauto.
    + split; [|split; [intros e' [= <-]; eauto|done]]. split; [|eauto].
      intros _. right. destruct (proj1 Hf) as (n & c & Hin & Hreg & Hu); [eauto|].
      apply Hnames in Hin as (p & x & Hp & Hn).
      pose proof Hn as Hn'. apply entry_name_spec in Hn' as (-> & _ & _). eauto 10.
  - destruct Hl as (-> & Hdir & m & ->). cbn.
    split; [|split; [intros e' [= <-]; eauto|done]]. split; [by left|eauto].
Qed.

Lemma cleanup_temp_files_success_witness :
  fs (fst (app.cleanup_temp_files Demo.platform0 Demo.cluttered))
    !! "/srv/uploads/temp/a.wav"
  <> Some Demo.short_wav.
Proof.
  refine (proj1 (proj2 (proj2 (cleanup_temp_files_success Demo.platform0 Demo.cluttered
            {| cleanup_success := true; files_deleted := 2 |} _)))
            "/srv/uploads/temp/a.wav" "a.wav" _ _).
  - vm_compute. reflexivity.
  - vm_compute. reflexivity.
Defined.

Lemma cleanup_temp_files_failure_witness :
  exists e, snd (app.cleanup_temp_files Demo.platform0 Demo.archive) = Raise e.
Proof.
  apply (proj1 (cleanup_temp_files_failure Demo.platform0 Demo.archive)).
  left. vm_compute. discriminate.
Defined.
(** ** The extension check *)

Lemma lower_ascii_keeps (c a : ascii) :
  PyStr.lower_ascii c = c ->
  (forall b, PyStr.lower_ascii b = c -> b = c) ->
  Ascii.eqb (PyStr.lower_ascii a) c = Ascii.eqb a c.
Proof.
  intros Hc Honly.
  destruct (Ascii.eqb a c) eqn:E.
  - apply Ascii.eqb_eq in E as ->. rewrite Hc. apply Ascii.eqb_refl.
  - apply Ascii.eqb_neq. intros H. apply Honly in H. subst.
    by rewrite Ascii.eqb_refl in E.
Qed.

Lemma lower_ascii_idem (a : ascii) :
  PyStr.lower_ascii (PyStr.lower_ascii a) = PyStr.lower_ascii a.
Proof.
  destruct a as [[] [] [] [] [] [] [] []]; reflexivity.
Qed.

Lemma lower_ascii_dot (b : ascii) : PyStr.lower_ascii b = "."%char -> b = "."%char.
Proof.
  destruct b as [[] [] [] [] [] [] [] []]; cbv; intros H; try reflexivity; discriminate H.
Qed.

Lemma lower_ascii_slash (b : ascii) : PyStr.lower_ascii b = "/"%char -> b = "/"%char.
Proof.
  destruct b as [[] [] [] [] [] [] [] []]; cbv; intros H; try reflexivity; discriminate H.
Qed.

Lemma lower_ascii_range (a : ascii) :
  (nat_of_ascii (PyStr.lower_ascii a) <? 128)%nat = (nat_of_ascii a <? 128)%nat.
Proof.
  destruct a as [[] [] [] [] [] [] [] []]; reflexivity.
Qed.

Lemma ascii_lower_idem (s : string) :
  PyStr.ascii_lower (PyStr.ascii_lower s) = PyStr.ascii_lower s.
Proof.
  induction s as [|a s IH]; [reflexivity|]. cbn. by rewrite lower_ascii_idem, IH.
Qed.

Lemma ascii_lower_app (s t : string) :
  PyStr.ascii_lower (s ++ t) = PyStr.ascii_lower s ++ PyStr.ascii_lower t.
Proof.
  induction s as [|a s IH]; [reflexivity|].
  rewrite string_app_cons. cbn [PyStr.ascii_lower]. by rewrite string_app_cons, IH.
Qed.

Lemma ascii_lower_length (s : string) :
  String.length (PyStr.ascii_lower s) = String.length s.
Proof. induction s as [|a s IH]; [reflexivity|]. cbn. by rewrite IH. Qed.

Lemma is_ascii_lower (s : string) :
  PyStr.is_ascii (PyStr.ascii_lower s) = PyStr.is_ascii s.
Proof.
  induction s as [|a s IH]; [reflexivity|].
  cbn [PyStr.ascii_lower PyStr.is_ascii]. by rewrite lower_ascii_range, IH.
Qed.

Lemma is_ascii_app (s t : string) :
  PyStr.is_ascii (s ++ t) = PyStr.is_ascii s && PyStr.is_ascii t.
Proof.
  induction s as [|a s IH]; [reflexivity|].
  rewrite string_app_cons. cbn [PyStr.is_ascii]. rewrite IH.
  by destruct (nat_of_ascii a <? 128)%nat.
Qed.

Lemma rpartition_lower (c : ascii) (s : string) :
  PyStr.lower_ascii c = c ->
  (forall b, PyStr.lower_ascii b = c -> b = c) ->
  PyStr.rpartition c (PyStr.ascii_lower s)
  = match PyStr.rpartition c s with
    | Some (l, r) => Some (PyStr.ascii_lower l, PyStr.ascii_lower r)
    | None => None
    end.
Proof.
  intros Hc Honly. induction s as [|a s IH]; [reflexivity|].
  cbn [PyStr.ascii_lower PyStr.rpartition]. rewrite IH.
  destruct (PyStr.rpartition c s) as [[l r]|]; [reflexivity|].
  rewrite (lower_ascii_keeps c a Hc Honly).
  by destruct (Ascii.eqb a c).
Qed.

Lemma split_lower (s : string) :
  PyStr.split "/" (PyStr.ascii_lower s)
  = List.map PyStr.ascii_lower (PyStr.split "/" s).
Proof.
  induction s as [|a s IH]; [reflexivity|].
  cbn [PyStr.ascii_lower PyStr.split]. rewrite IH.
  rewrite (lower_ascii_keeps "/" a eq_refl lower_ascii_slash).
  destruct (Ascii.eqb a "/"); [reflexivity|].
  by destruct (PyStr.split "/" s).
Qed.

Lemma split_is_ascii (s : string) :
  PyStr.is_ascii s = true ->
  Forall (fun x => PyStr.is_ascii x = true) (PyStr.split "/" s).
Proof.
  induction s as [|a s IH]; [by repeat constructor|].
  cbn [PyStr.is_ascii PyStr.split]. intros [Ha Hs]%andb_prop.
  specialize (IH Hs).
  destruct (Ascii.eqb a "/"); [by constructor|].
  destruct (PyStr.split "/" s) as [|x xs].
  - constructor; [|constructor]. cbn [PyStr.is_ascii]. by rewrite Ha.
  - inversion IH as [|? ? Hx Hxs]; subst. constructor; [|exact Hxs].
    cbn [PyStr.is_ascii]. by rewrite Ha, Hx.
Qed.

Lemma kept_lower (x : string) : PyPath.kept (PyStr.ascii_lower x) = PyPath.kept x.
Proof.
  unfold PyPath.kept.
  destruct x as [|a [|a' x]]; [reflexivity| |].
  - cbn [PyStr.ascii_lower String.eqb].
    by rewrite (lower_ascii_keeps "." a eq_refl lower_ascii_dot).
  - cbn [PyStr.ascii_lower String.eqb].
    by destruct (Ascii.eqb (PyStr.lower_ascii a) "."), (Ascii.eqb a ".").
Qed.

Lemma parts_lower (p : string) :
  PyPath.parts (PyStr.ascii_lower p) = List.map PyStr.ascii_lower (PyPath.parts p).
Proof.
  unfold PyPath.parts. rewrite split_lower.
  induction (PyStr.split "/" p) as [|x xs IH]; [reflexivity|].
  cbn [List.map List.filter]. rewrite kept_lower, IH.
  by destruct (PyPath.kept x).
Qed.

Lemma last_map_lower (l : list string) :
  List.last (List.map PyStr.ascii_lower l) "" = PyStr.ascii_lower (List.last l "").
Proof.
  induction l as [|x [|y l] IH]; [reflexivity..|]. exact IH.
Qed.

Lemma name_lower (p : string) :
  PyPath.name (PyStr.ascii_lower p) = PyStr.ascii_lower (PyPath.name p).
Proof. unfold PyPath.name. by rewrite parts_lower, last_map_lower. Qed.

Lemma name_is_ascii (p : string) :
  PyStr.is_ascii p = true -> PyStr.is_ascii (PyPath.name p) = true.
Proof.
  intros Hp. unfold PyPath.name, PyPath.parts.
  pose proof (split_is_ascii p Hp) as Hall.
  induction (PyStr.split "/" p) as [|x xs IH]; [reflexivity|].
  inversion Hall as [|? ? Hx Hxs]; subst. specialize (IH Hxs).
  cbn [List.filter]. destruct (PyPath.kept x); [|exact IH].
  destruct (List.filter PyPath.kept xs) as [|z zs] eqn:E; [exact Hx|exact IH].
Qed.

Lemma suffix_lower (p : string) :
  PyPath.suffix (PyStr.ascii_lower p) = PyStr.ascii_lower (PyPath.suffix p).
Proof.
  unfold PyPath.suffix. rewrite name_lower.
  rewrite (rpartition_lower "." _ eq_refl lower_ascii_dot).
  destruct (PyStr.rpartition "." (PyPath.name p)) as [[l r]|]; [|reflexivity].
  rewrite !ascii_lower_length.
  destruct ((0 <? String.length l)%nat && (0 <? String.length r)%nat); [|reflexivity].
  by rewrite ascii_lower_app.
Qed.

Lemma suffix_is_ascii (p : string) :
  PyStr.is_ascii p = true -> PyStr.is_ascii (PyPath.suffix p) = true.
Proof.
  intros Hp. apply name_is_ascii in Hp. unfold PyPath.suffix.
  destruct (PyStr.rpartition "." (PyPath.name p)) as [[l r]|] eqn:E; [|reflexivity].
  apply rpartition_split in E. rewrite E, is_ascii_app in Hp.
  apply andb_prop in Hp as [_ Hr].
  by destruct ((0 <? String.length l)%nat && (0 <? String.length r)%nat).
Qed.

(** X21. For a declared file name of ASCII characters, the extension check
    does not depend on the case of the name: the extension the handler
    computes is already lower-case, and lower-casing the file name first
    gives the same extension, hence the same decision. *)
Theorem file_extension_case_insensitive (P : platform) (f : string)
    (b : list Byte.byte) :
  PyStr.is_ascii f = true ->
  Str.lower P (app.file_extension_of P {| filename := f; body := b |})
    = app.file_extension_of P {| filename := f; body := b |} /\
  app.file_extension_of P {| filename := Str.lower P f; body := b |}
    = app.file_extension_of P {| filename := f; body := b |}.
Proof.
  intros Hf. unfold app.file_extension_of. cbn [filename].
  pose proof (suffix_is_ascii f Hf) as Hs.
  unfold Str.lower. rewrite Hf, Hs, is_ascii_lower, Hs. split.
  - apply ascii_lower_idem.
  - by rewrite suffix_lower, is_ascii_lower, Hs, ascii_lower_idem.
Qed.

Lemma file_extension_case_insensitive_witness :
  Str.lower Demo.platform0
    (app.file_extension_of Demo.platform0 {| filename := "Talk.A/Take.MP3"; body := [] |})
    = app.file_extension_of Demo.platform0 {| filename := "Talk.A/Take.MP3"; body := [] |} /\
  app.file_extension_of Demo.platform0
    {| filename := Str.lower Demo.platform0 "Talk.A/Take.MP3"; body := [] |}
    = app.file_extension_of Demo.platform0 {| filename := "Talk.A/Take.MP3"; body := [] |}.
Proof.
  apply (file_extension_case_insensitive Demo.platform0 "Talk.A/Take.MP3" []).
  vm_compute. reflexivity.
Defined.
